(** Verification of the notebooks under [pract-examples/]:
    - [pipelines_custom_training.ipynb]
    - [explainable_text_classification.ipynb]
    - [fairness_tfdv_tfma.ipynb]

    The Python of the code cells is embedded function by function.  Calls
    into the SDKs (BigQuery, Vertex AI, matplotlib, ...) are calls of an
    external interface: each one is logged and may raise.  Python's floats
    are the primitive binary64 floats, with the IEEE 754 specification of
    their operations.  For what is said about all cells at once, module
    [Nb] holds the syntax tree of every cell of the three notebooks. *)

From Stdlib Require Import Floats.
From Stdlib Require Import String Ascii List ZArith QArith Lia Bool Sorted.
From stdpp Require Import base option list gmap strings.

Import ListNotations.
Local Open Scope string_scope.
Local Open Scope list_scope.

(** * Python values and exceptions *)

Module Py.

(** The exceptions the modelled code can meet. *)
Inductive exn : Type :=
| KeyError (key : string)
| IndexError
| ValueError
| SdkError (what : string).

Inductive result (A : Type) : Type :=
| Ok (a : A)
| Raise (e : exn).
Arguments Ok {A} a.
Arguments Raise {A} e.

(** A computation logs the external calls it makes, in order, and either
    returns or raises.  Nothing in the notebooks catches an exception, so
    [bind] stops at the first [Raise]. *)
Definition M (E A : Type) : Type := list E -> result A * list E.

Definition ret {E A} (a : A) : M E A := fun log => (Ok a, log).

Definition raise {E A} (e : exn) : M E A := fun log => (Raise e, log).

Definition bind {E A B} (m : M E A) (k : A -> M E B) : M E B :=
  fun log =>
    match m log with
    | (Ok a, log') => k a log'
    | (Raise e, log') => (Raise e, log')
    end.

(** An external call: the event is logged, then the callee's outcome is
    the outcome of the call. *)
Definition call {E A} (ev : E) (outcome : result A) : M E A :=
  fun log => (outcome, log ++ [ev]).

Definition lift {E A} (r : result A) : M E A := fun log => (r, log).

Definition run {E A} (m : M E A) : result A * list E := m [].

(** ** Strings *)

(** The double-quote character, for literals that contain it. *)
Definition dq : string := String "034"%char EmptyString.

(** [s.startswith(p)] *)
Definition startswith (s p : string) : bool := String.prefix p s.

(** [s[n:]] for [0 <= n] *)
Fixpoint slice_from (n : nat) (s : string) : string :=
  match n, s with
  | O, _ => s
  | S _, EmptyString => EmptyString
  | S n', String _ s' => slice_from n' s'
  end.

(** [len(s)] *)
Definition len (s : string) : nat := String.length s.

(** [s.split(sep)] for a one-character separator. *)
Fixpoint split_on (sep : ascii) (s : string) : list string :=
  match s with
  | EmptyString => [EmptyString]
  | String c s' =>
      if Ascii.eqb c sep then EmptyString :: split_on sep s'
      else match split_on sep s' with
           | [] => [String c EmptyString]
           | field :: fields => String c field :: fields
           end
  end.

(** ** Sequences *)

(** [xs[i]] on a list or array of length [n]: a negative index counts
    from the end, an index outside [-n, n) raises IndexError. *)
Definition index {A} (xs : list A) (i : Z) : result A :=
  let n := Z.of_nat (length xs) in
  let j := if (i <? 0)%Z then (i + n)%Z else i in
  if ((0 <=? j) && (j <? n))%Z
  then match xs !! Z.to_nat j with
       | Some x => Ok x
       | None => Raise IndexError
       end
  else Raise IndexError.

Definition valid_index {A} (xs : list A) (i : Z) : Prop :=
  (- Z.of_nat (length xs) <= i < Z.of_nat (length xs))%Z.

End Py.

Notation "'let!' x ':=' m 'in' k" := (Py.bind m (fun x => k))
  (at level 10, x name, m at level 100, k at level 200, only parsing).
Notation "'do!' m 'in' k" := (Py.bind m (fun _ => k))
  (at level 10, m at level 100, k at level 200, only parsing).

(** * [traincontainer/trainer/train.py]
    (written by a [%%writefile] cell of pipelines_custom_training.ipynb) *)

Module Train.
Import Py.

(** ** pandas DataFrame, as far as the script uses it *)

Record DataFrame (cell : Type) : Type := mkDataFrame {
  columns : list string;
  values : list (list cell)
}.
Arguments mkDataFrame {cell} columns values.
Arguments columns {cell} d.
Arguments values {cell} d.

(** Position of the first column with the given label. *)
Fixpoint column_pos (label : string) (cols : list string) : option nat :=
  match cols with
  | [] => None
  | c :: cols' =>
      if String.eqb c label then Some O
      else match column_pos label cols' with
           | Some i => Some (S i)
           | None => None
           end
  end.

Fixpoint remove_at {A} (i : nat) (xs : list A) : list A :=
  match i, xs with
  | _, [] => []
  | O, _ :: xs' => xs'
  | S i', x :: xs' => x :: remove_at i' xs'
  end.

(** [df.pop(label)]: the column is returned and removed from [df];
    KeyError when there is no such column. *)
Definition pop {cell} (df : DataFrame cell) (label : string)
  : result (list (option cell) * DataFrame cell) :=
  match column_pos label (columns df) with
  | None => Raise (KeyError label)
  | Some i =>
      Ok (map (fun row => row !! i) (values df),
          mkDataFrame (remove_at i (columns df)) (map (remove_at i) (values df)))
  end.

(** [os.environ[key]] *)
Definition environ_get (environ : gmap string string) (key : string) : result string :=
  match environ !! key with
  | Some v => Ok v
  | None => Raise (KeyError key)
  end.

(** [os.path.join(a, b)] on POSIX *)
Definition ends_with_slash (a : string) : bool :=
  match rev (list_ascii_of_string a) with
  | c :: _ => Ascii.eqb c "/"%char
  | [] => false
  end.

Definition path_join (a b : string) : string :=
  if startswith b "/" then b
  else if (String.eqb a EmptyString || ends_with_slash a)%bool then a ++ b
  else a ++ "/" ++ b.

Section Script.
(** What the script gets from outside. *)
Context {cell tableref rowiter model client bucket blob : Type}.

Inductive event : Type :=
| BigqueryClient
| StorageClient
| TableReferenceFromString (table_id : string)
| ListRows (table : tableref)
| ToDataframe (rows : rowiter) (create_bqstorage_client : bool)
| DecisionTreeClassifier
| Fit (data : list (list cell)) (labels : list (option cell))
| Score (data : list (list cell)) (labels : list (option cell))
| Printed (what : string)
| Dump (filename : string)
| GetBucket (name : string)
| BlobFromString (uri : string)
| UploadFromFilename (filename : string).

Record sdk : Type := mkSdk {
  bigquery_Client : result client;
  storage_Client : result client;
  from_string : string -> result tableref;
  list_rows : tableref -> result rowiter;
  to_dataframe : rowiter -> bool -> result (DataFrame cell);
  new_classifier : result model;
  fit : model -> list (list cell) -> list (option cell) -> result model;
  score : model -> list (list cell) -> list (option cell) -> result string;
  dump : model -> string -> result unit;
  get_bucket : string -> result bucket;
  blob_from_string : string -> result blob;
  upload_from_filename : blob -> string -> result unit
}.

Variable w : sdk.

(** [[
def download_table(bq_table_uri: str):
    prefix = "bq://"
    if bq_table_uri.startswith(prefix):
        bq_table_uri = bq_table_uri[len(prefix):]

    table = bigquery.TableReference.from_string(bq_table_uri)
    rows = bqclient.list_rows(
        table,
    )
    return rows.to_dataframe(create_bqstorage_client=False)
]] *)
Definition download_table (bq_table_uri : string) : M event (DataFrame cell) :=
  let prefix := "bq://" in
  let bq_table_uri :=
    if startswith bq_table_uri prefix
    then slice_from (len prefix) bq_table_uri
    else bq_table_uri in
  let! table := call (TableReferenceFromString bq_table_uri) (from_string w bq_table_uri) in
  let! rows := call (ListRows table) (list_rows w table) in
  call (ToDataframe rows false) (to_dataframe w rows false).

(** The module body of train.py, statement by statement. *)
Definition train_py (environ : gmap string string) : M event unit :=
  let! bqclient := call BigqueryClient (bigquery_Client w) in
  let! storage_client := call StorageClient (storage_Client w) in
  let! training_data_uri := lift (environ_get environ "AIP_TRAINING_DATA_URI") in
  let! test_data_uri := lift (environ_get environ "AIP_TEST_DATA_URI") in
  let! df := download_table training_data_uri in
  let! test_df := download_table test_data_uri in
  let! popped := lift (pop df "Class") in
  let labels := fst popped in
  let data := values (snd popped) in
  let! test_popped := lift (pop test_df "Class") in
  let test_labels := fst test_popped in
  let test_data := values (snd test_popped) in
  let! skmodel := call DecisionTreeClassifier (new_classifier w) in
  let! skmodel := call (Fit data labels) (fit w skmodel data labels) in
  let! score := call (Score test_data test_labels) (score w skmodel test_data test_labels) in
  do! call (Printed ("accuracy is: " ++ score)) (Ok tt) in
  do! call (Dump "model.joblib") (dump w skmodel "model.joblib") in
  let! bucket := call (GetBucket "YOUR_GCS_BUCKET") (get_bucket w "YOUR_GCS_BUCKET") in
  let! model_directory := lift (environ_get environ "AIP_MODEL_DIR") in
  let storage_path := path_join model_directory "model.joblib" in
  let! blob := call (BlobFromString storage_path) (blob_from_string w storage_path) in
  call (UploadFromFilename "model.joblib") (upload_from_filename w blob "model.joblib").

(** The strings handed to [TableReference.from_string], in call order. *)
Definition from_string_args (log : list event) : list string :=
  flat_map (fun ev => match ev with
                      | TableReferenceFromString s => [s]
                      | _ => []
                      end) log.

(** The table ids one call of [download_table] hands over. *)
Definition table_ids (bq_table_uri : string) : list string :=
  from_string_args (snd (run (download_table bq_table_uri))).

End Script.
Arguments event : clear implicits.
Arguments sdk : clear implicits.

(** The feature columns the script trains on: the columns of the
    downloaded table once [df.pop("Class")] has removed the label. *)
Definition feature_columns {cell} (df : DataFrame cell) : result (list string) :=
  match pop df "Class" with
  | Ok (_, df') => Ok (columns df')
  | Raise e => Raise e
  end.

End Train.

(** * [batch_examples.csv]
    (written by a [%%writefile] cell of pipelines_custom_training.ipynb) *)

Module Csv.
Import Py.

Definition newline : ascii := "010"%char.

(** The lines of a text file; blank lines are no records. *)
Definition lines (text : string) : list string :=
  filter (fun l => negb (String.eqb l EmptyString)) (split_on newline text).

Definition is_digit (c : ascii) : bool :=
  let n := nat_of_ascii c in (48 <=? n)%nat && (n <=? 57)%nat.

Fixpoint all_digits (s : string) : bool :=
  match s with
  | EmptyString => true
  | String c s' => is_digit c && all_digits s'
  end.

(** An unsigned decimal numeral: digits, then optionally a point and
    digits. *)
Definition is_numeric (s : string) : bool :=
  match split_on "."%char s with
  | [int_part] => negb (String.eqb int_part EmptyString) && all_digits int_part
  | [int_part; frac_part] =>
      negb (String.eqb int_part EmptyString) && all_digits int_part &&
      negb (String.eqb frac_part EmptyString) && all_digits frac_part
  | _ => false
  end.

(** The body of the cell, after the [%%writefile batch_examples.csv] line. *)
Definition batch_examples_csv : string :=
"Area,Perimeter,MajorAxisLength,MinorAxisLength,AspectRation,Eccentricity,ConvexArea,EquivDiameter,Extent,Solidity,roundness,Compactness,ShapeFactor1,ShapeFactor2,ShapeFactor3,ShapeFactor4
23288,558.113,207.567738,143.085693,1.450653336,0.7244336162,23545,172.1952453,0.8045881703,0.9890847314,0.9395021523,0.8295857874,0.008913077034,0.002604069884,0.6882125787,0.9983578734
23689,575.638,205.9678003,146.7475015,1.403552348,0.7016945718,24018,173.6714472,0.7652721693,0.9863019402,0.8983750474,0.8431970773,0.00869465998,0.002711119968,0.7109813112,0.9978994889
23727,559.503,189.7993849,159.3717704,1.190922235,0.5430731512,24021,173.8106863,0.8037601626,0.9877607094,0.952462433,0.9157600082,0.007999299741,0.003470231343,0.8386163926,0.9987269085
31158,641.105,212.0669751,187.1929601,1.132879009,0.4699241567,31474,199.1773023,0.7813134733,0.989959967,0.9526231013,0.9392188582,0.0068061806,0.003267009878,0.8821320637,0.9993488983
32514,649.012,221.4454899,187.1344232,1.183349841,0.5346736437,32843,203.4652564,0.7849831,0.9899826447,0.9700068737,0.9188051492,0.00681077351,0.002994124691,0.8442029022,0.9989873701
33078,659.456,235.5600775,178.9312328,1.316483846,0.6503915309,33333,205.2223615,0.7877214708,0.9923499235,0.9558229607,0.8712102818,0.007121351881,0.002530662194,0.7590073551,0.9992209221
33680,683.09,256.203255,167.9334938,1.525623324,0.7552213942,34019,207.081404,0.80680321,0.9900349805,0.9070392732,0.8082699962,0.007606985006,0.002002710402,0.6533003868,0.9966903078
33954,716.75,277.3684803,156.3563259,1.773951126,0.825970469,34420,207.9220419,0.7994819873,0.9864613597,0.8305492781,0.7496238998,0.008168948587,0.001591181142,0.5619359911,0.996846984
36322,719.437,272.0582306,170.8914975,1.591993952,0.7780978465,36717,215.0502424,0.7718560075,0.9892420405,0.8818487005,0.7904566678,0.007490177594,0.001803782407,0.6248217437,0.9947124371
36675,742.917,285.8908964,166.8819538,1.713132487,0.8119506999,37613,216.0927123,0.7788277766,0.9750618137,0.8350248381,0.7558572692,0.0077952528,0.001569528272,0.5713202115,0.9787472145
37454,772.679,297.6274753,162.1493177,1.835514817,0.8385619338,38113,218.3756257,0.8016695205,0.9827093118,0.7883332637,0.7337213257,0.007946480356,0.001420623993,0.5383469838,0.9881438654
37789,766.378,313.5680678,154.3409867,2.031657789,0.8704771226,38251,219.3500608,0.7805870567,0.9879218844,0.8085170916,0.6995293312,0.008297866252,0.001225659709,0.4893412853,0.9941740339
47883,873.536,327.9986493,186.5201272,1.758516115,0.822571799,48753,246.9140116,0.7584464543,0.9821549443,0.7885506623,0.7527897207,0.006850002074,0.00135695419,0.5666923636,0.9965376533
49777,861.277,300.7570338,211.6168613,1.42123379,0.7105823885,50590,251.7499649,0.8019106536,0.9839296304,0.843243269,0.8370542883,0.00604208839,0.001829706116,0.7006598815,0.9958014989
49882,891.505,357.1890036,179.8346914,1.986207449,0.8640114945,51042,252.0153467,0.7260210171,0.9772736178,0.7886896753,0.7055518063,0.007160679276,0.001094585314,0.4978033513,0.9887407248
53249,919.923,325.3866286,208.9174205,1.557489212,0.7666552108,54195,260.3818974,0.6966846347,0.9825445152,0.7907120655,0.8002231025,0.00611066177,0.001545654241,0.6403570138,0.9973491406
61129,964.969,369.3481688,210.9473449,1.750902193,0.8208567513,61796,278.9836198,0.7501135067,0.9892064211,0.8249553283,0.7553404711,0.006042110436,0.001213219664,0.5705392272,0.9989583843
61918,960.372,353.1381442,224.0962377,1.575832543,0.7728529173,62627,280.7782864,0.7539207091,0.9886790043,0.8436218213,0.7950947556,0.005703319619,0.00140599258,0.6321756704,0.9962029945
141953,1402.05,524.2311633,346.3974998,1.513380332,0.7505863011,143704,425.1354762,0.7147107987,0.9878152313,0.9074598849,0.8109694843,0.003692991084,0.0009853172185,0.6576715044,0.9953071199
145285,1440.991,524.9567463,353.0769977,1.486805285,0.7400216694,146709,430.0960442,0.7860466375,0.9902937107,0.8792413513,0.8192980608,0.003613289371,0.001004269363,0.6712493125,0.9980170255
146153,1476.383,526.1933264,356.528288,1.475881001,0.7354662103,149267,431.3789276,0.7319360978,0.9791380546,0.8425962592,0.8198107159,0.003600290972,0.001003163512,0.6720896099,0.991924286".

Definition records (text : string) : list (list string) :=
  map (split_on ","%char) (lines text).

Definition header (text : string) : list string :=
  match records text with
  | h :: _ => h
  | [] => []
  end.

Definition data_rows (text : string) : list (list string) :=
  match records text with
  | _ :: rows => rows
  | [] => []
  end.

(** [cols] with the label column put in at position [i]. *)
Fixpoint insert_at {A} (i : nat) (x : A) (xs : list A) : list A :=
  match i, xs with
  | O, _ => x :: xs
  | S _, [] => [x]
  | S i', y :: xs' => y :: insert_at i' x xs'
  end.

End Csv.

(** * The pipeline definition of pipelines_custom_training.ipynb *)

Module Pipeline.
Import Py.

(** The three pre-built components the notebook imports from
    [google_cloud_pipeline_components.aiplatform]. *)
Inductive component : Type :=
| TabularDatasetCreateOp
| CustomContainerTrainingJobRunOp
| ModelBatchPredictOp.

(** What a keyword argument of a component call can be. *)
Inductive arg : Type :=
| Input (value : string)                 (* the value of a parameter of the pipeline *)
| Str (s : string)
| Num (q : Q)
| Int (z : Z)
| StrList (l : list string)
| Output (task : nat) (name : string).   (* [op.outputs[name]] of an earlier task *)

(** A task of the pipeline under construction. *)
Record task : Type := mkTask {
  op : component;
  kwargs : list (string * arg)
}.

(** Calling a component inside the pipeline function adds a task to the
    pipeline and returns its handle. *)
Definition create (c : component) (kw : list (string * arg)) : M task nat :=
  fun tasks => (Ok (length tasks), tasks ++ [mkTask c kw]).

Section Components.
(** The outputs each component declares. *)
Variable declared_outputs : component -> list string.

(** [handle.outputs[name]] *)
Definition outputs (c : component) (handle : nat) (name : string) : M task arg :=
  if existsb (String.eqb name) (declared_outputs c)
  then ret (Output handle name)
  else raise (KeyError name).

(** Notebook globals the function body refers to. *)
Variable BUCKET_NAME : string.

(** [[
def my_pipeline(bq_source, bucket, project, gcp_region, bq_dest,
                container_uri, batch_destination):
    dataset_create_op = TabularDatasetCreateOp(...)
    training_op = CustomContainerTrainingJobRunOp(...)
    batch_predict_op = ModelBatchPredictOp(...)
]] *)
Definition my_pipeline
    (bq_source bucket project gcp_region bq_dest container_uri batch_destination : string)
  : M task unit :=
  let! dataset_create_op := create TabularDatasetCreateOp
    [ ("display_name", Str "tabular-beans-dataset");
      ("bq_source", Input bq_source);
      ("project", Input project);
      ("location", Input gcp_region) ] in
  let! dataset := outputs TabularDatasetCreateOp dataset_create_op "dataset" in
  let! training_op := create CustomContainerTrainingJobRunOp
    [ ("display_name", Str "pipeline-beans-custom-train");
      ("container_uri", Input container_uri);
      ("project", Input project);
      ("location", Input gcp_region);
      ("dataset", dataset);
      ("staging_bucket", Input bucket);
      ("training_fraction_split", Num 0.8);
      ("validation_fraction_split", Num 0.1);
      ("test_fraction_split", Num 0.1);
      ("bigquery_destination", Input bq_dest);
      ("model_serving_container_image_uri",
         Str "us-docker.pkg.dev/vertex-ai/prediction/sklearn-cpu.1-2:latest");
      ("model_display_name", Str "scikit-beans-model");
      ("machine_type", Str "e2-standard-4") ] in
  let! model := outputs CustomContainerTrainingJobRunOp training_op "model" in
  let! batch_predict_op := create ModelBatchPredictOp
    [ ("project", Input project);
      ("location", Input gcp_region);
      ("job_display_name", Str "beans-batch-predict");
      ("model", model);
      ("gcs_source_uris", StrList [(BUCKET_NAME ++ "/batch_examples.csv")%string]);
      ("instances_format", Str "csv");
      ("gcs_destination_output_uri_prefix", Input batch_destination);
      ("machine_type", Str "n1-standard-2");
      ("starting_replica_count", Int 1);
      ("max_replica_count", Int 1) ] in
  ret tt.

End Components.

(** [kwargs[name]] of a task *)
Fixpoint kwarg (name : string) (kw : list (string * arg)) : option arg :=
  match kw with
  | [] => None
  | (k, v) :: kw' => if String.eqb k name then Some v else kwarg name kw'
  end.

(** The tasks whose outputs a task consumes: it runs after them. *)
Definition upstream (t : task) : list nat :=
  flat_map (fun kv => match snd kv with
                      | Output h _ => [h]
                      | _ => []
                      end) (kwargs t).

End Pipeline.

(** * The functions of explainable_text_classification.ipynb *)

Module Explain.
Import Py.

(** ** Python dict: insertion ordered, one entry per key *)

Definition dict (V : Type) : Type := list (string * V).

(** [d[k] = v] *)
Fixpoint dict_set {V} (k : string) (v : V) (d : dict V) : dict V :=
  match d with
  | [] => [(k, v)]
  | (k', v') :: d' =>
      if String.eqb k' k then (k', v) :: d' else (k', v') :: dict_set k v d'
  end.

(** [d.get(k)] *)
Fixpoint dict_get {V} (k : string) (d : dict V) : option V :=
  match d with
  | [] => None
  | (k', v') :: d' => if String.eqb k' k then Some v' else dict_get k d'
  end.

(** [list(d)]: the keys in insertion order *)
Definition dict_keys {V} (d : dict V) : list string := map fst d.

(** [for k, v in pairs: d[k] = v] *)
Definition fill {V} (pairs : list (string * V)) (d : dict V) : dict V :=
  fold_left (fun d kv => dict_set (fst kv) (snd kv) d) pairs d.

(** [{k: v for k, v in pairs}] *)
Definition dict_comprehension {V} (pairs : list (string * V)) : dict V :=
  fill pairs [].

(** [d[k]] *)
Definition dict_getitem {V} (d : dict V) (k : string) : result V :=
  match dict_get k d with
  | Some v => Ok v
  | None => Raise (KeyError k)
  end.

(** ** Numbers: attributions are IEEE 754 binary64 floats, as Python's
    [float] and numpy's [float64] are; [+], [-], [/] round to nearest even,
    [<], [<=] and [==] are false on NaN. *)

(** [np.maximum(m, x)], the step of a [max] reduction: the larger of the
    two, and NaN when one of them is NaN. *)
Definition maximum (m x : float) : float :=
  if (x <=? m)%float || is_nan m then m else x.

(** [np.abs(attrs).max()]; ValueError on an empty sequence. *)
Definition abs_max (attrs : list float) : result float :=
  match attrs with
  | [] => Raise ValueError
  | a :: attrs' => Ok (fold_left (fun m x => maximum m (abs x)) attrs' (abs a))
  end.

(** [mpl.colors.Normalize(vmin, vmax)(x)]: 0 when the bounds coincide,
    ValueError when [vmin > vmax], else [(x - vmin) / (vmax - vmin)],
    computed in binary64. *)
Definition Normalize (vmin vmax x : float) : result float :=
  if (vmin =? vmax)%float then Ok 0%float
  else if (vmax <? vmin)%float then Raise ValueError
  else Ok ((x - vmin) / (vmax - vmin))%float.

(** [sorted(xs, key=key)]: stable, compares keys with [<] only.  Where [<]
    orders the keys (among floats: no NaN) this is the list every stable
    sort gives; with a NaN key Python's result is one of the permutations
    of the list, which one depends on the runs its merge sort finds. *)
Fixpoint insert_sorted {A} (ltb : A -> A -> bool) (x : A) (l : list A) : list A :=
  match l with
  | [] => [x]
  | y :: l' => if ltb y x then y :: insert_sorted ltb x l' else x :: l
  end.

Definition sorted {A} (ltb : A -> A -> bool) (l : list A) : list A :=
  fold_right (insert_sorted ltb) [] l.

Definition key_ltb (key : string -> option float) (a b : string) : bool :=
  match key a, key b with
  | Some x, Some y => (x <? y)%float
  | _, _ => false
  end.

(** [for each in xs: f(each)], stopping at the first exception *)
Fixpoint map_result {A B} (f : A -> result B) (xs : list A) : result (list B) :=
  match xs with
  | [] => Ok []
  | x :: xs' =>
      match f x with
      | Raise e => Raise e
      | Ok y => match map_result f xs' with
                | Raise e => Raise e
                | Ok ys => Ok (y :: ys)
                end
      end
  end.

(** ** Strings *)

(** A Python [str] is held as the bytes of its UTF-8 encoding.  The
    white space of [str.split()] is the characters U+0009..U+000D,
    U+001C..U+0020, U+0085, U+00A0, U+1680, U+2000..U+200A, U+2028, U+2029,
    U+202F, U+205F and U+3000: one, two or three bytes each. *)

Definition byte_in (lo hi : nat) (c : ascii) : bool :=
  ((lo <=? nat_of_ascii c)%nat && (nat_of_ascii c <=? hi)%nat).

Definition byte_is (n : nat) (c : ascii) : bool := (nat_of_ascii c =? n)%nat.

(** U+0009..U+000D, U+001C..U+0020 *)
Definition is_space (c : ascii) : bool := byte_in 9 13 c || byte_in 28 32 c.

(** U+0085 and U+00A0: C2 85, C2 A0 *)
Definition is_space2 (c1 c2 : ascii) : bool :=
  byte_is 194 c1 && (byte_is 133 c2 || byte_is 160 c2).

(** U+1680: E1 9A 80; U+2000..U+200A, U+2028, U+2029, U+202F: E2 80 80..8A,
    A8, A9, AF; U+205F: E2 81 9F; U+3000: E3 80 80 *)
Definition is_space3 (c1 c2 c3 : ascii) : bool :=
  (byte_is 225 c1 && byte_is 154 c2 && byte_is 128 c3)
  || (byte_is 226 c1 && byte_is 128 c2
      && (byte_in 128 138 c3 || byte_is 168 c3 || byte_is 169 c3 || byte_is 175 c3))
  || (byte_is 226 c1 && byte_is 129 c2 && byte_is 159 c3)
  || (byte_is 227 c1 && byte_is 128 c2 && byte_is 128 c3).

(** The number of bytes of the white-space character [s] starts with; 0
    when it starts with none. *)
Definition space_width (s : string) : nat :=
  match s with
  | EmptyString => 0
  | String c1 s1 =>
      if is_space c1 then 1
      else match s1 with
           | EmptyString => 0
           | String c2 s2 =>
               if is_space2 c1 c2 then 2
               else match s2 with
                    | EmptyString => 0
                    | String c3 _ => if is_space3 c1 c2 c3 then 3 else 0
                    end
           end
  end.

(** The word read so far, if any. *)
Definition flush (cur : string) : list string :=
  if String.eqb cur EmptyString then [] else [cur].

(** [s.split()]: the maximal runs of characters that are no white space.
    [skip] counts the bytes that are left of a white-space character. *)
Fixpoint split_ws_aux (skip : nat) (cur : string) (s : string) : list string :=
  match s with
  | EmptyString => flush cur
  | String c s' =>
      match skip with
      | S skip' => split_ws_aux skip' cur s'
      | O =>
          match space_width s with
          | O => split_ws_aux 0 (cur ++ String c EmptyString) s'
          | S skip' => flush cur ++ split_ws_aux skip' EmptyString s'
          end
      end
  end.

Definition split_ws (s : string) : list string := split_ws_aux 0 EmptyString s.

(** [sep.join(parts)] *)
Definition join (sep : string) (parts : list string) : string :=
  String.concat sep parts.

(** [[
def highlight(string, color="white"):
    return f"<mark style=background-color:{color}>{string} </mark>"
]] *)
Definition highlight (string color : String.string) : String.string :=
  "<mark style=background-color:" ++ color ++ ">" ++ string ++ " </mark>".

(** [[
def decode_sentence(x, index=reverse_index):
    return " ".join([index.get(i - 3, "UNK") for i in x])
]] *)
Definition decode_sentence (x : list Z) (index : gmap Z string) : string :=
  join " " (map (fun i => default "UNK" (index !! (i - 3)%Z)) x).

(** [map(f, xs, ys)]: stops with the shorter argument *)
Definition map2 {A B C} (f : A -> B -> C) (xs : list A) (ys : list B) : list C :=
  map (fun p => f (fst p) (snd p)) (combine xs ys).

Section Notebook.
Context {pred explanation rgba : Type}.

(** What [endpoint.explain] answers. *)
Record explain_response : Type := mkResponse {
  predictions : list (list pred);
  explanations : list explanation
}.

Inductive event : Type :=
| Explain (instances : list (list Z))
| GetCmap (name : string)
| Printed (text : string)
| DisplayHTML (markup : string)
| Figure
| Barh (positions : list nat) (widths : list float)
| Yticks (positions : list nat) (labels : list string)
| Title (text : string)
| Ylabel (text : string)
| Xlabel (text : string)
| PltShow.

(** Notebook globals: the padded test reviews and their labels. *)
Variable x_test : list (list Z).
Variable y_test : list Z.
Variable reverse_index : gmap Z string.

(** matplotlib and string formatting of values from outside. *)
Variable get_cmap : string -> result (float -> rgba).
Variable rgb2hex : rgba -> string.
Variable str_pred : pred -> string.
Variable str_label : Z -> string.

(** [[
def send_explanation_request(endpoint, review=0):
    example = x_test[review].tolist()
    example_label = y_test[review]
    result = endpoint.explain([example])
    prediction = result.predictions[0][0]
    explanations = result.explanations[0]
    return example, example_label, prediction, explanations
]] *)
Definition send_explanation_request
    (endpoint : list (list Z) -> result explain_response) (review : Z)
  : M event (list Z * Z * pred * explanation) :=
  let! example := lift (index x_test review) in
  let! example_label := lift (index y_test review) in
  let! result := call (Explain [example]) (endpoint [example]) in
  let! predictions0 := lift (index (predictions result) 0) in
  let! prediction := lift (index predictions0 0) in
  let! explanations := lift (index (explanations result) 0) in
  ret (example, example_label, prediction, explanations).

(** [[
def colorize(attrs, cmap="PiYG"):
    cmap_bound = np.abs(attrs).max()
    norm = mpl.colors.Normalize(vmin=-cmap_bound, vmax=cmap_bound)
    cmap = mpl.cm.get_cmap(cmap)
    colors = list(map(lambda x: mpl.colors.rgb2hex(cmap(norm(x))), attrs))
    return colors
]] *)
Definition colorize (attrs : list float) (cmap : string) : M event (list string) :=
  let! cmap_bound := lift (abs_max attrs) in
  let norm := Normalize (- cmap_bound)%float cmap_bound in
  let! cmap := call (GetCmap cmap) (get_cmap cmap) in
  let! colors := lift (map_result (fun x =>
                    match norm x with
                    | Ok t => Ok (rgb2hex (cmap t))
                    | Raise e => Raise e
                    end) attrs) in
  ret colors.

(** [[
def display_highlights(example, example_label, prediction, attributions):
    words = decode_sentence(example).split()
    colors = colorize(attributions)
    print(f"Prediction:[{prediction}] Actual:[{example_label}]\n")
    display(HTML(''.join(list(map(highlight, words, colors)))))
    return words
]] *)
Definition display_highlights
    (example : list Z) (example_label : Z) (prediction : pred) (attributions : list float)
  : M event (list string) :=
  let words := split_ws (decode_sentence example reverse_index) in
  let! colors := colorize attributions "PiYG" in
  do! call (Printed ("Prediction:[" ++ str_pred prediction ++ "] Actual:["
                     ++ str_label example_label ++ "]" ++ String "010"%char EmptyString)) (Ok tt) in
  do! call (DisplayHTML (join EmptyString (map2 highlight words colors))) (Ok tt) in
  ret words.

(** The feature-attribution bar-plot cell. *)
Definition importance_dict (words : list string) (attributions : list float)
  : dict float :=
  dict_comprehension (combine words attributions).

Definition sorted_feature_names (words : list string) (attributions : list float)
  : list string :=
  let d := importance_dict words attributions in
  sorted (key_ltb (fun k => dict_get k d)) (dict_keys d).

Definition bar_plot_cell (words : list string) (attributions : list float)
  : M event unit :=
  let importance_dict := importance_dict words attributions in
  let sorted_feature_names := sorted_feature_names words attributions in
  let! sorted_attr_values :=
    lift (map_result (dict_getitem importance_dict) sorted_feature_names) in
  let num_features := length sorted_feature_names in
  if (0 <? num_features)%nat then
    let x_pos := seq 0 num_features in
    do! call Figure (Ok tt) in
    do! call (Barh x_pos sorted_attr_values) (Ok tt) in
    do! call (Yticks x_pos sorted_feature_names) (Ok tt) in
    do! call (Title "Feature attributions") (Ok tt) in
    do! call (Ylabel "Feature names") (Ok tt) in
    do! call (Xlabel "Attribution value") (Ok tt) in
    call PltShow (Ok tt)
  else ret tt.

(** The bars of the chart: the [(label, width)] pairs handed to
    [plt.yticks] and [plt.barh]. *)
Definition bars (log : list event) : list (string * float) :=
  match
    flat_map (fun ev => match ev with Yticks _ names => [names] | _ => [] end) log,
    flat_map (fun ev => match ev with Barh _ widths => [widths] | _ => [] end) log
  with
  | names :: _, widths :: _ => combine names widths
  | _, _ => []
  end.

Definition explain_calls (log : list event) : list (list (list Z)) :=
  flat_map (fun ev => match ev with Explain instances => [instances] | _ => [] end) log.

End Notebook.
Arguments explain_response : clear implicits.
Arguments event : clear implicits.

End Explain.

(** * The evaluation cell of fairness_tfdv_tfma.ipynb *)

Module Fairness.
Import Py.

(** The messages of the text-format protocol buffer the cell parses into
    a [tfma.EvalConfig]. *)
Record ModelSpec : Type := mkModelSpec { label_key : string }.

Record MetricConfig : Type := mkMetricConfig {
  class_name : string;
  config : string          (* JSON text *)
}.

Record MetricsSpec : Type := mkMetricsSpec { metrics : list MetricConfig }.

Record SlicingSpec : Type := mkSlicingSpec { feature_keys : list string }.

Record Options : Type := mkOptions {
  compute_confidence_intervals : option bool     (* a BoolValue wrapper *)
}.

Record EvalConfig : Type := mkEvalConfig {
  model_specs : list ModelSpec;
  metrics_specs : list MetricsSpec;
  slicing_specs : list SlicingSpec;
  options : Options
}.

(** [[
model_specs { label_key: "toxicity" }
metrics_specs {
  metrics {
    class_name: "FairnessIndicators"
    config: '{ "thresholds": [0.1, 0.3, 0.5, 0.7, 0.9] }'
  }
}
slicing_specs {}
slicing_specs {feature_keys: ["gender"]}
options { compute_confidence_intervals { value: False } }
]] *)
Definition eval_config : EvalConfig :=
  {| model_specs := [ {| label_key := "toxicity" |} ];
     metrics_specs :=
       [ {| metrics :=
              [ {| class_name := "FairnessIndicators";
                   config := "{ " ++ dq ++ "thresholds" ++ dq
                               ++ ": [0.1, 0.3, 0.5, 0.7, 0.9] }" |} ] |} ];
     slicing_specs := [ {| feature_keys := [] |}; {| feature_keys := ["gender"] |} ];
     options := {| compute_confidence_intervals := Some false |} |}.

(** ** Reading the thresholds out of the metric's JSON configuration *)

Definition strip_spaces (s : string) : string :=
  string_of_list_ascii
    (filter (fun c => negb (Ascii.eqb c " "%char)) (list_ascii_of_string s)).

(** The text between the first [open] and the next [close]. *)
Fixpoint until (close : ascii) (s : string) : string :=
  match s with
  | EmptyString => EmptyString
  | String c s' => if Ascii.eqb c close then EmptyString else String c (until close s')
  end.

Fixpoint between (open close : ascii) (s : string) : option string :=
  match s with
  | EmptyString => None
  | String c s' => if Ascii.eqb c open then Some (until close s') else between open close s'
  end.

Fixpoint digits_value (acc : Z) (s : string) : option Z :=
  match s with
  | EmptyString => Some acc
  | String c s' =>
      let n := Z.of_nat (nat_of_ascii c) in
      if ((48 <=? n) && (n <=? 57))%Z
      then digits_value (10 * acc + (n - 48))%Z s'
      else None
  end.

(** A decimal numeral [int.frac] as a fraction. *)
Definition parse_decimal (s : string) : option Q :=
  match split_on "."%char s with
  | [int_part] =>
      match digits_value 0 int_part with
      | Some n => Some (n # 1)
      | None => None
      end
  | [int_part; frac_part] =>
      match digits_value 0 (int_part ++ frac_part) with
      | Some n => Some (n # Pos.pow 10 (Pos.of_nat (String.length frac_part)))
      | None => None
      end
  | _ => None
  end.

Fixpoint all_some {A} (l : list (option A)) : option (list A) :=
  match l with
  | [] => Some []
  | None :: _ => None
  | Some x :: l' => match all_some l' with
                    | Some xs => Some (x :: xs)
                    | None => None
                    end
  end.

(** The numbers of the (only) JSON array of a configuration text. *)
Definition thresholds (m : MetricConfig) : option (list Q) :=
  match between "["%char "]"%char (config m) with
  | Some body => all_some (map (fun x => parse_decimal (strip_spaces x))
                               (split_on ","%char body))
  | None => None
  end.

(** ** The cell *)

Section Cell.
Context {shared_model eval_result : Type}.

Inductive event : Type :=
| DefaultEvalSharedModel (eval_saved_model_path : string) (cfg : EvalConfig)
| RunModelAnalysis (cfg : EvalConfig) (data_location output_path : string)
                   (random_seed_for_testing : Z).

Variable default_eval_shared_model : string -> EvalConfig -> result shared_model.
Variable run_model_analysis :
  shared_model -> EvalConfig -> string -> string -> Z -> result eval_result.

(** Globals of earlier cells. *)
Definition tfma_export_dir : string := "saved_model".
Definition tfma_eval_result_path : string := "tfma_eval_result".

Definition evaluation_cell (validate_tf_file : string) : M event eval_result :=
  let eval_config := eval_config in
  let! eval_shared_model :=
    call (DefaultEvalSharedModel tfma_export_dir eval_config)
         (default_eval_shared_model tfma_export_dir eval_config) in
  call (RunModelAnalysis eval_config validate_tf_file tfma_eval_result_path 42)
       (run_model_analysis eval_shared_model eval_config validate_tf_file
                           tfma_eval_result_path 42).

(** The configurations the analysis was run with. *)
Definition analysed_configs (log : list event) : list EvalConfig :=
  flat_map (fun ev => match ev with
                      | RunModelAnalysis cfg _ _ _ => [cfg]
                      | _ => []
                      end) log.
End Cell.
Arguments event : clear implicits.

End Fairness.

(** * The notebooks as syntax: every cell, in order *)

Module Nb.
Import Py.

#[local] Set Warnings "-register-all".

Inductive expr : Type :=
| Name (id : string)
| Const (repr : string)                       (* number, None, True, False *)
| Str (s : string)
| JoinedStr (parts : list expr)               (* f-string *)
| FormattedValue (value : expr)
| Attribute (value : expr) (attr : string)
| Call (func : expr) (args : list expr)
| Keyword (arg : string) (value : expr)       (* [arg=value] in a call *)
| Subscript (value : expr) (slice : expr)
| Slice (lower upper : option expr)
| List_ (elts : list expr)
| Tuple (elts : list expr)
| Dict (keys values : list expr)
| ListComp (elt target iter : expr)
| DictComp (key value target iter : expr)
| Lambda (params : list string) (body : expr)
| BinOp (left : expr) (op : string) (right : expr)
| UnaryOp (op : string) (operand : expr)
| Compare (left : expr) (op : string) (right : expr)
| ShellCapture (cmd : string)                 (* [x = !cmd] *)
| MagicValue (line : string).                 (* [x = %magic] *)

Inductive stmt : Type :=
| Expr (value : expr)
| Assign (target value : expr)
| Import (names : list string)
| ImportFrom (module : string) (names : list string)
| Return (value : expr)
| If (test : expr) (body orelse : list stmt)
| For (target iter : expr) (body : list stmt)
| While (test : expr) (body : list stmt)
| Break
| Continue
| Try (body handlers finalbody : list stmt)
| ExceptHandler (type : expr) (body : list stmt)
| RaiseStmt (exc : expr)
| With (items : list expr) (body : list stmt)
| FunctionDef (name : string) (decorators : list expr) (params : list string)
              (defaults : list expr) (body : list stmt)
| Shell (cmd : string)                        (* [!cmd] *)
| Magic (line : string).                      (* [%magic] *)

Inductive cell : Type :=
| Markdown (python_listings : list (list stmt))
| Code (body : list stmt)
| WriteFile (path : string) (python : option (list stmt)).   (* [%%writefile path] *)

(** pipelines_custom_training.ipynb *)
Definition pipelines_custom_training : list cell :=
[
  (* cell 0 *)
  Markdown [];
  (* cell 1 *)
  Markdown [];
  (* cell 2 *)
  Markdown [];
  (* cell 3 *)
  Code
    [ Assign (Name "PATH") (MagicValue "env PATH");
      Magic "env PATH={PATH}:/home/jupyter/.local/bin";
      Shell "pip3 install -q --user 'kfp>=1.8.0,<2.0.0'";
      Shell "pip3 install -q --user 'google-cloud-pipeline-components<2'" ];
  (* cell 4 *)
  Markdown [];
  (* cell 5 *)
  Markdown [];
  (* cell 6 *)
  Code
    [ Import ["IPython"];
      Assign
        (Name "app")
        (Call (Attribute (Attribute (Name "IPython") "Application") "instance") []);
      Expr (Call (Attribute (Attribute (Name "app") "kernel") "do_shutdown") [Const "True"]) ];
  (* cell 7 *)
  Markdown [];
  (* cell 8 *)
  Code
    [ Shell ("python3 -c " ++ dq ++ "import kfp; print(f'KFP version: {kfp.__version__}')" ++ dq);
      Shell ("python3 -c " ++ dq ++ "import google_cloud_pipeline_components; print(f'google_cloud_pipeline_components version: {google_cloud_pipeline_components.__version__}')" ++ dq) ];
  (* cell 9 *)
  Markdown [];
  (* cell 10 *)
  Code
    [ ImportFrom "datetime" ["datetime"];
      ImportFrom "kfp.v2" ["compiler"; "dsl"];
      ImportFrom "google.cloud" ["aiplatform"];
      ImportFrom "google_cloud_pipeline_components.aiplatform"
        ["TabularDatasetCreateOp"; "CustomContainerTrainingJobRunOp"; "ModelBatchPredictOp"];
      Import ["os"] ];
  (* cell 11 *)
  Markdown [];
  (* cell 12 *)
  Code
    [ Assign (Name "PROJECT_ID") (Str EmptyString);
      Assign (Name "REGION") (Str "us-central1");
      If
        (UnaryOp "not" (Name "PROJECT_ID"))
        [ Assign
            (Name "shell_output")
            (ShellCapture "gcloud config list --format 'value(core.project)' 2>/dev/null");
          Assign (Name "PROJECT_ID") (Subscript (Name "shell_output") (Const "0"));
          Expr (Call (Name "print") [Str "Project ID: "; Name "PROJECT_ID"]) ]
        [];
      Assign
        (Name "BUCKET_NAME")
        (JoinedStr [Str "gs://"; FormattedValue (Name "PROJECT_ID"); Str "-bucket"]);
      Expr (Call (Name "print") [Name "BUCKET_NAME"]);
      Shell "gsutil ls $BUCKET_NAME > /dev/null || gsutil mb -l $REGION $BUCKET_NAME";
      Assign
        (Name "shell_out")
        (ShellCapture ("gcloud auth list --format=" ++ dq ++ "value(account)" ++ dq));
      Assign
        (Name "SVC_ACCT")
        (JoinedStr
           [Str "serviceAccount:"; FormattedValue (Subscript (Name "shell_out") (Const "0"))]);
      Shell ("gcloud storage buckets add-iam-policy-binding $BUCKET_NAME --member=$SVC_ACCT --role=" ++ dq ++ "roles/storage.admin" ++ dq) ];
  (* cell 13 *)
  Markdown [];
  (* cell 14 *)
  Markdown [];
  (* cell 15 *)
  Code
    [ Shell "mkdir -p traincontainer/trainer";
      Shell "touch traincontainer/Dockerfile";
      Shell "touch traincontainer/trainer/train.py" ];
  (* cell 16 *)
  Markdown [];
  (* cell 17 *)
  WriteFile "traincontainer/Dockerfile" None;
  (* cell 18 *)
  Markdown [];
  (* cell 19 *)
  WriteFile "traincontainer/trainer/train.py"
    (Some
       [ ImportFrom "sklearn.tree" ["DecisionTreeClassifier"];
         ImportFrom "sklearn.metrics" ["roc_curve"];
         ImportFrom "sklearn.model_selection" ["train_test_split"];
         ImportFrom "google.cloud" ["bigquery"];
         ImportFrom "google.cloud" ["storage"];
         ImportFrom "joblib" ["dump"];
         Import ["os"];
         Import ["pandas as pd"];
         Assign (Name "bqclient") (Call (Attribute (Name "bigquery") "Client") []);
         Assign (Name "storage_client") (Call (Attribute (Name "storage") "Client") []);
         FunctionDef "download_table"
           []
           ["bq_table_uri"]
           []
           [ Assign (Name "prefix") (Str "bq://");
             If
               (Call (Attribute (Name "bq_table_uri") "startswith") [Name "prefix"])
               [ Assign
                   (Name "bq_table_uri")
                   (Subscript
                      (Name "bq_table_uri")
                      (Slice (Some (Call (Name "len") [Name "prefix"])) None)) ]
               [];
             Assign
               (Name "table")
               (Call
                  (Attribute (Attribute (Name "bigquery") "TableReference") "from_string")
                  [Name "bq_table_uri"]);
             Assign
               (Name "rows")
               (Call (Attribute (Name "bqclient") "list_rows") [Name "table"]);
             Return
               (Call
                  (Attribute (Name "rows") "to_dataframe")
                  [Keyword "create_bqstorage_client" (Const "False")]) ];
         Assign
           (Name "training_data_uri")
           (Subscript (Attribute (Name "os") "environ") (Str "AIP_TRAINING_DATA_URI"));
         Assign
           (Name "test_data_uri")
           (Subscript (Attribute (Name "os") "environ") (Str "AIP_TEST_DATA_URI"));
         Assign (Name "df") (Call (Name "download_table") [Name "training_data_uri"]);
         Assign (Name "test_df") (Call (Name "download_table") [Name "test_data_uri"]);
         Assign
           (Name "labels")
           (Call (Attribute (Call (Attribute (Name "df") "pop") [Str "Class"]) "tolist") []);
         Assign (Name "data") (Call (Attribute (Attribute (Name "df") "values") "tolist") []);
         Assign
           (Name "test_labels")
           (Call (Attribute (Call (Attribute (Name "test_df") "pop") [Str "Class"]) "tolist") []);
         Assign
           (Name "test_data")
           (Call (Attribute (Attribute (Name "test_df") "values") "tolist") []);
         Assign (Name "skmodel") (Call (Name "DecisionTreeClassifier") []);
         Expr (Call (Attribute (Name "skmodel") "fit") [Name "data"; Name "labels"]);
         Assign
           (Name "score")
           (Call (Attribute (Name "skmodel") "score") [Name "test_data"; Name "test_labels"]);
         Expr (Call (Name "print") [Str "accuracy is:"; Name "score"]);
         Expr (Call (Name "dump") [Name "skmodel"; Str "model.joblib"]);
         Assign
           (Name "bucket")
           (Call (Attribute (Name "storage_client") "get_bucket") [Str "YOUR_GCS_BUCKET"]);
         Assign
           (Name "model_directory")
           (Subscript (Attribute (Name "os") "environ") (Str "AIP_MODEL_DIR"));
         Assign
           (Name "storage_path")
           (Call
              (Attribute (Attribute (Name "os") "path") "join")
              [Name "model_directory"; Str "model.joblib"]);
         Assign
           (Name "blob")
           (Call
              (Attribute (Attribute (Attribute (Name "storage") "blob") "Blob") "from_string")
              [Name "storage_path"; Keyword "client" (Name "storage_client")]);
         Expr (Call (Attribute (Name "blob") "upload_from_filename") [Str "model.joblib"]) ]);
  (* cell 20 *)
  Markdown [];
  (* cell 21 *)
  Code
    [ Assign (Name "BUCKET") (Subscript (Name "BUCKET_NAME") (Slice (Some (Const "5")) None));
      Shell ("sed -i -r " ++ dq ++ "s/YOUR_GCS_BUCKET/$BUCKET/" ++ dq ++ " traincontainer/trainer/train.py") ];
  (* cell 22 *)
  Markdown [];
  (* cell 23 *)
  Markdown [];
  (* cell 24 *)
  Markdown [];
  (* cell 25 *)
  Code
    [ Assign (Name "REPO_NAME") (Str "beans-model-trainer");
      Assign
        (Name "REPO_URI")
        (JoinedStr
           [ FormattedValue (Name "REGION");
             Str "-docker.pkg.dev/";
             FormattedValue (Name "PROJECT_ID");
             Str "/";
             FormattedValue (Name "REPO_NAME") ]);
      Assign (Name "IMAGE_NAME") (Str "scikit-beans");
      Assign (Name "VERSION") (Str "v1");
      Shell "gcloud artifacts repositories create $REPO_NAME --location $REGION --repository-format=docker" ];
  (* cell 26 *)
  Markdown [];
  (* cell 27 *)
  Code [Shell "echo y | gcloud auth configure-docker $REGION-docker.pkg.dev"];
  (* cell 28 *)
  Markdown [];
  (* cell 29 *)
  Code [Shell "docker build ./traincontainer -t $REPO_URI/$IMAGE_NAME:$VERSION"];
  (* cell 30 *)
  Markdown [];
  (* cell 31 *)
  Code [Shell "docker push $REPO_URI/$IMAGE_NAME:$VERSION"];
  (* cell 32 *)
  Markdown [];
  (* cell 33 *)
  Markdown [];
  (* cell 34 *)
  WriteFile "batch_examples.csv" None;
  (* cell 35 *)
  Markdown [];
  (* cell 36 *)
  Code [Shell "gsutil cp batch_examples.csv $BUCKET_NAME"];
  (* cell 37 *)
  Markdown [];
  (* cell 38 *)
  Markdown [];
  (* cell 39 *)
  Code
    [ Assign
        (Name "PIPELINE_ROOT")
        (JoinedStr [FormattedValue (Name "BUCKET_NAME"); Str "/pipeline_root/"]);
      Expr (Name "PIPELINE_ROOT") ];
  (* cell 40 *)
  Markdown [];
  (* cell 41 *)
  Markdown [];
  (* cell 42 *)
  Markdown [];
  (* cell 43 *)
  Code
    [ FunctionDef "my_pipeline"
        [ Call
            (Attribute (Name "dsl") "pipeline")
            [ Keyword "name" (Str "automl-beans-custom");
              Keyword "pipeline_root" (Name "PIPELINE_ROOT") ] ]
        [ "bq_source";
          "bucket";
          "project";
          "gcp_region";
          "bq_dest";
          "container_uri";
          "batch_destination" ]
        [ Str "bq://specialized-training-resources.beans.beans1";
          Name "BUCKET_NAME";
          Name "PROJECT_ID";
          Name "REGION";
          Str EmptyString;
          Str EmptyString;
          Str EmptyString ]
        [ Assign
            (Name "dataset_create_op")
            (Call
               (Name "TabularDatasetCreateOp")
               [ Keyword "display_name" (Str "tabular-beans-dataset");
                 Keyword "bq_source" (Name "bq_source");
                 Keyword "project" (Name "project");
                 Keyword "location" (Name "gcp_region") ]);
          Assign
            (Name "training_op")
            (Call
               (Name "CustomContainerTrainingJobRunOp")
               [ Keyword "display_name" (Str "pipeline-beans-custom-train");
                 Keyword "container_uri" (Name "container_uri");
                 Keyword "project" (Name "project");
                 Keyword "location" (Name "gcp_region");
                 Keyword "dataset"
                   (Subscript (Attribute (Name "dataset_create_op") "outputs") (Str "dataset"));
                 Keyword "staging_bucket" (Name "bucket");
                 Keyword "training_fraction_split" (Const "0.8");
                 Keyword "validation_fraction_split" (Const "0.1");
                 Keyword "test_fraction_split" (Const "0.1");
                 Keyword "bigquery_destination" (Name "bq_dest");
                 Keyword "model_serving_container_image_uri"
                   (Str "us-docker.pkg.dev/vertex-ai/prediction/sklearn-cpu.1-2:latest");
                 Keyword "model_display_name" (Str "scikit-beans-model");
                 Keyword "machine_type" (Str "e2-standard-4") ]);
          Assign
            (Name "batch_predict_op")
            (Call
               (Name "ModelBatchPredictOp")
               [ Keyword "project" (Name "project");
                 Keyword "location" (Name "gcp_region");
                 Keyword "job_display_name" (Str "beans-batch-predict");
                 Keyword "model"
                   (Subscript (Attribute (Name "training_op") "outputs") (Str "model"));
                 Keyword "gcs_source_uris"
                   (List_
                      [ JoinedStr
                          [FormattedValue (Name "BUCKET_NAME"); Str "/batch_examples.csv"] ]);
                 Keyword "instances_format" (Str "csv");
                 Keyword "gcs_destination_output_uri_prefix" (Name "batch_destination");
                 Keyword "machine_type" (Str "n1-standard-2");
                 Keyword "starting_replica_count" (Const "1");
                 Keyword "max_replica_count" (Const "1") ]) ] ];
  (* cell 44 *)
  Markdown [];
  (* cell 45 *)
  Code
    [ Expr
        (Call
           (Attribute (Call (Attribute (Name "compiler") "Compiler") []) "compile")
           [ Keyword "pipeline_func" (Name "my_pipeline");
             Keyword "package_path" (Str "custom_train_pipeline.json") ]) ];
  (* cell 46 *)
  Markdown [];
  (* cell 47 *)
  Code
    [ Assign
        (Name "TIMESTAMP")
        (Call
           (Attribute (Call (Attribute (Name "datetime") "now") []) "strftime")
           [Str "%Y%m%d%H%M%S"]);
      Assign
        (Name "pipeline_job")
        (Call
           (Attribute (Name "aiplatform") "PipelineJob")
           [ Keyword "display_name" (Str "custom-train-pipeline");
             Keyword "template_path" (Str "custom_train_pipeline.json");
             Keyword "job_id"
               (JoinedStr [Str "custom-train-pipeline-"; FormattedValue (Name "TIMESTAMP")]);
             Keyword "parameter_values"
               (Dict
                  [ Str "project";
                    Str "bucket";
                    Str "bq_dest";
                    Str "container_uri";
                    Str "batch_destination" ]
                  [ Name "PROJECT_ID";
                    Name "BUCKET_NAME";
                    JoinedStr [Str "bq://"; FormattedValue (Name "PROJECT_ID")];
                    JoinedStr
                      [ FormattedValue (Name "REPO_URI");
                        Str "/";
                        FormattedValue (Name "IMAGE_NAME");
                        Str ":";
                        FormattedValue (Name "VERSION") ];
                    JoinedStr [FormattedValue (Name "BUCKET_NAME"); Str "/batch_results/"] ]);
             Keyword "enable_caching" (Const "True") ]) ];
  (* cell 48 *)
  Markdown [];
  (* cell 49 *)
  Code [Expr (Call (Attribute (Name "pipeline_job") "submit") [])];
  (* cell 50 *)
  Markdown [];
  (* cell 51 *)
  Markdown []
].

(** explainable_text_classification.ipynb *)
Definition explainable_text_classification : list cell :=
[
  (* cell 0 *)
  Code [];
  (* cell 1 *)
  Markdown [];
  (* cell 2 *)
  Markdown [];
  (* cell 3 *)
  Markdown [];
  (* cell 4 *)
  Markdown [];
  (* cell 5 *)
  Code
    [ Import ["os"];
      Import ["warnings"];
      Expr (Call (Attribute (Name "warnings") "filterwarnings") [Str "ignore"]);
      Assign
        (Subscript (Attribute (Name "os") "environ") (Str "TF_CPP_MIN_LOG_LEVEL"))
        (Str "3");
      Import ["numpy as np"];
      Import ["tensorflow as tf"];
      ImportFrom "google.cloud" ["aiplatform"; "storage"];
      ImportFrom "keras.datasets" ["imdb"];
      ImportFrom "keras.layers" ["LSTM"; "Dense"; "Embedding"];
      ImportFrom "keras.models" ["Sequential"];
      ImportFrom "keras.utils" ["pad_sequences"];
      Import ["json"];
      Import ["matplotlib.pyplot as plt"];
      ImportFrom "IPython.display" ["display"; "HTML"] ];
  (* cell 6 *)
  Markdown [];
  (* cell 7 *)
  Code
    [ Assign
        (Name "project_id_list")
        (ShellCapture "gcloud config get-value project 2> /dev/null");
      Assign (Name "PROJECT_ID") (Subscript (Name "project_id_list") (Const "0"));
      Assign (Name "REGION") (Str "us-central1");
      Assign
        (Name "BUCKET_URI")
        (JoinedStr [Str "gs://explainable-ai-"; FormattedValue (Name "PROJECT_ID")]) ];
  (* cell 8 *)
  Code [Shell "gsutil ls $BUCKET_URI > /dev/null || gsutil mb -l $REGION $BUCKET_URI"];
  (* cell 9 *)
  Code
    [ Expr
        (Call
           (Attribute (Name "aiplatform") "init")
           [ Keyword "project" (Name "PROJECT_ID");
             Keyword "location" (Name "REGION");
             Keyword "staging_bucket" (Name "BUCKET_URI") ]) ];
  (* cell 10 *)
  Markdown [];
  (* cell 11 *)
  Markdown [];
  (* cell 12 *)
  Code
    [ Assign (Name "max_features") (Const "10000");
      Assign (Name "maxlen") (Const "80");
      Assign
        (Tuple [Tuple [Name "x_train"; Name "y_train"]; Tuple [Name "x_test"; Name "y_test"]])
        (Call (Attribute (Name "imdb") "load_data") [Keyword "num_words" (Name "max_features")]);
      Assign
        (Name "x_train")
        (Call (Name "pad_sequences") [Name "x_train"; Keyword "maxlen" (Name "maxlen")]);
      Assign
        (Name "x_test")
        (Call (Name "pad_sequences") [Name "x_test"; Keyword "maxlen" (Name "maxlen")]) ];
  (* cell 13 *)
  Markdown [];
  (* cell 14 *)
  Code [Expr (Subscript (Name "x_train") (Const "0"))];
  (* cell 15 *)
  Markdown [];
  (* cell 16 *)
  Markdown [];
  (* cell 17 *)
  Markdown [];
  (* cell 18 *)
  Code
    [ Expr
        (Call
           (Attribute (Attribute (Attribute (Name "tf") "keras") "utils") "set_random_seed")
           [Const "42"]);
      Expr
        (Call
           (Attribute
              (Attribute (Attribute (Name "tf") "config") "experimental")
              "enable_op_determinism")
           []);
      Assign
        (Name "weight_init")
        (Call
           (Attribute (Attribute (Attribute (Name "tf") "keras") "initializers") "GlorotNormal")
           [Keyword "seed" (Const "42")]);
      Assign
        (Name "bias_init")
        (Call (Attribute (Attribute (Attribute (Name "tf") "keras") "initializers") "Zeros") []) ];
  (* cell 19 *)
  Code
    [ Assign (Name "model") (Call (Name "Sequential") []);
      Expr
        (Call
           (Attribute (Name "model") "add")
           [ Call
               (Name "Embedding")
               [Name "max_features"; Const "128"; Keyword "name" (Str "embeddings")] ]);
      Expr
        (Call
           (Attribute (Name "model") "add")
           [ Call
               (Name "LSTM")
               [ Const "128";
                 Keyword "dropout" (Const "0.2");
                 Keyword "kernel_initializer" (Name "weight_init");
                 Keyword "bias_initializer" (Name "bias_init") ] ]);
      Expr
        (Call
           (Attribute (Name "model") "add")
           [ Call
               (Name "Dense")
               [ Const "1";
                 Keyword "activation" (Str "sigmoid");
                 Keyword "kernel_initializer" (Name "weight_init");
                 Keyword "bias_initializer" (Name "bias_init") ] ]);
      Expr
        (Call
           (Attribute (Name "model") "compile")
           [ Keyword "optimizer" (Str "adam");
             Keyword "loss" (Str "binary_crossentropy");
             Keyword "metrics" (List_ [Str "accuracy"]) ]);
      Expr
        (Call
           (Attribute (Name "model") "fit")
           [ Name "x_train";
             Name "y_train";
             Keyword "batch_size" (Const "32");
             Keyword "epochs" (Const "2");
             Keyword "validation_data" (Tuple [Name "x_test"; Name "y_test"]) ]);
      Assign
        (Tuple [Name "loss"; Name "accuracy"])
        (Call
           (Attribute (Name "model") "evaluate")
           [Name "x_test"; Name "y_test"; Keyword "batch_size" (Const "32")]);
      Expr
        (Call
           (Name "print")
           [ JoinedStr
               [ Str "Loss: ";
                 FormattedValue (Name "loss");
                 Str "  Accuracy: ";
                 FormattedValue (Name "accuracy") ] ]) ];
  (* cell 20 *)
  Markdown [];
  (* cell 21 *)
  Code
    [ Assign (Name "MODEL_DIR") (JoinedStr [FormattedValue (Name "BUCKET_URI"); Str "/model"]);
      Expr
        (Call
           (Attribute (Attribute (Name "tf") "saved_model") "save")
           [Name "model"; Name "MODEL_DIR"]) ];
  (* cell 22 *)
  Markdown [];
  (* cell 23 *)
  Markdown [];
  (* cell 24 *)
  Markdown [];
  (* cell 25 *)
  Code
    [ Assign (Name "MODEL_DIR") (JoinedStr [FormattedValue (Name "BUCKET_URI"); Str "/model"]);
      Assign
        (Name "saved_model")
        (Call (Attribute (Attribute (Name "tf") "saved_model") "load") [Name "MODEL_DIR"]);
      Assign
        (Name "serving_input")
        (Subscript
           (Call
              (Name "list")
              [ Call
                  (Attribute
                     (Subscript
                        (Attribute
                           (Subscript
                              (Attribute (Name "saved_model") "signatures")
                              (Str "serving_default"))
                           "structured_input_signature")
                        (Const "1"))
                     "keys")
                  [] ])
           (Const "0"));
      Assign
        (Name "serving_output")
        (Subscript
           (Call
              (Name "list")
              [ Call
                  (Attribute
                     (Attribute
                        (Subscript
                           (Attribute (Name "saved_model") "signatures")
                           (Str "serving_default"))
                        "structured_outputs")
                     "keys")
                  [] ])
           (Const "0"));
      Expr (Call (Name "print") [Str "Serving function input:"; Name "serving_input"]);
      Expr (Call (Name "print") [Str "Serving function output:"; Name "serving_output"]) ];
  (* cell 26 *)
  Code
    [ Assign
        (Name "INPUT_METADATA")
        (Dict
           [Str "my_input"]
           [ Call
               (Attribute
                  (Attribute (Attribute (Name "aiplatform") "explain") "ExplanationMetadata")
                  "InputMetadata")
               [ Dict
                   [Str "input_tensor_name"; Str "encoding"]
                   [ Name "serving_input";
                     Call
                       (Attribute
                          (Attribute
                             (Attribute
                                (Attribute (Name "aiplatform") "explain")
                                "ExplanationMetadata")
                             "InputMetadata")
                          "Encoding")
                       [Const "1"] ] ] ]);
      Assign
        (Name "OUTPUT_METADATA")
        (Dict
           [Str "my_output"]
           [ Call
               (Attribute
                  (Attribute (Attribute (Name "aiplatform") "explain") "ExplanationMetadata")
                  "OutputMetadata")
               [Dict [Str "output_tensor_name"] [Name "serving_output"]] ]);
      Assign
        (Name "metadata")
        (Call
           (Attribute (Attribute (Name "aiplatform") "explain") "ExplanationMetadata")
           [ Keyword "inputs" (Name "INPUT_METADATA");
             Keyword "outputs" (Name "OUTPUT_METADATA") ]) ];
  (* cell 27 *)
  Markdown [];
  (* cell 28 *)
  Code
    [ Assign
        (Name "FEATURE_PARAMETERS")
        (Dict [Str "sampled_shapley_attribution"] [Dict [Str "path_count"] [Const "10"]]);
      Assign
        (Name "feature_parameters")
        (Call
           (Attribute (Attribute (Name "aiplatform") "explain") "ExplanationParameters")
           [Name "FEATURE_PARAMETERS"]) ];
  (* cell 29 *)
  Markdown [];
  (* cell 30 *)
  Code
    [ Assign
        (Name "uploaded_feature_model")
        (Call
           (Attribute (Attribute (Name "aiplatform") "Model") "upload")
           [ Keyword "display_name" (Str "tf_feature_expl");
             Keyword "artifact_uri" (Name "MODEL_DIR");
             Keyword "serving_container_image_uri"
               (Str "us-docker.pkg.dev/vertex-ai/prediction/tf2-cpu.2-11:latest");
             Keyword "explanation_parameters" (Name "feature_parameters");
             Keyword "explanation_metadata" (Name "metadata") ]) ];
  (* cell 31 *)
  Markdown [];
  (* cell 32 *)
  Code
    [ Assign
        (Name "feature_endpoint")
        (Call
           (Attribute (Name "uploaded_feature_model") "deploy")
           [ Keyword "deployed_model_display_name" (Str "tf_feature_deploy");
             Keyword "machine_type" (Str "e2-standard-2");
             Keyword "accelerator_type" (Const "None");
             Keyword "accelerator_count" (Const "0") ]) ];
  (* cell 33 *)
  Markdown [];
  (* cell 34 *)
  Code
    [ FunctionDef "send_explanation_request"
        []
        ["endpoint"; "review"]
        [Const "0"]
        [ Assign
            (Name "example")
            (Call (Attribute (Subscript (Name "x_test") (Name "review")) "tolist") []);
          Assign (Name "example_label") (Subscript (Name "y_test") (Name "review"));
          Assign
            (Name "result")
            (Call (Attribute (Name "endpoint") "explain") [List_ [Name "example"]]);
          Assign
            (Name "prediction")
            (Subscript
               (Subscript (Attribute (Name "result") "predictions") (Const "0"))
               (Const "0"));
          Assign
            (Name "explanations")
            (Subscript (Attribute (Name "result") "explanations") (Const "0"));
          Return
            (Tuple
               [Name "example"; Name "example_label"; Name "prediction"; Name "explanations"]) ] ];
  (* cell 35 *)
  Code
    [ Assign (Name "index") (Call (Attribute (Name "imdb") "get_word_index") []);
      Assign
        (Name "reverse_index")
        (DictComp
           (Name "value")
           (Name "key")
           (Tuple [Name "key"; Name "value"])
           (Call (Attribute (Name "index") "items") []));
      FunctionDef "decode_sentence"
        []
        ["x"; "index"]
        [Name "reverse_index"]
        [ Return
            (Call
               (Attribute (Str " ") "join")
               [ ListComp
                   (Call
                      (Attribute (Name "index") "get")
                      [BinOp (Name "i") "-" (Const "3"); Str "UNK"])
                   (Name "i")
                   (Name "x") ]) ] ];
  (* cell 36 *)
  Code
    [ Assign
        (Tuple [Name "example"; Name "example_label"; Name "prediction"; Name "explanations"])
        (Call
           (Name "send_explanation_request")
           [Name "feature_endpoint"; Keyword "review" (Const "2")]) ];
  (* cell 37 *)
  Markdown [];
  (* cell 38 *)
  Code
    [ Assign
        (Name "attributions")
        (Subscript
           (Attribute
              (Subscript (Attribute (Name "explanations") "attributions") (Const "0"))
              "feature_attributions")
           (Str "my_input"));
      Expr (Name "attributions") ];
  (* cell 39 *)
  Markdown [];
  (* cell 40 *)
  Markdown [];
  (* cell 41 *)
  Markdown [];
  (* cell 42 *)
  Code
    [ FunctionDef "highlight"
        []
        ["string"; "color"]
        [Str "white"]
        [ Expr
            (Str
               "
    Return HTML markup highlighting text with the desired color.
    ");
          Return
            (JoinedStr
               [ Str "<mark style=background-color:";
                 FormattedValue (Name "color");
                 Str ">";
                 FormattedValue (Name "string");
                 Str " </mark>" ]) ];
      FunctionDef "colorize"
        []
        ["attrs"; "cmap"]
        [Str "PiYG"]
        [ Expr
            (Str
               "
    Compute hex colors based on the attributions for a single instance.
    Uses a diverging colorscale by default and normalizes and scales
    the colormap so that colors are consistent with the attributions.
    ");
          Import ["matplotlib as mpl"];
          Assign
            (Name "cmap_bound")
            (Call (Attribute (Call (Attribute (Name "np") "abs") [Name "attrs"]) "max") []);
          Assign
            (Name "norm")
            (Call
               (Attribute (Attribute (Name "mpl") "colors") "Normalize")
               [ Keyword "vmin" (UnaryOp "-" (Name "cmap_bound"));
                 Keyword "vmax" (Name "cmap_bound") ]);
          Assign
            (Name "cmap")
            (Call (Attribute (Attribute (Name "mpl") "cm") "get_cmap") [Name "cmap"]);
          Assign
            (Name "colors")
            (Call
               (Name "list")
               [ Call
                   (Name "map")
                   [ Lambda
                       ["x"]
                       (Call
                          (Attribute (Attribute (Name "mpl") "colors") "rgb2hex")
                          [Call (Name "cmap") [Call (Name "norm") [Name "x"]]]);
                     Name "attrs" ] ]);
          Return (Name "colors") ];
      FunctionDef "display_highlights"
        []
        ["example"; "example_label"; "prediction"; "attributions"]
        []
        [ Assign
            (Name "words")
            (Call (Attribute (Call (Name "decode_sentence") [Name "example"]) "split") []);
          Assign (Name "colors") (Call (Name "colorize") [Name "attributions"]);
          Expr
            (Call
               (Name "print")
               [ JoinedStr
                   [ Str "Prediction:[";
                     FormattedValue (Name "prediction");
                     Str "] Actual:[";
                     FormattedValue (Name "example_label");
                     Str
                       "]
" ] ]);
          Expr
            (Call
               (Name "display")
               [ Call
                   (Name "HTML")
                   [ Call
                       (Attribute (Str EmptyString) "join")
                       [ Call
                           (Name "list")
                           [Call (Name "map") [Name "highlight"; Name "words"; Name "colors"]] ] ] ]);
          Return (Name "words") ] ];
  (* cell 43 *)
  Code
    [ Assign
        (Name "words")
        (Call
           (Name "display_highlights")
           [Name "example"; Name "example_label"; Name "prediction"; Name "attributions"]) ];
  (* cell 44 *)
  Markdown [];
  (* cell 45 *)
  Code
    [ Assign
        (Tuple [Name "example"; Name "example_label"; Name "prediction"; Name "explanations"])
        (Call
           (Name "send_explanation_request")
           [Name "feature_endpoint"; Keyword "review" (Const "10")]);
      Assign
        (Name "attributions")
        (Subscript
           (Attribute
              (Subscript (Attribute (Name "explanations") "attributions") (Const "0"))
              "feature_attributions")
           (Str "my_input"));
      Assign
        (Name "words")
        (Call
           (Name "display_highlights")
           [Name "example"; Name "example_label"; Name "prediction"; Name "attributions"]) ];
  (* cell 46 *)
  Markdown [];
  (* cell 47 *)
  Code
    [ Assign
        (Name "importance_dict")
        (DictComp
           (Name "k")
           (Name "v")
           (Tuple [Name "k"; Name "v"])
           (Call (Name "zip") [Name "words"; Name "attributions"]));
      Assign
        (Name "sorted_feature_names")
        (Call
           (Name "sorted")
           [Name "importance_dict"; Keyword "key" (Attribute (Name "importance_dict") "get")]);
      Assign
        (Name "sorted_attr_values")
        (ListComp
           (Subscript (Name "importance_dict") (Name "key"))
           (Name "key")
           (Name "sorted_feature_names"));
      Assign (Name "num_features") (Call (Name "len") [Name "sorted_feature_names"]);
      If
        (Compare (Name "num_features") ">" (Const "0"))
        [ Assign (Name "x_pos") (Call (Name "list") [Call (Name "range") [Name "num_features"]]);
          Expr
            (Call
               (Attribute (Name "plt") "figure")
               [Keyword "figsize" (Tuple [Const "8"; Const "11"])]);
          Expr (Call (Attribute (Name "plt") "barh") [Name "x_pos"; Name "sorted_attr_values"]);
          Expr
            (Call (Attribute (Name "plt") "yticks") [Name "x_pos"; Name "sorted_feature_names"]);
          Expr (Call (Attribute (Name "plt") "title") [Str "Feature attributions"]);
          Expr (Call (Attribute (Name "plt") "ylabel") [Str "Feature names"]);
          Expr (Call (Attribute (Name "plt") "xlabel") [Str "Attribution value"]);
          Expr (Call (Attribute (Name "plt") "show") []) ]
        [] ];
  (* cell 48 *)
  Markdown [];
  (* cell 49 *)
  Markdown []
].

(** fairness_tfdv_tfma.ipynb *)
Definition fairness_tfdv_tfma : list cell :=
[
  (* cell 0 *)
  Code [];
  (* cell 1 *)
  Markdown [];
  (* cell 2 *)
  Markdown [];
  (* cell 3 *)
  Markdown [];
  (* cell 4 *)
  Markdown [];
  (* cell 5 *)
  Markdown [];
  (* cell 6 *)
  Code [Shell "cat requirements.txt"];
  (* cell 7 *)
  Markdown [];
  (* cell 8 *)
  Code [Shell "pip -q install -r requirements.txt"];
  (* cell 9 *)
  Markdown [];
  (* cell 10 *)
  Code [];
  (* cell 11 *)
  Markdown [];
  (* cell 12 *)
  Code
    [ Import ["sys"; "os"];
      Import ["warnings"];
      Expr (Call (Attribute (Name "warnings") "filterwarnings") [Str "ignore"]);
      Assign
        (Subscript (Attribute (Name "os") "environ") (Str "TF_CPP_MIN_LOG_LEVEL"))
        (Str "3");
      Import ["apache_beam as beam"];
      ImportFrom "google.protobuf" ["text_format"];
      Import ["pprint"];
      Import ["tensorflow as tf"];
      Import ["tensorflow_model_analysis as tfma"];
      Import ["tensorflow_data_validation as tfdv"];
      ImportFrom "tensorflow_model_analysis.addons.fairness.post_export_metrics"
        ["fairness_indicators"];
      ImportFrom "tfx_bsl.tfxio" ["tf_example_record"] ];
  (* cell 13 *)
  Markdown [];
  (* cell 14 *)
  Markdown [];
  (* cell 15 *)
  Markdown [];
  (* cell 16 *)
  Markdown [];
  (* cell 17 *)
  Code
    [ Assign
        (Name "train_tf_file")
        (Call
           (Attribute (Attribute (Attribute (Name "tf") "keras") "utils") "get_file")
           [ Str "train_tf_processed.tfrecord";
             Str "https://storage.googleapis.com/civil_comments_dataset/train_tf_processed.tfrecord" ]);
      Assign
        (Name "validate_tf_file")
        (Call
           (Attribute (Attribute (Attribute (Name "tf") "keras") "utils") "get_file")
           [ Str "validate_tf_processed.tfrecord";
             Str "https://storage.googleapis.com/civil_comments_dataset/validate_tf_processed.tfrecord" ]) ];
  (* cell 18 *)
  Markdown [];
  (* cell 19 *)
  Markdown [];
  (* cell 20 *)
  Markdown [];
  (* cell 21 *)
  Code
    [ Assign
        (Name "stats")
        (Call
           (Attribute (Name "tfdv") "generate_statistics_from_tfrecord")
           [Keyword "data_location" (Name "train_tf_file")]) ];
  (* cell 22 *)
  Markdown [];
  (* cell 23 *)
  Code
    [ Assign (Name "schema") (Call (Attribute (Name "tfdv") "infer_schema") [Name "stats"]);
      Expr (Call (Attribute (Name "tfdv") "display_schema") [Name "schema"]) ];
  (* cell 24 *)
  Markdown [];
  (* cell 25 *)
  Markdown [];
  (* cell 26 *)
  Code [Expr (Call (Attribute (Name "tfdv") "visualize_statistics") [Name "stats"])];
  (* cell 27 *)
  Markdown [];
  (* cell 28 *)
  Markdown [];
  (* cell 29 *)
  Code
    [ Assign
        (Name "slice_fn")
        (Call
           (Attribute (Name "tfdv") "experimental_get_feature_value_slicer")
           [Keyword "features" (Dict [Str "gender"] [Const "None"])]) ];
  (* cell 30 *)
  Code
    [ Assign
        (Name "stats_options")
        (Call
           (Attribute (Name "tfdv") "StatsOptions")
           [Keyword "experimental_slice_functions" (List_ [Name "slice_fn"])]);
      Assign
        (Name "sliced_stats")
        (Call
           (Attribute (Name "tfdv") "generate_statistics_from_tfrecord")
           [ Keyword "data_location" (Name "train_tf_file");
             Keyword "stats_options" (Name "stats_options") ]) ];
  (* cell 31 *)
  Markdown [];
  (* cell 32 *)
  Code
    [ For
        (Name "dataset")
        (Attribute (Name "sliced_stats") "datasets")
        [Expr (Call (Name "print") [Attribute (Name "dataset") "name"])] ];
  (* cell 33 *)
  Code
    [ Expr
        (Call
           (Attribute (Name "tfdv") "visualize_statistics")
           [ Keyword "lhs_statistics"
               (Call
                  (Attribute (Name "tfdv") "get_slice_stats")
                  [Name "sliced_stats"; Str "All Examples"]);
             Keyword "rhs_statistics"
               (Call
                  (Attribute (Name "tfdv") "get_slice_stats")
                  [Name "sliced_stats"; Str "gender_female"]) ]) ];
  (* cell 34 *)
  Markdown [];
  (* cell 35 *)
  Markdown [];
  (* cell 36 *)
  Markdown [];
  (* cell 37 *)
  Markdown [];
  (* cell 38 *)
  Code
    [ Assign (Name "tfma_export_dir") (Str "saved_model");
      Assign (Name "tfma_eval_result_path") (Str "tfma_eval_result") ];
  (* cell 39 *)
  Code
    [ Assign
        (Name "eval_config")
        (Call
           (Attribute (Name "text_format") "Parse")
           [ Str
               ("
    model_specs {
      label_key: " ++ dq ++ "toxicity" ++ dq ++ "
    }
    metrics_specs {
      metrics {
        class_name: " ++ dq ++ "FairnessIndicators" ++ dq ++ "
        config: '{ " ++ dq ++ "thresholds" ++ dq ++ ": [0.1, 0.3, 0.5, 0.7, 0.9] }'
      }
    }
    slicing_specs {}  # overall slice
    slicing_specs {feature_keys: [" ++ dq ++ "gender" ++ dq ++ "]}  # we can slice by any feature
    
    options {
        compute_confidence_intervals { value: False }  # we can optionally compute CIs for a more detailed analysis
    }
");
             Call (Attribute (Name "tfma") "EvalConfig") [] ]);
      Assign
        (Name "eval_shared_model")
        (Call
           (Attribute (Name "tfma") "default_eval_shared_model")
           [ Keyword "eval_saved_model_path" (Name "tfma_export_dir");
             Keyword "eval_config" (Name "eval_config") ]);
      Assign
        (Name "eval_result")
        (Call
           (Attribute (Name "tfma") "run_model_analysis")
           [ Keyword "eval_shared_model" (Name "eval_shared_model");
             Keyword "eval_config" (Name "eval_config");
             Keyword "data_location" (Name "validate_tf_file");
             Keyword "output_path" (Name "tfma_eval_result_path");
             Keyword "random_seed_for_testing" (Const "42") ]) ];
  (* cell 40 *)
  Markdown
    [ [ Assign
          (Name "tfx_io")
          (Call
             (Attribute (Name "tf_example_record") "TFExampleRecord")
             [ Keyword "file_pattern" (Name "validate_tf_file");
               Keyword "raw_record_column_name" (Attribute (Name "tfma") "ARROW_INPUT_COLUMN") ]);
        With
          [Call (Attribute (Name "beam") "Pipeline") []; Name "pipeline"]
          [ Assign
              (Name "_")
              (BinOp
                 (BinOp
                    (Name "pipeline")
                    "|"
                    (BinOp
                       (Str "Read TFRecords")
                       ">>"
                       (Call (Attribute (Name "tfx_io") "BeamSource") [])))
                 "|"
                 (BinOp
                    (Str "Perform and Save Model Analysis")
                    ">>"
                    (Call
                       (Attribute (Name "tfma") "ExtractEvaluateAndWriteResults")
                       [ Keyword "eval_config" (Name "eval_config");
                         Keyword "eval_shared_model" (Name "eval_shared_model");
                         Keyword "output_path" (Name "tfma_eval_result_path");
                         Keyword "random_seed_for_testing" (Const "42") ]))) ] ] ];
  (* cell 41 *)
  Markdown [];
  (* cell 42 *)
  Code [Assign (Name "pp") (Call (Attribute (Name "pprint") "PrettyPrinter") [])];
  (* cell 43 *)
  Code
    [ Expr (Call (Name "print") [Str "Slices:"]);
      Expr
        (Call
           (Attribute (Name "pp") "pprint")
           [Call (Attribute (Name "eval_result") "get_slice_names") []]) ];
  (* cell 44 *)
  Code
    [ Expr
        (Call
           (Name "print")
           [ Str
               "
Metrics:" ]);
      Expr
        (Call
           (Attribute (Name "pp") "pprint")
           [Call (Attribute (Name "eval_result") "get_metric_names") []]) ];
  (* cell 45 *)
  Code
    [ Assign (Name "baseline_slice") (Tuple []);
      Assign (Name "female_slice") (Tuple [Tuple [Str "gender"; Str "female"]]);
      Expr (Call (Name "print") [Str "Baseline metric values:"]);
      Expr
        (Call
           (Attribute (Name "pp") "pprint")
           [ Call
               (Attribute (Name "eval_result") "get_metrics_for_slice")
               [Name "baseline_slice"] ]);
      Expr (Call (Name "print") [Str "\Gender metric values:"]);
      Expr
        (Call
           (Attribute (Name "pp") "pprint")
           [Call (Attribute (Name "eval_result") "get_metrics_for_slice") [Name "female_slice"]]) ];
  (* cell 46 *)
  Code
    [ Expr
        (Call
           (Attribute (Name "pp") "pprint")
           [Call (Attribute (Name "eval_result") "get_metrics_for_all_slices") []]) ];
  (* cell 47 *)
  Code []
].

Definition notebooks : list (list cell) :=
  [pipelines_custom_training; explainable_text_classification; fairness_tfdv_tfma].

(** ** Traversals *)

Definition of_option (f : expr -> list expr) (o : option expr) : list expr :=
  match o with
  | Some e => f e
  | None => []
  end.

(** An expression and everything below it. *)
Fixpoint subexprs (e : expr) : list expr :=
  e :: match e with
       | Name _ | Const _ | Str _ | ShellCapture _ | MagicValue _ => []
       | JoinedStr parts => flat_map subexprs parts
       | FormattedValue v => subexprs v
       | Attribute v _ => subexprs v
       | Call f args => subexprs f ++ flat_map subexprs args
       | Keyword _ v => subexprs v
       | Subscript v sl => subexprs v ++ subexprs sl
       | Slice lo hi => of_option subexprs lo ++ of_option subexprs hi
       | List_ elts | Tuple elts => flat_map subexprs elts
       | Dict ks vs => flat_map subexprs ks ++ flat_map subexprs vs
       | ListComp elt target iter => subexprs elt ++ subexprs target ++ subexprs iter
       | DictComp k v target iter =>
           subexprs k ++ subexprs v ++ subexprs target ++ subexprs iter
       | Lambda _ body => subexprs body
       | BinOp l _ r => subexprs l ++ subexprs r
       | UnaryOp _ operand => subexprs operand
       | Compare l _ r => subexprs l ++ subexprs r
       end.

(** A statement and every statement nested in it. *)
Fixpoint substmts (s : stmt) : list stmt :=
  s :: match s with
       | If _ body orelse => flat_map substmts body ++ flat_map substmts orelse
       | For _ _ body | While _ body | With _ body | ExceptHandler _ body
       | FunctionDef _ _ _ _ body => flat_map substmts body
       | Try body handlers finalbody =>
           flat_map substmts body ++ flat_map substmts handlers
             ++ flat_map substmts finalbody
       | _ => []
       end.

(** The expressions a statement holds itself (not those of nested
    statements). *)
Definition own_exprs (s : stmt) : list expr :=
  match s with
  | Expr v | Return v | RaiseStmt v => [v]
  | Assign t v => [t; v]
  | If test _ _ | While test _ => [test]
  | For t iter _ => [t; iter]
  | ExceptHandler type _ => [type]
  | With items _ => items
  | FunctionDef _ decorators _ defaults _ => decorators ++ defaults
  | _ => []
  end.

(** The expressions a statement evaluates: for an assignment, its right
    side. *)
Definition read_exprs (s : stmt) : list expr :=
  match s with
  | Assign _ v => [v]
  | _ => own_exprs s
  end.

Definition stmts_all (body : list stmt) : list stmt := flat_map substmts body.

Definition reads_all (body : list stmt) : list expr :=
  flat_map (fun s => flat_map subexprs (read_exprs s)) (stmts_all body).

Definition exprs_all (body : list stmt) : list expr :=
  flat_map (fun s => flat_map subexprs (own_exprs s)) (stmts_all body).

(** The dotted name of what a call calls; [_] stands for a receiver that
    is itself computed. *)
Fixpoint dotted (e : expr) : string :=
  match e with
  | Name id => id
  | Attribute v attr => dotted v ++ "." ++ attr
  | _ => "_"
  end.

Definition calls (body : list stmt) : list string :=
  flat_map (fun e => match e with
                     | Call f _ => [dotted f]
                     | _ => []
                     end) (exprs_all body).

(** ** Cells *)

(** What the kernel executes of a cell: the body of a code cell; nothing
    of a markdown cell or of a file that is only written. *)
Definition executed (c : cell) : list stmt :=
  match c with
  | Code body => body
  | Markdown _ | WriteFile _ _ => []
  end.

(** The Python a cell holds as code: executed, or written to a .py file. *)
Definition code_of (c : cell) : list stmt :=
  match c with
  | Code body => body
  | WriteFile _ (Some body) => body
  | WriteFile _ None | Markdown _ => []
  end.

Definition listings_of (c : cell) : list stmt :=
  match c with
  | Markdown listings => concat listings
  | _ => []
  end.

Definition is_code_cell (c : cell) : bool :=
  match c with
  | Markdown _ => false
  | _ => true
  end.

Definition code_cells : list cell := filter is_code_cell (concat notebooks).

(** ** Exception handling *)

Definition is_handler (s : stmt) : bool :=
  match s with
  | Try _ _ _ | ExceptHandler _ _ => true
  | _ => false
  end.

Definition leaves_loop (s : stmt) : bool :=
  match s with
  | Break | Continue | Try _ _ _ | ExceptHandler _ _ => true
  | _ => false
  end.

(** A loop that can run its body again after a failure: any [while], and
    a [for] whose body handles exceptions or cuts an iteration short. *)
Definition is_retry_loop (s : stmt) : bool :=
  match s with
  | While _ _ => true
  | For _ _ body => existsb leaves_loop (stmts_all body)
  | _ => false
  end.

Definition has_recovery (body : list stmt) : bool :=
  existsb (fun s => is_handler s || is_retry_loop s) (stmts_all body).

(** ** Threads, processes, Beam *)

Definition concurrency_modules : list string :=
  ["threading"; "multiprocessing"; "subprocess"; "concurrent"; "asyncio"; "_thread"].

Definition process_calls : list string :=
  ["os.fork"; "os.system"; "os.popen"; "os.spawnl"; "os.spawnv"; "os.posix_spawn";
   "os.execv"; "os.startfile"].

(** The first component of a dotted name. *)
Definition root (name : string) : string :=
  match split_on "."%char name with
  | r :: _ => r
  | [] => name
  end.

(** A call into a threading or process API of Python. *)
Definition is_concurrency_call (callee : string) : bool :=
  existsb (String.eqb (root callee)) concurrency_modules
  || existsb (String.eqb callee) process_calls.

(** [import a.b as c] names the module [a.b]: the text before [ as ]. *)
Definition imported_module (n : string) : string :=
  match split_on " "%char n with
  | m :: _ => m
  | [] => n
  end.

Definition imported_roots (body : list stmt) : list string :=
  flat_map (fun s => match s with
                     | Import names => map (fun n => root (imported_module n)) names
                     | ImportFrom module _ => [root module]
                     | _ => []
                     end) (stmts_all body).

Definition uses_concurrency_api (body : list stmt) : bool :=
  existsb is_concurrency_call (calls body)
  || existsb (fun r => existsb (String.eqb r) concurrency_modules) (imported_roots body).

Definition constructs_beam_pipeline (body : list stmt) : bool :=
  existsb (fun c => String.eqb c "beam.Pipeline" || String.eqb c "apache_beam.Pipeline")
          (calls body).

(** A shell escape runs its command line in a child process and waits
    for it. *)
Definition is_shell_escape_stmt (s : stmt) : bool :=
  match s with
  | Shell _ => true
  | _ => false
  end.

Definition is_shell_escape_expr (e : expr) : bool :=
  match e with
  | ShellCapture _ => true
  | _ => false
  end.

Definition spawns_shell (body : list stmt) : bool :=
  existsb is_shell_escape_stmt (stmts_all body)
  || existsb is_shell_escape_expr (exprs_all body).

(** A cell creates a thread or a process when it calls a threading or
    process API or runs a shell escape. *)
Definition creates_thread_or_process (body : list stmt) : bool :=
  uses_concurrency_api body || spawns_shell body.

(** A cell is a plain sequence of blocking calls: no context manager, no
    threading or process API, no Beam pipeline. *)
Definition is_with (s : stmt) : bool :=
  match s with
  | With _ _ => true
  | _ => false
  end.

Definition synchronous_single_threaded (body : list stmt) : bool :=
  negb (uses_concurrency_api body)
  && negb (constructs_beam_pipeline body)
  && negb (existsb is_with (stmts_all body)).

(** ** Functions *)

Definition function_name (s : stmt) : option string :=
  match s with
  | FunctionDef name _ _ _ _ => Some name
  | _ => None
  end.

Definition function_body (s : stmt) : list stmt :=
  match s with
  | FunctionDef _ _ _ _ body => body
  | _ => []
  end.

Definition is_function (s : stmt) : bool :=
  match s with
  | FunctionDef _ _ _ _ _ => true
  | _ => false
  end.

(** Every [def] of the notebooks' code. *)
Definition functions : list stmt :=
  filter is_function (stmts_all (flat_map code_of (concat notebooks))).

Definition find_function (name : string) : option stmt :=
  find (fun s => match function_name s with
                 | Some n => String.eqb n name
                 | None => false
                 end) functions.

(** Computations a body does itself, in its own Python, rather than by
    calling out: operators, string formatting, slicing, comprehensions.
    (Subscripts by an index, displays and lambdas are not listed.) *)
Definition local_op (e : expr) : option string :=
  match e with
  | BinOp _ op _ => Some ("binary " ++ op)%string
  | UnaryOp op _ => Some ("unary " ++ op)%string
  | Compare _ op _ => Some ("compare " ++ op)%string
  | JoinedStr _ => Some "f-string"
  | Slice _ _ => Some "slice"
  | ListComp _ _ _ => Some "list comprehension"
  | DictComp _ _ _ _ => Some "dict comprehension"
  | _ => None
  end.

Definition local_ops (body : list stmt) : list string :=
  flat_map (fun e => match local_op e with
                     | Some o => [o]
                     | None => []
                     end) (exprs_all body).

(** A function that calls something and has none of the operations
    above. *)
Definition delegates_entirely (f : stmt) : bool :=
  match calls (function_body f), local_ops (function_body f) with
  | _ :: _, [] => true
  | _, _ => false
  end.

(** ** Reads of the environment *)

Definition is_os_environ (e : expr) : bool :=
  match e with
  | Attribute (Name m) attr => String.eqb m "os" && String.eqb attr "environ"
  | _ => false
  end.

(** The keys a body reads by [os.environ[key]]: a missing key raises
    KeyError there. *)
Definition environ_subscripts (body : list stmt) : list string :=
  flat_map (fun e => match e with
                     | Subscript v (Str key) => if is_os_environ v then [key] else []
                     | _ => []
                     end) (reads_all body).

(** Reads with a fallback: [os.environ.get] and [os.getenv]. *)
Definition environ_defaults (body : list stmt) : list string :=
  filter (fun c => String.eqb c "os.environ.get" || String.eqb c "os.getenv") (calls body).

(** The Python written to a path by a [%%writefile] cell. *)
Definition written_to (path : string) (nb : list cell) : list stmt :=
  flat_map (fun c => match c with
                     | WriteFile p (Some body) => if String.eqb p path then body else []
                     | _ => []
                     end) nb.

Definition train_py_source : list stmt :=
  written_to "traincontainer/trainer/train.py" pipelines_custom_training.

Definition calls_named (name : string) (body : list stmt) : bool :=
  existsb (String.eqb name) (calls body).

Definition makes_no_call (f : stmt) : bool :=
  match calls (function_body f) with
  | [] => true
  | _ :: _ => false
  end.

(** The body of the function of that name. *)
Definition body_of (name : string) : list stmt :=
  match find_function name with
  | Some f => function_body f
  | None => []
  end.

(** ** Shell escapes *)

(** The command lines of the shell escapes of a body. *)
Definition shell_commands (body : list stmt) : list string :=
  flat_map (fun s => match s with
                     | Shell cmd => [cmd]
                     | _ => []
                     end) (stmts_all body)
  ++ flat_map (fun e => match e with
                        | ShellCapture cmd => [cmd]
                        | _ => []
                        end) (exprs_all body).

(** The commands of an OR-list [a || b] of the shell. *)
Fixpoint or_list_aux (cur : string) (s : string) : list string :=
  match s with
  | EmptyString => [cur]
  | String c s' =>
      match s' with
      | String c' s'' =>
          if Ascii.eqb c "|" && Ascii.eqb c' "|"
          then cur :: or_list_aux EmptyString s''
          else or_list_aux (cur ++ String c EmptyString)%string s'
      | EmptyString => [(cur ++ String c EmptyString)%string]
      end
  end.

Definition or_list (cmd : string) : list string := or_list_aux EmptyString cmd.

(** The shell runs the commands of an OR-list from the left and stops at
    the first that succeeds: a later command runs only when all before it
    have failed.  [succeeds] tells which commands exit with status 0; the
    result is the commands run and whether the list succeeded. *)
Fixpoint run_or_list (succeeds : string -> bool) (cmds : list string)
  : list string * bool :=
  match cmds with
  | [] => ([], false)
  | cmd :: rest =>
      if succeeds cmd then ([cmd], true)
      else let (ran, ok) := run_or_list succeeds rest in (cmd :: ran, ok)
  end.

(** A command line with a fallback: a command to run when another has
    failed. *)
Definition has_fallback (cmd : string) : bool := (1 <? length (or_list cmd))%nat.

Definition has_shell_fallback (body : list stmt) : bool :=
  existsb has_fallback (shell_commands body).

(** Recovery logic of any kind: a handler or a retrying loop of Python, or
    a fallback of a shell escape. *)
Definition any_recovery_logic (body : list stmt) : bool :=
  has_recovery body || has_shell_fallback body.

End Nb.


(** * Concrete surroundings, to run the models on *)

Module Samples.
Import Py.

(** An SDK in which every call succeeds; tables hold no rows and have the
    columns given. *)
Definition sdk_ok (cols : list string)
  : Train.sdk Z string string unit unit unit unit :=
  {| Train.bigquery_Client := Ok tt;
     Train.storage_Client := Ok tt;
     Train.from_string := fun table_id => Ok table_id;
     Train.list_rows := fun table => Ok table;
     Train.to_dataframe := fun _ _ => Ok (Train.mkDataFrame cols []);
     Train.new_classifier := Ok tt;
     Train.fit := fun m _ _ => Ok m;
     Train.score := fun _ _ _ => Ok "1.0";
     Train.dump := fun _ _ => Ok tt;
     Train.get_bucket := fun _ => Ok tt;
     Train.blob_from_string := fun _ => Ok tt;
     Train.upload_from_filename := fun _ _ => Ok tt |}.

Definition beans_columns : list string :=
  Csv.header Csv.batch_examples_csv ++ ["Class"].

(** The container's environment as Vertex AI sets it for a managed dataset. *)
Definition environ_full : gmap string string :=
  <["AIP_TRAINING_DATA_URI" := "bq://project.dataset.training"]>
  (<["AIP_TEST_DATA_URI" := "bq://project.dataset.test"]>
  (<["AIP_MODEL_DIR" := "gs://bucket/model"]> ∅)).

(** The outputs the three components declare in
    google_cloud_pipeline_components 1.x. *)
Definition declared_outputs (c : Pipeline.component) : list string :=
  match c with
  | Pipeline.TabularDatasetCreateOp => ["dataset"]
  | Pipeline.CustomContainerTrainingJobRunOp => ["model"]
  | Pipeline.ModelBatchPredictOp => ["batchpredictionjob"; "bigquery_output_table";
                                     "gcs_output_directory"]
  end.

(** A two-colour map and a printer of its colours, to run [colorize]. *)
Definition two_colours (name : string) : result (float -> bool) :=
  Ok (fun t => (t <? 0.5)%float).

Definition hex_of (below_midpoint : bool) : string :=
  if below_midpoint then "#c51b7d" else "#4d9221".

Definition environ_no_test : gmap string string :=
  <["AIP_TRAINING_DATA_URI" := "bq://project.dataset.training"]> ∅.

End Samples.

(** * More of the notebooks' cells *)

(** The vocabulary cell of explainable_text_classification.ipynb. *)
Module Vocabulary.
Import Py.

(** [[
reverse_index = {value: key for (key, value) in index.items()}
]]
    [items] are the items of [index], in the order the dict yields them. *)
Definition reverse_index (items : list (string * Z)) : gmap Z string :=
  fold_left (fun m kv => <[snd kv := fst kv]> m) items ∅.

(** No white-space character starts anywhere in [w]. *)
Fixpoint no_space (w : string) : bool :=
  match w with
  | EmptyString => true
  | String _ w' => (Explain.space_width w =? 0)%nat && no_space w'
  end.

(** A string that [split()] gives back as one word: it is not empty and
    has no white-space character in it. *)
Definition is_word (w : string) : bool :=
  negb (String.eqb w EmptyString) && no_space w.

End Vocabulary.

(** The project cell and the bucket cell of pipelines_custom_training.ipynb. *)
Module Setup.
Import Py.
#[local] Open Scope string_scope.

Inductive event : Type :=
| Sh (command_line : string)            (* a shell escape, variables expanded *)
| Printed (text : string).

Definition REGION : string := "us-central1".

(** [f"gs://{PROJECT_ID}-bucket"] *)
Definition bucket_name (PROJECT_ID : string) : string :=
  "gs://" ++ PROJECT_ID ++ "-bucket".

Section Cells.
(** What a captured shell command prints, line by line. *)
Variable sh : string -> list string.

Definition gcloud_project : string :=
  "gcloud config list --format 'value(core.project)' 2>/dev/null".

Definition gcloud_account : string :=
  "gcloud auth list --format=" ++ dq ++ "value(account)" ++ dq.

(** [[
PROJECT_ID = ...
REGION = "us-central1"
if not PROJECT_ID:
    shell_output=!gcloud config list --format 'value(core.project)' 2>/dev/null
    PROJECT_ID = shell_output[0]
    print("Project ID: ", PROJECT_ID)
BUCKET_NAME=f"gs://{PROJECT_ID}-bucket"
print(BUCKET_NAME)
!gsutil ls $BUCKET_NAME > /dev/null || gsutil mb -l $REGION $BUCKET_NAME
shell_out = !gcloud auth list --format="value(account)"
SVC_ACCT = f'serviceAccount:{shell_out[0]}'
!gcloud storage buckets add-iam-policy-binding $BUCKET_NAME --member=$SVC_ACCT --role="roles/storage.admin"
]]
    [PROJECT_ID] is the literal of the first line (empty in the notebook);
    the cell leaves [PROJECT_ID], [BUCKET_NAME] and [SVC_ACCT]. *)
Definition project_cell (PROJECT_ID : string) : M event (string * string * string) :=
  let! PROJECT_ID :=
    (if String.eqb PROJECT_ID EmptyString
     then
       let! shell_output := call (Sh gcloud_project) (Ok (sh gcloud_project)) in
       let! PROJECT_ID := lift (index shell_output 0) in
       do! call (Printed ("Project ID:  " ++ PROJECT_ID)) (Ok tt) in
       ret PROJECT_ID
     else ret PROJECT_ID) in
  let BUCKET_NAME := bucket_name PROJECT_ID in
  do! call (Printed BUCKET_NAME) (Ok tt) in
  do! call (Sh ("gsutil ls " ++ BUCKET_NAME ++ " > /dev/null || gsutil mb -l "
                  ++ REGION ++ " " ++ BUCKET_NAME)) (Ok tt) in
  let! shell_out := call (Sh gcloud_account) (Ok (sh gcloud_account)) in
  let! account := lift (index shell_out 0) in
  let SVC_ACCT := "serviceAccount:" ++ account in
  do! call (Sh ("gcloud storage buckets add-iam-policy-binding " ++ BUCKET_NAME
                  ++ " --member=" ++ SVC_ACCT ++ " --role=" ++ dq
                  ++ "roles/storage.admin" ++ dq)) (Ok tt) in
  ret (PROJECT_ID, BUCKET_NAME, SVC_ACCT).

(** [[
BUCKET = BUCKET_NAME[5:] # Trim the 'gs://' before adding to train script
!sed -i -r "s/YOUR_GCS_BUCKET/$BUCKET/" traincontainer/trainer/train.py
]] *)
Definition bucket_cell (BUCKET_NAME : string) : M event string :=
  let BUCKET := slice_from 5 BUCKET_NAME in
  do! call (Sh ("sed -i -r " ++ dq ++ "s/YOUR_GCS_BUCKET/" ++ BUCKET ++ "/" ++ dq
                  ++ " traincontainer/trainer/train.py")) (Ok tt) in
  ret BUCKET.

End Cells.


End Setup.

(** Reading the log of train.py. *)
Module TrainLog.
Import Py Train.

Section Log.
Context {cell tableref rowiter : Type}.

Definition is_upload (ev : event cell tableref rowiter) : bool :=
  match ev with
  | UploadFromFilename _ => true
  | _ => false
  end.

Definition is_dump (ev : event cell tableref rowiter) : bool :=
  match ev with
  | Dump _ => true
  | _ => false
  end.

Definition is_fit (ev : event cell tableref rowiter) : bool :=
  match ev with
  | Fit _ _ => true
  | _ => false
  end.

Definition is_new_classifier (ev : event cell tableref rowiter) : bool :=
  match ev with
  | DecisionTreeClassifier => true
  | _ => false
  end.

(** The log has no upload, or ends with the only one, after a dump. *)
Definition upload_comes_last (log : list (event cell tableref rowiter)) : bool :=
  match rev log with
  | UploadFromFilename f :: before =>
      String.eqb f "model.joblib"
      && negb (existsb is_upload before) && existsb is_dump before
  | _ => negb (existsb is_upload log)
  end.

End Log.

(** An SDK whose every call succeeds on tables that have a label column. *)
Definition always_ok {cell tableref rowiter model client bucket blob}
    (w : sdk cell tableref rowiter model client bucket blob) : Prop :=
  (exists c, bigquery_Client w = Ok c)
  /\ (exists c, storage_Client w = Ok c)
  /\ (forall table_id, exists t, from_string w table_id = Ok t)
  /\ (forall t, exists r, list_rows w t = Ok r)
  /\ (forall r b, exists df, to_dataframe w r b = Ok df /\ In "Class" (columns df))
  /\ (exists m, new_classifier w = Ok m)
  /\ (forall m data labels, exists m', fit w m data labels = Ok m')
  /\ (forall m data labels, exists s, score w m data labels = Ok s)
  /\ (forall m f, dump w m f = Ok tt)
  /\ (forall name, exists b, get_bucket w name = Ok b)
  /\ (forall uri, exists b, blob_from_string w uri = Ok b)
  /\ (forall b f, upload_from_filename w b f = Ok tt).

End TrainLog.

(** More surroundings to run the models in. *)
Module MoreSamples.
Import Py.

(** A shell in which gcloud knows a project and an account. *)
Definition shell (command_line : string) : list string :=
  if String.eqb command_line Setup.gcloud_project then ["my-project"]
  else if String.eqb command_line Setup.gcloud_account then ["me@example.com"]
  else [].


Definition imdb_items : list (string * Z) := [("the", 1%Z); ("and", 2%Z); ("good", 49%Z)].

Definition environ_no_model_dir : gmap string string :=
  <["AIP_TRAINING_DATA_URI" := "bq://project.dataset.training"]>
  (<["AIP_TEST_DATA_URI" := "bq://project.dataset.test"]> ∅).

End MoreSamples.

(** * Facts about the computations *)

Module PyFacts.
Import Py.

(** Sequencing has no handler: what the first part raises, the whole raises,
    and nothing after it runs. *)
Lemma bind_raise {E A B} (m : M E A) (k : A -> M E B) log e log' :
  m log = (Raise e, log') -> bind m k log = (Raise e, log').
Proof. intros H. unfold bind. now rewrite H. Qed.

Lemma bind_ok {E A B} (m : M E A) (k : A -> M E B) log a log' :
  m log = (Ok a, log') -> bind m k log = k a log'.
Proof. intros H. unfold bind. now rewrite H. Qed.

#[local] Arguments String.append : simpl nomatch.

Lemma slice_from_append (p s : string) :
  slice_from (String.length p) (p ++ s) = s.
Proof. induction p as [|c p IH]; simpl; [reflexivity | exact IH]. Qed.

Lemma prefix_append (p s : string) : String.prefix p (p ++ s) = true.
Proof.
  induction p as [|c p IH]; simpl; [now destruct s|].
  destruct (ascii_dec c c) as [_|ne]; [exact IH | now destruct ne].
Qed.

Lemma startswith_append (p s : string) : startswith (p ++ s) p = true.
Proof. apply prefix_append. Qed.

End PyFacts.

Module TrainFacts.
Import Py PyFacts Train.

#[local] Arguments String.append : simpl nomatch.

Lemma prefix_length (p s : string) :
  String.prefix p s = true -> String.length p <= String.length s.
Proof.
  revert s. induction p as [|c p IH]; intros [|d s]; simpl; try lia; try discriminate.
  destruct (ascii_dec c d); [|discriminate]. intros H. apply IH in H. lia.
Qed.

Lemma slice_from_length (n : nat) (s : string) :
  String.length (slice_from n s) = String.length s - n.
Proof.
  revert s. induction n as [|n IH]; intros [|c s]; simpl; try lia. apply IH.
Qed.

(** Slicing a prefix off a string that has it changes the string. *)
Lemma slice_from_changes (s : string) :
  startswith s "bq://" = true -> slice_from 5 s <> s.
Proof.
  intros H E. apply prefix_length in H. simpl in H.
  pose proof (slice_from_length 5 s) as L. rewrite E in L. lia.
Qed.

Section WithSdk.
Context {cell tableref rowiter model client bucket blob : Type}.
Variable w : sdk cell tableref rowiter model client bucket blob.

(** [download_table] calls [TableReference.from_string] once, whatever the
    SDK answers, and the argument is computed before any call. *)
Lemma table_ids_eq (uri : string) :
  table_ids w uri = [if startswith uri "bq://" then slice_from 5 uri else uri].
Proof.
  unfold table_ids, run, download_table, bind, call, len. simpl String.length.
  destruct (startswith uri "bq://");
    (destruct (from_string w _) as [t|e]; simpl; [|reflexivity];
     destruct (list_rows w t); reflexivity).
Qed.

Lemma table_ids_prefixed (t : string) : table_ids w ("bq://" ++ t) = [t].
Proof.
  rewrite table_ids_eq.
  rewrite (startswith_append "bq://" t).
  pose proof (slice_from_append "bq://" t) as L. simpl String.length in L.
  now rewrite L.
Qed.

Lemma table_ids_unprefixed (uri : string) :
  startswith uri "bq://" = false -> table_ids w uri = [uri].
Proof. intros H. rewrite table_ids_eq. now rewrite H. Qed.

Lemma table_ids_fixed_iff (t : string) :
  table_ids w t = [t] <-> startswith t "bq://" = false.
Proof.
  split; [|apply table_ids_unprefixed].
  rewrite table_ids_eq. destruct (startswith t "bq://") eqn:P; [|reflexivity].
  intros E. exfalso. apply (slice_from_changes t P). congruence.
Qed.

(** A missing AIP_TRAINING_DATA_URI: the script stops with KeyError after
    the two clients were made, and nothing is downloaded. *)
Lemma train_py_missing_training_uri (environ : gmap string string) c1 c2 :
  bigquery_Client w = Ok c1 -> storage_Client w = Ok c2 ->
  environ !! "AIP_TRAINING_DATA_URI" = None ->
  run (train_py w environ)
  = (Raise (KeyError "AIP_TRAINING_DATA_URI"), [BigqueryClient; StorageClient]).
Proof.
  intros H1 H2 H3. unfold run, train_py, bind, call, lift, environ_get.
  rewrite H1, H2, H3. reflexivity.
Qed.

Lemma train_py_missing_test_uri (environ : gmap string string) c1 c2 uri :
  bigquery_Client w = Ok c1 -> storage_Client w = Ok c2 ->
  environ !! "AIP_TRAINING_DATA_URI" = Some uri ->
  environ !! "AIP_TEST_DATA_URI" = None ->
  run (train_py w environ)
  = (Raise (KeyError "AIP_TEST_DATA_URI"), [BigqueryClient; StorageClient]).
Proof.
  intros H1 H2 H3 H4. unfold run, train_py, bind, call, lift, environ_get.
  rewrite H1, H2, H3, H4. reflexivity.
Qed.

(** C8 (as amended): [download_table] hands [TableReference.from_string]
    exactly one string: [bq_table_uri] without its leading [bq://] when it
    has one, [bq_table_uri] itself otherwise.  One prefix is removed, not
    all of them: stripping again gives the same string exactly when the
    stripped string does not start with [bq://] itself, and under that
    condition a prefixed URI and its stripped form name the same table. *)
Theorem download_table_strips_one_prefix (uri : string) :
  table_ids w uri = [if startswith uri "bq://" then slice_from 5 uri else uri]
  /\ (forall t, table_ids w ("bq://" ++ t) = [t])
  /\ (startswith uri "bq://" = false -> table_ids w uri = [uri])
  /\ (forall t, table_ids w uri = [t] ->
        (table_ids w t = [t] <-> startswith t "bq://" = false))
  /\ (startswith uri "bq://" = false ->
        table_ids w ("bq://" ++ uri) = table_ids w uri).
Proof.
  split; [apply table_ids_eq|].
  split; [apply table_ids_prefixed|].
  split; [apply table_ids_unprefixed|].
  split; [intros t _; apply table_ids_fixed_iff|].
  intros H. now rewrite table_ids_prefixed, table_ids_unprefixed.
Qed.

End WithSdk.

(** The amended C8 on a table of the notebook's project: prefixed and
    stripped URI resolve to the same id. *)
Lemma download_table_strips_one_prefix_witness :
  startswith "specialized-training-resources.beans.beans1" "bq://" = false
  /\ table_ids (Samples.sdk_ok []) "bq://specialized-training-resources.beans.beans1"
     = table_ids (Samples.sdk_ok []) "specialized-training-resources.beans.beans1".
Proof.
  split; [reflexivity|].
  exact (proj2 (proj2 (proj2 (proj2
    (download_table_strips_one_prefix (Samples.sdk_ok [])
       "specialized-training-resources.beans.beans1")))) eq_refl).
Defined.

(** C8 as stated fails: stripping is not idempotent on a URI that carries
    the prefix twice. *)
Lemma download_table_strip_not_idempotent :
  ~ (forall s t : string,
       table_ids (Samples.sdk_ok []) s = [t] ->
       table_ids (Samples.sdk_ok []) t = [t]).
Proof.
  intros H.
  specialize (H "bq://bq://beans.beans1" "bq://beans.beans1" eq_refl).
  discriminate H.
Qed.

End TrainFacts.


Module PipelineFacts.
Import Py Pipeline.

Lemma existsb_eqb_In (name : string) (l : list string) :
  In name l -> existsb (String.eqb name) l = true.
Proof.
  intros H. apply existsb_exists. exists name. split; [exact H | apply String.eqb_refl].
Qed.

Section Wiring.
Variable declared_outputs : component -> list string.
Variable BUCKET_NAME : string.
Variables bq_source bucket project gcp_region bq_dest container_uri batch_destination : string.

(** C1: whatever its parameters are, [my_pipeline] creates three tasks, in
    this order: a tabular dataset creation, a custom-container training and
    a batch prediction; the training takes the [dataset] output of the
    first as its [dataset], the batch prediction takes the [model] output
    of the second as its [model]; so the first has nothing upstream, the
    second runs after the first and the third after the second. *)
Theorem my_pipeline_three_wired_ops :
  In "dataset" (declared_outputs TabularDatasetCreateOp) ->
  In "model" (declared_outputs CustomContainerTrainingJobRunOp) ->
  exists t0 t1 t2,
    run (my_pipeline declared_outputs BUCKET_NAME bq_source bucket project gcp_region
                     bq_dest container_uri batch_destination)
    = (Ok tt, [t0; t1; t2])
    /\ op t0 = TabularDatasetCreateOp
    /\ op t1 = CustomContainerTrainingJobRunOp
    /\ op t2 = ModelBatchPredictOp
    /\ kwarg "dataset" (kwargs t1) = Some (Output 0 "dataset")
    /\ kwarg "model" (kwargs t2) = Some (Output 1 "model")
    /\ upstream t0 = [] /\ upstream t1 = [0] /\ upstream t2 = [1].
Proof.
  intros Hd Hm.
  apply existsb_eqb_In in Hd. apply existsb_eqb_In in Hm.
  unfold run, my_pipeline, bind, outputs, create, ret.
  cbn [length app]. rewrite Hd. cbn [length app]. rewrite Hm. cbn [length app].
  do 3 eexists. split; [reflexivity|]. repeat split.
Qed.

End Wiring.

(** C1 on the notebook's own parameter values. *)
Lemma my_pipeline_three_wired_ops_witness :
  exists t0 t1 t2,
    run (my_pipeline Samples.declared_outputs "gs://p-bucket"
           "bq://specialized-training-resources.beans.beans1" "gs://p-bucket" "p"
           "us-central1" "bq://p" "us-central1-docker.pkg.dev/p/beans-model-trainer/scikit-beans:v1"
           "gs://p-bucket/batch_results/")
    = (Ok tt, [t0; t1; t2])
    /\ op t0 = TabularDatasetCreateOp
    /\ op t1 = CustomContainerTrainingJobRunOp
    /\ op t2 = ModelBatchPredictOp
    /\ kwarg "dataset" (kwargs t1) = Some (Output 0 "dataset")
    /\ kwarg "model" (kwargs t2) = Some (Output 1 "model")
    /\ upstream t0 = [] /\ upstream t1 = [0] /\ upstream t2 = [1].
Proof.
  apply (my_pipeline_three_wired_ops Samples.declared_outputs); simpl; auto.
Defined.

End PipelineFacts.

Module CsvFacts.
Import Py Csv Train.

(** Putting a label into a list of other labels and looking it up again. *)
Lemma column_pos_insert_at (label : string) (cols : list string) (i : nat) :
  ~ In label cols ->
  column_pos label (insert_at i label cols) = Some (Nat.min i (length cols)).
Proof.
  revert i. induction cols as [|c cols IH]; intros i Hn.
  - destruct i; simpl; now rewrite String.eqb_refl.
  - destruct i as [|i]; simpl.
    + now rewrite String.eqb_refl.
    + destruct (String.eqb_spec c label) as [->|_].
      * exfalso. apply Hn. now left.
      * rewrite IH; [reflexivity|]. intros H. apply Hn. now right.
Qed.

Lemma remove_at_insert_at {A} (x : A) (xs : list A) (i : nat) :
  remove_at (Nat.min i (length xs)) (insert_at i x xs) = xs.
Proof.
  revert i. induction xs as [|y xs IH]; intros [|i]; simpl; try reflexivity.
  f_equal. apply IH.
Qed.

(** Popping the label column leaves the other columns, in their order. *)
Lemma feature_columns_insert_at {cell} (df : DataFrame cell) (cols : list string) (i : nat) :
  ~ In "Class" cols ->
  columns df = insert_at i "Class" cols ->
  feature_columns df = Ok cols.
Proof.
  intros Hn Hc. unfold feature_columns, pop.
  rewrite Hc, (column_pos_insert_at _ _ _ Hn). simpl.
  now rewrite remove_at_insert_at.
Qed.

Lemma header_has_no_label : ~ In "Class" (header batch_examples_csv).
Proof.
  intros H.
  assert (E : existsb (String.eqb "Class") (header batch_examples_csv) = true).
  { apply existsb_exists. exists "Class". split; [exact H | reflexivity]. }
  vm_compute in E. discriminate E.
Qed.

Lemma data_rows_numeric :
  Forall (fun row => length row = 16 /\ Forall (fun field => is_numeric field = true) row)
         (data_rows batch_examples_csv).
Proof.
  assert (E : forallb (fun row => (length row =? 16)%nat && forallb is_numeric row)
                      (data_rows batch_examples_csv) = true) by (vm_compute; reflexivity).
  apply Forall_forall. intros row Hr.
  rewrite forallb_forall in E. specialize (E row).
  assert (Hr' : In row (data_rows batch_examples_csv)).
  { apply list_elem_of_In. exact Hr. }
  specialize (E Hr').
  apply andb_prop in E as [E1 E2]. split.
  - now apply Nat.eqb_eq.
  - apply Forall_forall. intros f Hf. rewrite forallb_forall in E2. apply E2.
    apply list_elem_of_In. exact Hf.
Qed.

Lemma insert_remove_at (label : string) (cols : list string) (i : nat) :
  column_pos label cols = Some i -> insert_at i label (remove_at i cols) = cols.
Proof.
  revert i. induction cols as [|c cols IH]; intros i; simpl; [discriminate|].
  destruct (String.eqb_spec c label) as [->|ne].
  - now intros [= <-].
  - destruct (column_pos label cols) as [j|]; [|discriminate].
    intros [= <-]. simpl. f_equal. now apply IH.
Qed.

(** The tables whose feature columns are [cols]: those with the label
    put in somewhere among [cols]. *)
Lemma feature_columns_iff {cell} (df : DataFrame cell) (cols : list string) :
  ~ In "Class" cols ->
  feature_columns df = Ok cols <-> exists i, columns df = insert_at i "Class" cols.
Proof.
  intros Hn. split.
  - unfold feature_columns, pop.
    destruct (column_pos "Class" (columns df)) as [i|] eqn:E; [|discriminate].
    simpl. intros [= <-]. exists i. symmetry. now apply insert_remove_at.
  - intros [i Hc]. now apply (feature_columns_insert_at df cols i).
Qed.

(** X18: batch_examples.csv is a table of 21 rows and 16 named columns:
    its header has 16 different names, none of them [Class], and each of
    its 21 data rows has 16 fields, all unsigned decimal numerals.  train.py
    trains on the columns of the downloaded table other than [Class], in
    the table's order: these are the columns of the file exactly for the
    tables whose columns are the header of the file with [Class] put in at
    some place. *)
Theorem batch_examples_csv_fits_tables :
  length (header batch_examples_csv) = 16
  /\ ~ In "Class" (header batch_examples_csv)
  /\ List.NoDup (header batch_examples_csv)
  /\ length (data_rows batch_examples_csv) = 21
  /\ Forall (fun row => length row = 16
                        /\ Forall (fun field => is_numeric field = true) row)
            (data_rows batch_examples_csv)
  /\ forall (cell : Type) (df : DataFrame cell),
       feature_columns df = Ok (header batch_examples_csv)
       <-> exists i, columns df = insert_at i "Class" (header batch_examples_csv).
Proof.
  split; [vm_compute; reflexivity|].
  split; [apply header_has_no_label|].
  split.
  { assert (E : header batch_examples_csv
                = ["Area"; "Perimeter"; "MajorAxisLength"; "MinorAxisLength"; "AspectRation";
                   "Eccentricity"; "ConvexArea"; "EquivDiameter"; "Extent"; "Solidity";
                   "roundness"; "Compactness"; "ShapeFactor1"; "ShapeFactor2";
                   "ShapeFactor3"; "ShapeFactor4"]) by (vm_compute; reflexivity).
    rewrite E. repeat (constructor; [simpl; intuition discriminate|]). constructor. }
  split; [vm_compute; reflexivity|].
  split; [apply data_rows_numeric|].
  intros cell df. apply feature_columns_iff, header_has_no_label.
Qed.

Example beans_table_fits :
  feature_columns (mkDataFrame (cell := Z) Samples.beans_columns [])
  = Ok (header batch_examples_csv).
Proof. vm_compute. reflexivity. Qed.

End CsvFacts.

Module RequestFacts.
Import Py PyFacts Explain.

Lemma index_valid {A} (xs : list A) (i : Z) :
  valid_index xs i -> exists x, index xs i = Ok x.
Proof.
  unfold valid_index, index. intros [Hlo Hhi].
  set (n := Z.of_nat (length xs)) in *.
  set (j := if (i <? 0)%Z then (i + n)%Z else i).
  assert (Hj : (0 <= j < n)%Z).
  { subst j. destruct (Z.ltb_spec i 0); lia. }
  replace ((0 <=? j)%Z && (j <? n)%Z) with true
    by (symmetry; apply andb_true_intro; split; [apply Z.leb_le | apply Z.ltb_lt]; lia).
  destruct (lookup_lt_is_Some_2 xs (Z.to_nat j)) as [x Hx]; [subst n; lia|].
  exists x. now rewrite Hx.
Qed.

Section Request.
Context {pred explanation : Type}.
Variable x_test : list (list Z).
Variable y_test : list Z.
Variable endpoint : list (list Z) -> result (explain_response pred explanation).

(** What the endpoint raises, the function raises, after its one call. *)
Lemma send_explanation_request_raises (review : Z) example example_label e :
  index x_test review = Ok example ->
  index y_test review = Ok example_label ->
  endpoint [example] = Raise e ->
  run (send_explanation_request x_test y_test endpoint review)
  = (Raise e, [Explain [example]]).
Proof.
  intros Ex Ey He. unfold run, send_explanation_request, bind, lift, call.
  now rewrite Ex, Ey, He.
Qed.

(** C5: for a review index that is valid for the test set,
    [send_explanation_request] makes one call of [endpoint.explain], with
    the one instance [x_test[review]]; what the endpoint raises is what the
    function raises; and when the endpoint answers with a first prediction
    row and a first explanation, the function returns the instance, the
    label [y_test[review]], [result.predictions[0][0]] and
    [result.explanations[0]]. *)
Theorem send_explanation_request_returns (review : Z) :
  valid_index x_test review ->
  valid_index y_test review ->
  exists example example_label,
    index x_test review = Ok example
    /\ index y_test review = Ok example_label
    /\ explain_calls (snd (run (send_explanation_request x_test y_test endpoint review)))
       = [[example]]
    /\ (forall e, endpoint [example] = Raise e ->
          fst (run (send_explanation_request x_test y_test endpoint review)) = Raise e)
    /\ (forall result row prediction explanations,
          endpoint [example] = Ok result ->
          index (predictions result) 0 = Ok row ->
          index row 0 = Ok prediction ->
          index (Explain.explanations result) 0 = Ok explanations ->
          run (send_explanation_request x_test y_test endpoint review)
          = (Ok (example, example_label, prediction, explanations), [Explain [example]])).
Proof.
  intros Hx Hy.
  destruct (index_valid _ _ Hx) as [example Ex].
  destruct (index_valid _ _ Hy) as [label Ey].
  exists example, label.
  split; [exact Ex|]. split; [exact Ey|].
  unfold run, send_explanation_request, bind, lift, call, ret.
  rewrite Ex, Ey. cbn [app].
  split; [|split].
  - destruct (endpoint [example]) as [result|e]; [|reflexivity].
    destruct (index (predictions result) 0) as [row|]; [|reflexivity].
    destruct (index row 0); [|reflexivity].
    destruct (index (Explain.explanations result) 0); reflexivity.
  - intros e He. now rewrite He.
  - intros result row prediction explanations Hr H0 H1 H2.
    now rewrite Hr, H0, H1, H2.
Qed.

End Request.

(** C5 on a test set of two reviews, asked for the last one. *)
Lemma send_explanation_request_returns_witness :
  exists example example_label,
    index [[1; 2]; [3; 4]]%Z (-1) = Ok example
    /\ index [0; 1]%Z (-1) = Ok example_label
    /\ explain_calls (snd (run (send_explanation_request [[1; 2]; [3; 4]]%Z [0; 1]%Z
                                  (fun _ => Ok (mkResponse [[7%Z]] [tt])) (-1))))
       = [[example]]
    /\ (forall e, (fun _ : list (list Z) => Ok (mkResponse [[7%Z]] [tt])) [example] = Raise e ->
          fst (run (send_explanation_request [[1; 2]; [3; 4]]%Z [0; 1]%Z
                      (fun _ => Ok (mkResponse [[7%Z]] [tt])) (-1))) = Raise e)
    /\ (forall result row prediction explanations,
          (fun _ : list (list Z) => Ok (mkResponse [[7%Z]] [tt])) [example] = Ok result ->
          index (predictions result) 0 = Ok row ->
          index row 0 = Ok prediction ->
          index (Explain.explanations result) 0 = Ok explanations ->
          run (send_explanation_request [[1; 2]; [3; 4]]%Z [0; 1]%Z
                 (fun _ => Ok (mkResponse [[7%Z]] [tt])) (-1))
          = (Ok (example, example_label, prediction, explanations), [Explain [example]])).
Proof.
  apply (send_explanation_request_returns [[1; 2]; [3; 4]]%Z [0; 1]%Z
           (fun _ => Ok (mkResponse [[7%Z]] [tt])) (-1));
    unfold valid_index; simpl; lia.
Defined.

Example send_explanation_request_last_review :
  run (send_explanation_request [[1; 2]; [3; 4]]%Z [0; 1]%Z
         (fun _ => Ok (mkResponse [[7%Z]] [tt])) (-1))
  = (Ok ([3; 4]%Z, 1%Z, 7%Z, tt), [Explain [[3; 4]%Z]]).
Proof. reflexivity. Qed.

Example send_explanation_request_out_of_range :
  run (send_explanation_request [[1; 2]; [3; 4]]%Z [0; 1]%Z
         (fun _ => Ok (mkResponse [[7%Z]] [tt])) 2)
  = (Raise IndexError, []).
Proof. reflexivity. Qed.

End RequestFacts.

Module DictFacts.
Import Py Explain.

Section Dict.
Context {V : Type}.
Implicit Types (d : dict V) (k : string) (v : V).

Lemma dict_get_set_eq d k v : dict_get k (dict_set k v d) = Some v.
Proof.
  induction d as [|[k' v'] d IH]; simpl.
  - now rewrite String.eqb_refl.
  - destruct (String.eqb_spec k' k) as [->|ne]; simpl.
    + now rewrite String.eqb_refl.
    + destruct (String.eqb_spec k' k); [contradiction | exact IH].
Qed.

Lemma dict_get_set_ne d k k' v :
  k <> k' -> dict_get k' (dict_set k v d) = dict_get k' d.
Proof.
  intros ne. induction d as [|[k0 v0] d IH]; simpl.
  - destruct (String.eqb_spec k k'); [contradiction | reflexivity].
  - destruct (String.eqb_spec k0 k) as [->|ne0]; simpl.
    + destruct (String.eqb_spec k k'); [contradiction | reflexivity].
    + destruct (String.eqb_spec k0 k'); [reflexivity | exact IH].
Qed.

Lemma dict_keys_set d k v k' :
  In k' (dict_keys (dict_set k v d)) <-> k' = k \/ In k' (dict_keys d).
Proof.
  unfold dict_keys. induction d as [|[k0 v0] d IH]; simpl.
  - intuition congruence.
  - destruct (String.eqb_spec k0 k) as [->|ne0]; simpl; [intuition congruence|].
    rewrite IH. intuition congruence.
Qed.

Lemma dict_keys_set_NoDup d k v :
  List.NoDup (dict_keys d) -> List.NoDup (dict_keys (dict_set k v d)).
Proof.
  unfold dict_keys. induction d as [|[k0 v0] d IH]; simpl; intros H.
  - constructor; [intros []|constructor].
  - apply List.NoDup_cons_iff in H as [Hn Hd].
    destruct (String.eqb_spec k0 k) as [->|ne0]; simpl.
    + apply List.NoDup_cons_iff. split; assumption.
    + apply List.NoDup_cons_iff. split; [|now apply IH].
      intros Hin. apply (dict_keys_set d k v k0) in Hin as [->|Hin]; [now apply ne0 | contradiction].
Qed.

Lemma dict_keys_set_length d k v :
  length (dict_keys (dict_set k v d)) <= S (length (dict_keys d)).
Proof.
  unfold dict_keys. induction d as [|[k0 v0] d IH]; simpl; [lia|].
  destruct (String.eqb k0 k); simpl; lia.
Qed.

Lemma dict_get_In d k : In k (dict_keys d) <-> exists v, dict_get k d = Some v.
Proof.
  unfold dict_keys. induction d as [|[k0 v0] d IH]; simpl.
  - split; [intros [] | intros [v H]; discriminate].
  - destruct (String.eqb_spec k0 k) as [->|ne0].
    + split; [eauto | now left].
    + rewrite <- IH. intuition.
Qed.

Lemma fill_keys pairs d k :
  In k (dict_keys (fill pairs d)) <-> In k (map fst pairs) \/ In k (dict_keys d).
Proof.
  revert d. induction pairs as [|[k0 v0] pairs IH]; intros d; simpl.
  - intuition.
  - rewrite IH, dict_keys_set. intuition.
Qed.

Lemma fill_NoDup pairs d : List.NoDup (dict_keys d) -> List.NoDup (dict_keys (fill pairs d)).
Proof.
  revert d. induction pairs as [|[k0 v0] pairs IH]; intros d H; simpl; [exact H|].
  apply IH, dict_keys_set_NoDup, H.
Qed.

Lemma fill_length pairs d :
  length (dict_keys (fill pairs d)) <= length pairs + length (dict_keys d).
Proof.
  revert d. induction pairs as [|[k0 v0] pairs IH]; intros d; simpl; [lia|].
  specialize (IH (dict_set k0 v0 d)). pose proof (dict_keys_set_length d k0 v0). lia.
Qed.

(** Later pairs with other keys leave an entry as it is. *)
Lemma fill_get_other pairs d k :
  ~ In k (map fst pairs) -> dict_get k (fill pairs d) = dict_get k d.
Proof.
  revert d. induction pairs as [|[k0 v0] pairs IH]; intros d Hn; simpl; [reflexivity|].
  simpl in Hn. rewrite IH by tauto. apply dict_get_set_ne. tauto.
Qed.

(** The last pair with a key decides its value. *)
Lemma fill_get_last before after d k v :
  ~ In k (map fst after) ->
  dict_get k (fill (before ++ (k, v) :: after) d) = Some v.
Proof.
  intros Hn. unfold fill. rewrite fold_left_app. simpl.
  fold (fill before d). fold (fill after (dict_set k v (fill before d))).
  rewrite fill_get_other by exact Hn. apply dict_get_set_eq.
Qed.

End Dict.

Lemma map_fst_combine {A B} (l : list A) (l' : list B) :
  map fst (combine l l') = firstn (length l') l.
Proof.
  revert l'. induction l as [|x l IH]; intros [|y l']; simpl; try reflexivity.
  f_equal. apply IH.
Qed.

Lemma firstn_min_length {A} (l : list A) (n : nat) :
  firstn (Nat.min (length l) n) l = firstn n l.
Proof.
  destruct (Nat.le_gt_cases n (length l)) as [H|H].
  - now rewrite Nat.min_r.
  - rewrite Nat.min_l by lia. rewrite !firstn_all2; [reflexivity | lia | lia].
Qed.

Lemma nth_error_combine {A B} (l : list A) (l' : list B) i x y :
  nth_error l i = Some x -> nth_error l' i = Some y ->
  nth_error (combine l l') i = Some (x, y).
Proof.
  revert l l'. induction i as [|i IH]; intros [|a l] [|b l']; simpl; try discriminate.
  - now intros [= ->] [= ->].
  - apply IH.
Qed.

(** ** [sorted] *)

Lemma insert_sorted_perm {A} (ltb : A -> A -> bool) x l :
  Permutation (insert_sorted ltb x l) (x :: l).
Proof.
  induction l as [|y l IH]; simpl; [reflexivity|].
  destruct (ltb y x); [|reflexivity].
  rewrite IH. apply perm_swap.
Qed.

Lemma sorted_perm {A} (ltb : A -> A -> bool) l : Permutation (sorted ltb l) l.
Proof.
  induction l as [|x l IH]; simpl; [reflexivity|].
  rewrite insert_sorted_perm. now constructor.
Qed.

(** Looking up keys that are all present never raises. *)
Lemma map_result_getitem {V} (d : dict V) (names : list string) :
  (forall k, In k names -> In k (dict_keys d)) ->
  exists values,
    map_result (dict_getitem d) names = Ok values
    /\ length values = length names
    /\ forall k v, In (k, v) (combine names values) -> dict_get k d = Some v.
Proof.
  induction names as [|k names IH]; intros Hin; simpl.
  - exists []. repeat split. intros k v [].
  - destruct IH as (values & E & L & G); [intros k' H'; apply Hin; now right|].
    destruct (proj1 (dict_get_In d k) (Hin k (or_introl eq_refl))) as [v Hv].
    exists (v :: values). unfold dict_getitem at 1. rewrite Hv, E.
    split; [reflexivity|]. split; [simpl; lia|].
    intros k' v' [[= <- <-]|H']; [exact Hv | now apply G].
Qed.

End DictFacts.

(** * IEEE binary64 arithmetic *)

Module FloatFacts.
Import Py Explain.
#[local] Open Scope float_scope.

Lemma Prim2SF_zero : Prim2SF 0 = S754_zero false.
Proof. reflexivity. Qed.



(** ** The order *)

Lemma SFcompare_refl (s : spec_float) :
  s <> S754_nan -> SFcompare s s = Some Eq.
Proof.
  destruct s as [b|b| |b m e]; intros H; simpl; try reflexivity.
  - now destruct b.
  - now destruct H.
  - rewrite Z.compare_refl, Pos.compare_cont_refl. now destruct b.
Qed.

Lemma is_nan_spec (x : float) : is_nan x = true <-> Prim2SF x = S754_nan.
Proof.
  unfold is_nan. rewrite FloatAxioms.eqb_spec. unfold SFeqb. split.
  - intros H. destruct (Prim2SF x) eqn:E; try reflexivity;
      rewrite SFcompare_refl in H by discriminate; discriminate.
  - intros ->. reflexivity.
Qed.

Lemma not_nan_spec (x : float) : is_nan x = false <-> Prim2SF x <> S754_nan.
Proof.
  rewrite <- is_nan_spec. destruct (is_nan x); split; congruence.
Qed.

Lemma compare_cont_antisym (p q : positive) :
  Pos.compare_cont Eq q p = CompOpp (Pos.compare_cont Eq p q).
Proof. symmetry. apply (Pos.compare_cont_antisym p q Eq). Qed.

Lemma SFcompare_antisym (x y : spec_float) :
  SFcompare y x = option_map CompOpp (SFcompare x y).
Proof.
  destruct x as [sx|sx| |sx mx ex], y as [sy|sy| |sy my ey]; simpl; try reflexivity;
    try (destruct sx; reflexivity); try (destruct sy; reflexivity);
    try (destruct sx, sy; reflexivity).
  destruct sx, sy; simpl; try reflexivity;
    rewrite (Z.compare_antisym ex ey); destruct (ex ?= ey)%Z; simpl; try reflexivity;
    rewrite (compare_cont_antisym mx my); now destruct (Pos.compare_cont Eq mx my).
Qed.

Lemma SFcompare_numbers (x y : spec_float) :
  x <> S754_nan -> y <> S754_nan -> exists c, SFcompare x y = Some c.
Proof. intros Hx Hy. destruct x, y; simpl; try congruence; eauto. Qed.


Lemma SFltb_false_leb (x y : spec_float) :
  x <> S754_nan -> y <> S754_nan -> SFltb y x = false -> SFleb x y = true.
Proof.
  intros Hx Hy. unfold SFltb, SFleb. rewrite (SFcompare_antisym x y).
  destruct (SFcompare_numbers x y Hx Hy) as [c ->]. now destruct c.
Qed.


Lemma SFltb_leb (x y : spec_float) : SFltb x y = true -> SFleb x y = true.
Proof. unfold SFltb, SFleb. now destruct (SFcompare x y) as [[]|]. Qed.





Lemma ltb_false_leb (x y : float) :
  is_nan x = false -> is_nan y = false -> (y <? x) = false -> (x <=? y) = true.
Proof.
  rewrite FloatAxioms.leb_spec, FloatAxioms.ltb_spec, !not_nan_spec.
  apply SFltb_false_leb.
Qed.


Lemma ltb_leb (x y : float) : (x <? y) = true -> (x <=? y) = true.
Proof. rewrite FloatAxioms.leb_spec, FloatAxioms.ltb_spec. apply SFltb_leb. Qed.




(** ** [maximum] and the bound of [colorize] *)










(** ** Positive bounds *)





(** ** Rounding, where it is exact *)













Section Positions.
Variable bound : float.
Hypothesis bound_positive : (0 <? bound) = true.
Hypothesis span_finite : (bound + bound <? infinity) = true.





End Positions.

(** Zero, of either sign. *)
Lemma abs_of_zero (x : float) : (x =? 0) = true -> abs x = 0.
Proof.
  intros H. apply Prim2SF_inj. rewrite abs_spec, Prim2SF_zero.
  rewrite FloatAxioms.eqb_spec, Prim2SF_zero in H. unfold SFeqb in H.
  destruct (Prim2SF x) as [s|s| |s m e]; simpl in *; try discriminate; try reflexivity;
    destruct s; discriminate.
Qed.

End FloatFacts.

Module BarPlotFacts.
Import Py Explain DictFacts.

Lemma nth_error_combine_inv {A B} (l : list A) (l' : list B) j x y :
  nth_error (combine l l') j = Some (x, y) ->
  nth_error l j = Some x /\ nth_error l' j = Some y.
Proof.
  revert l l'. induction j as [|j IH]; intros [|a l] [|b l']; simpl; try discriminate.
  - now intros [= -> ->].
  - apply IH.
Qed.

(** The entry of a word is the attribution at its last paired position. *)
Lemma importance_dict_last (words : list string) (attributions : list float) i w a :
  nth_error words i = Some w ->
  nth_error attributions i = Some a ->
  (forall j, i < j -> j < length attributions -> nth_error words j <> Some w) ->
  dict_get w (importance_dict words attributions) = Some a.
Proof.
  intros Hw Ha Hlast.
  pose proof (nth_error_combine _ _ _ _ _ Hw Ha) as Hp.
  destruct (nth_error_split _ _ Hp) as (before & after & E & L).
  unfold importance_dict, dict_comprehension. rewrite E.
  apply fill_get_last. intros Hin.
  apply in_map_iff in Hin as ([w' a'] & Ew & Hin). simpl in Ew. subst w'.
  apply In_nth_error in Hin as [m Hm].
  assert (Hj : nth_error (combine words attributions) (S i + m) = Some (w, a')).
  { rewrite E, nth_error_app2 by lia.
    replace (S i + m - length before) with (S m) by lia. exact Hm. }
  apply nth_error_combine_inv in Hj as [Hjw Hja].
  apply (Hlast (S i + m)); [lia | | exact Hjw].
  apply nth_error_Some. congruence.
Qed.

Lemma importance_dict_keys (words : list string) (attributions : list float) w :
  In w (dict_keys (importance_dict words attributions))
  <-> In w (firstn (Nat.min (length words) (length attributions)) words).
Proof.
  unfold importance_dict, dict_comprehension.
  rewrite fill_keys, map_fst_combine, firstn_min_length. simpl. tauto.
Qed.

Lemma importance_dict_NoDup (words : list string) (attributions : list float) :
  List.NoDup (dict_keys (importance_dict words attributions)).
Proof. apply fill_NoDup. constructor. Qed.

Lemma sorted_feature_names_perm (words : list string) (attributions : list float) :
  Permutation (sorted_feature_names words attributions)
              (dict_keys (importance_dict words attributions)).
Proof. apply sorted_perm. Qed.

(** The cell never raises, and its bars are the sorted names, each with
    its entry of the dict. *)
Lemma bar_plot_cell_bars (words : list string) (attributions : list float) :
  exists values,
    fst (run (bar_plot_cell words attributions)) = Ok tt
    /\ bars (snd (run (bar_plot_cell words attributions)))
       = combine (sorted_feature_names words attributions) values
    /\ length values = length (sorted_feature_names words attributions)
    /\ forall k v, In (k, v) (combine (sorted_feature_names words attributions) values) ->
         dict_get k (importance_dict words attributions) = Some v.
Proof.
  destruct (map_result_getitem (importance_dict words attributions)
              (sorted_feature_names words attributions)) as (values & E & L & G).
  { intros k Hk. eapply Permutation_in; [apply sorted_feature_names_perm | exact Hk]. }
  exists values. unfold run, bar_plot_cell, bind, lift. rewrite E.
  destruct (sorted_feature_names words attributions) as [|n names] eqn:En.
  - destruct values; [|discriminate L]. simpl. repeat split; auto.
  - simpl. repeat split; auto.
Qed.

(** C9: the dict of the bar-plot cell pairs words and attributions by
    position, up to the shorter of the two; it has one entry per distinct
    word, holding the attribution of the word's last paired occurrence;
    the chart has one bar per entry: no two bars carry the same word, each
    bar shows the entry of its word, and the attributions of earlier
    occurrences of a repeated word appear nowhere. *)
Theorem importance_dict_keeps_last_occurrence
    (words : list string) (attributions : list float) :
  (forall w, In w (dict_keys (importance_dict words attributions))
             <-> In w (firstn (Nat.min (length words) (length attributions)) words))
  /\ List.NoDup (dict_keys (importance_dict words attributions))
  /\ (forall i w a,
        nth_error words i = Some w ->
        nth_error attributions i = Some a ->
        (forall j, i < j -> j < length attributions -> nth_error words j <> Some w) ->
        dict_get w (importance_dict words attributions) = Some a)
  /\ Permutation (sorted_feature_names words attributions)
                 (dict_keys (importance_dict words attributions))
  /\ fst (run (bar_plot_cell words attributions)) = Ok tt
  /\ map fst (bars (snd (run (bar_plot_cell words attributions))))
     = sorted_feature_names words attributions
  /\ List.NoDup (map fst (bars (snd (run (bar_plot_cell words attributions)))))
  /\ (forall w a, In (w, a) (bars (snd (run (bar_plot_cell words attributions)))) ->
        dict_get w (importance_dict words attributions) = Some a)
  /\ length (bars (snd (run (bar_plot_cell words attributions))))
     <= Nat.min (length words) (length attributions).
Proof.
  destruct (bar_plot_cell_bars words attributions) as (values & R & B & L & G).
  assert (Hnames : map fst (bars (snd (run (bar_plot_cell words attributions))))
                   = sorted_feature_names words attributions).
  { rewrite B, map_fst_combine, L. apply firstn_all. }
  assert (Hnd : List.NoDup (sorted_feature_names words attributions)).
  { eapply Permutation_NoDup; [symmetry; apply sorted_feature_names_perm|].
    apply importance_dict_NoDup. }
  split; [apply importance_dict_keys|].
  split; [apply importance_dict_NoDup|].
  split; [apply importance_dict_last|].
  split; [apply sorted_feature_names_perm|].
  split; [exact R|].
  split; [exact Hnames|].
  split; [rewrite Hnames; exact Hnd|].
  split; [rewrite B; exact G|].
  rewrite <- (length_map fst), Hnames.
  rewrite (Permutation_length (sorted_feature_names_perm words attributions)).
  pose proof (fill_length (combine words attributions) []) as F.
  unfold importance_dict, dict_comprehension.
  rewrite length_combine in F. simpl in F. lia.
Qed.

(** C9 on a review in which one word occurs twice. *)
Lemma importance_dict_keeps_last_occurrence_witness :
  dict_get "good" (importance_dict ["good"; "bad"; "good"] [0.5; -0.25; 0.125]%float)
  = Some 0.125%float.
Proof.
  apply (proj1 (proj2 (proj2 (importance_dict_keeps_last_occurrence
                                ["good"; "bad"; "good"] [0.5; -0.25; 0.125]%float)))
           2 "good" 0.125%float).
  - reflexivity.
  - reflexivity.
  - intros j H1 H2. simpl in H2. lia.
Defined.

Example bars_of_repeated_word :
  bars (snd (run (bar_plot_cell ["good"; "bad"; "good"] [0.5; -0.25; 0.125]%float)))
  = [("bad", (-0.25)%float); ("good", 0.125%float)].
Proof. vm_compute. reflexivity. Qed.

End BarPlotFacts.


Module ColorizeFacts.
Import Py Explain FloatFacts.
#[local] Open Scope float_scope.

Lemma map_result_ok {A B} (f : A -> result B) (g : A -> B) (xs : list A) :
  (forall x, f x = Ok (g x)) -> map_result f xs = Ok (map g xs).
Proof.
  intros H. induction xs as [|x xs IH]; simpl; [reflexivity|].
  now rewrite H, IH.
Qed.

Lemma map_result_length {A B} (f : A -> result B) (xs : list A) (ys : list B) :
  map_result f xs = Ok ys -> length ys = length xs.
Proof.
  revert ys. induction xs as [|x xs IH]; intros ys; simpl.
  - now intros [= <-].
  - destruct (f x) as [y|e]; [|discriminate].
    destruct (map_result f xs) as [ys'|e]; [|discriminate].
    intros [= <-]. simpl. f_equal. now apply IH.
Qed.

Section Colours.
Context {rgba : Type}.
Variable get_cmap : string -> result (float -> rgba).
Variable rgb2hex : rgba -> string.


(** Whenever [colorize] returns, it has asked for the colour map once and
    returns one colour per attribution. *)
Lemma colorize_returns (attrs : list float) (cmap : string) (colors : list string) :
  fst (run (colorize get_cmap rgb2hex attrs cmap)) = Ok colors ->
  snd (run (colorize get_cmap rgb2hex attrs cmap)) = [GetCmap cmap]
  /\ length colors = length attrs.
Proof.
  unfold run, colorize, bind, lift, call, ret.
  destruct (abs_max attrs) as [bound|e]; [|discriminate].
  destruct (get_cmap cmap) as [cm|e]; cbn [app]; [|discriminate].
  destruct (map_result _ attrs) as [colors'|e] eqn:E; [|discriminate].
  intros [= <-]. split; [reflexivity|]. exact (map_result_length _ _ _ E).
Qed.


End Colours.



Example colorize_two_attributions :
  run (colorize Samples.two_colours Samples.hex_of [0.5; -0.25] "PiYG")
  = (Ok ["#4d9221"; "#c51b7d"], [GetCmap "PiYG"]).
Proof. vm_compute. reflexivity. Qed.

Example colorize_empty :
  run (colorize Samples.two_colours Samples.hex_of [] "PiYG") = (Raise ValueError, []).
Proof. reflexivity. Qed.

(** With an infinite attribution every position is NaN. *)
Example colorize_infinite_attribution :
  Normalize (- infinity) infinity 0 = Ok nan.
Proof. reflexivity. Qed.

End ColorizeFacts.


Module FairnessFacts.
Import Py Fairness.

Section Cell.
Context {shared_model eval_result : Type}.
Variable default_eval_shared_model : string -> EvalConfig -> result shared_model.
Variable run_model_analysis :
  shared_model -> EvalConfig -> string -> string -> Z -> result eval_result.
Variable validate_tf_file : string.

(** C7: the evaluation configuration has the label key [toxicity], one
    metric, FairnessIndicators, whose thresholds are 0.1, 0.3, 0.5, 0.7 and
    0.9, two slicing specs, the empty one and the one by [gender], and
    confidence intervals switched off; and it is the configuration every
    run of the model analysis in the cell is given. *)
Theorem eval_config_fairness_indicators :
  map label_key (model_specs eval_config) = ["toxicity"]
  /\ map (fun spec => map (fun m => (class_name m, thresholds m)) (metrics spec))
         (metrics_specs eval_config)
     = [[("FairnessIndicators", Some [0.1; 0.3; 0.5; 0.7; 0.9]%Q)]]
  /\ map feature_keys (slicing_specs eval_config) = [[]; ["gender"]]
  /\ compute_confidence_intervals (options eval_config) = Some false
  /\ Forall (fun cfg => cfg = eval_config)
            (analysed_configs
               (snd (run (evaluation_cell default_eval_shared_model run_model_analysis
                                          validate_tf_file))))
  /\ (forall m, default_eval_shared_model tfma_export_dir eval_config = Ok m ->
        analysed_configs
          (snd (run (evaluation_cell default_eval_shared_model run_model_analysis
                                     validate_tf_file)))
        = [eval_config]).
Proof.
  split; [reflexivity|].
  split; [vm_compute; reflexivity|].
  split; [reflexivity|].
  split; [reflexivity|].
  unfold run, evaluation_cell, bind, call. cbn [app].
  split.
  - destruct (default_eval_shared_model tfma_export_dir eval_config); simpl.
    + constructor; [reflexivity | constructor].
    + constructor.
  - intros m Hm. rewrite Hm. reflexivity.
Qed.

End Cell.

(** C7 with a model that loads. *)
Lemma eval_config_fairness_indicators_witness :
  analysed_configs
    (snd (run (evaluation_cell (fun _ _ => Ok tt) (fun _ _ _ _ _ => Ok tt)
                               "validate_tf_processed.tfrecord")))
  = [eval_config].
Proof.
  exact (proj2 (proj2 (proj2 (proj2 (proj2
    (eval_config_fairness_indicators (fun _ _ => Ok tt) (fun _ _ _ _ _ => Ok tt)
       "validate_tf_processed.tfrecord"))))) tt eq_refl).
Defined.

End FairnessFacts.

Module NotebookFacts.
Import Py Nb.

(** ** Exceptions *)

(** C3 as stated fails: a code cell of explainable_text_classification.ipynb
    is a shell escape with a fallback, [gsutil ls ... || gsutil mb ...]: when
    listing the bucket fails, the bucket is made. *)
Lemma shell_fallback_is_recovery_logic :
  nth_error explainable_text_classification 8
  = Some (Code [Shell "gsutil ls $BUCKET_URI > /dev/null || gsutil mb -l $REGION $BUCKET_URI"])
  /\ any_recovery_logic
       (code_of (Code [Shell "gsutil ls $BUCKET_URI > /dev/null || gsutil mb -l $REGION $BUCKET_URI"]))
     = true
  /\ or_list "gsutil ls $BUCKET_URI > /dev/null || gsutil mb -l $REGION $BUCKET_URI"
     = ["gsutil ls $BUCKET_URI > /dev/null "; " gsutil mb -l $REGION $BUCKET_URI"]
  /\ run_or_list (fun cmd => negb (String.eqb cmd "gsutil ls $BUCKET_URI > /dev/null "))
                 (or_list "gsutil ls $BUCKET_URI > /dev/null || gsutil mb -l $REGION $BUCKET_URI")
     = (["gsutil ls $BUCKET_URI > /dev/null "; " gsutil mb -l $REGION $BUCKET_URI"], true)
  /\ forallb (fun c => negb (any_recovery_logic (code_of c))) code_cells = false.
Proof. repeat split. Qed.

(** C3 (as amended): no code cell of the three notebooks, the written
    train.py included, has a [try], an [except] or a loop that retries.  The
    recovery logic there is, is of the shell: two shell escapes, one in
    pipelines_custom_training.ipynb and one in
    explainable_text_classification.ipynb, are OR-lists of two commands that
    make the bucket when listing it fails; no other shell escape has a
    fallback.  train.py reads AIP_TRAINING_DATA_URI and AIP_TEST_DATA_URI
    by subscript of [os.environ], without a fallback, and once its two
    clients exist a missing variable ends the script with KeyError for that
    variable; [send_explanation_request] raises what [endpoint.explain]
    raises. *)
Theorem no_handler_only_shell_fallback :
  forallb (fun c => negb (has_recovery (code_of c))) code_cells = true
  /\ filter has_fallback (flat_map (fun c => shell_commands (code_of c)) code_cells)
     = ["gsutil ls $BUCKET_NAME > /dev/null || gsutil mb -l $REGION $BUCKET_NAME";
        "gsutil ls $BUCKET_URI > /dev/null || gsutil mb -l $REGION $BUCKET_URI"]
  /\ map (fun c => has_shell_fallback (code_of c)) pipelines_custom_training
     = map (fun i => (i =? 12)%nat) (seq 0 (length pipelines_custom_training))
  /\ map (fun c => has_shell_fallback (code_of c)) explainable_text_classification
     = map (fun i => (i =? 8)%nat) (seq 0 (length explainable_text_classification))
  /\ forallb (fun c => negb (has_shell_fallback (code_of c))) fairness_tfdv_tfma = true
  /\ (forall (succeeds : string -> bool) (cmd ls mb : string),
        In cmd ["gsutil ls $BUCKET_NAME > /dev/null || gsutil mb -l $REGION $BUCKET_NAME";
                "gsutil ls $BUCKET_URI > /dev/null || gsutil mb -l $REGION $BUCKET_URI"] ->
        or_list cmd = [ls; mb] ->
        startswith ls "gsutil ls " = true
        /\ startswith mb " gsutil mb " = true
        /\ (succeeds ls = true -> run_or_list succeeds (or_list cmd) = ([ls], true))
        /\ (succeeds ls = false ->
            run_or_list succeeds (or_list cmd) = ([ls; mb], succeeds mb)))
  /\ environ_subscripts train_py_source
     = ["AIP_TRAINING_DATA_URI"; "AIP_TEST_DATA_URI"; "AIP_MODEL_DIR"]
  /\ environ_defaults train_py_source = []
  /\ (forall (cell tableref rowiter model client bucket blob : Type)
             (w : Train.sdk cell tableref rowiter model client bucket blob)
             (environ : gmap string string) c1 c2,
        Train.bigquery_Client w = Ok c1 -> Train.storage_Client w = Ok c2 ->
        environ !! "AIP_TRAINING_DATA_URI" = None ->
        fst (run (Train.train_py w environ)) = Raise (KeyError "AIP_TRAINING_DATA_URI"))
  /\ (forall (cell tableref rowiter model client bucket blob : Type)
             (w : Train.sdk cell tableref rowiter model client bucket blob)
             (environ : gmap string string) c1 c2 uri,
        Train.bigquery_Client w = Ok c1 -> Train.storage_Client w = Ok c2 ->
        environ !! "AIP_TRAINING_DATA_URI" = Some uri ->
        environ !! "AIP_TEST_DATA_URI" = None ->
        fst (run (Train.train_py w environ)) = Raise (KeyError "AIP_TEST_DATA_URI"))
  /\ (forall (pred explanation : Type) (x_test : list (list Z)) (y_test : list Z)
             (endpoint : list (list Z) -> result (Explain.explain_response pred explanation))
             (review : Z) example example_label e,
        index x_test review = Ok example ->
        index y_test review = Ok example_label ->
        endpoint [example] = Raise e ->
        fst (run (Explain.send_explanation_request x_test y_test endpoint review))
        = Raise e).
Proof.
  split; [vm_compute; reflexivity|].
  split; [vm_compute; reflexivity|].
  split; [vm_compute; reflexivity|].
  split; [vm_compute; reflexivity|].
  split; [vm_compute; reflexivity|].
  split.
  { intros succeeds cmd ls mb [<-|[<-|[]]] E;
      match type of E with or_list ?c = _ => set (l := or_list c) in * end;
      vm_compute in l; subst l; injection E as <- <-;
      (split; [reflexivity|]); (split; [reflexivity|]);
      split; intros H; cbn [run_or_list]; rewrite H; [reflexivity| |reflexivity|];
      match goal with |- context [succeeds ?mb] => now destruct (succeeds mb) end. }
  split; [vm_compute; reflexivity|].
  split; [vm_compute; reflexivity|].
  split.
  { intros. now rewrite (TrainFacts.train_py_missing_training_uri w environ c1 c2). }
  split.
  { intros. now rewrite (TrainFacts.train_py_missing_test_uri w environ c1 c2 uri). }
  intros.
  now rewrite (RequestFacts.send_explanation_request_raises
                 x_test y_test endpoint review example example_label e).
Qed.

(** C3 (as amended) in a container that was given the training table
    only. *)
Lemma no_handler_only_shell_fallback_witness :
  fst (run (Train.train_py (Samples.sdk_ok Samples.beans_columns) Samples.environ_no_test))
  = Raise (KeyError "AIP_TEST_DATA_URI").
Proof.
  apply (proj1 (proj2 (proj2 (proj2 (proj2 (proj2 (proj2 (proj2 (proj2 (proj2
           no_handler_only_shell_fallback)))))))))
           _ _ _ _ _ _ _ (Samples.sdk_ok Samples.beans_columns) Samples.environ_no_test
           tt tt "bq://project.dataset.training");
    reflexivity.
Defined.

Example train_py_full_environment :
  fst (run (Train.train_py (Samples.sdk_ok Samples.beans_columns) Samples.environ_full))
  = Ok tt.
Proof. vm_compute. reflexivity. Qed.

(** ** Threads, processes, Beam *)

(** C6 as stated fails: a cell of fairness_tfdv_tfma.ipynb is a shell
    escape, which runs its command in a child process. *)
Lemma shell_escape_cell_creates_process :
  nth_error fairness_tfdv_tfma 6 = Some (Code [Shell "cat requirements.txt"])
  /\ creates_thread_or_process (executed (Code [Shell "cat requirements.txt"])) = true.
Proof. split; reflexivity. Qed.

(** C6 (as amended): no code cell calls or imports a threading or process
    API of Python, constructs a Beam pipeline or opens a context manager;
    the child processes the cells create are those of their shell escapes
    and no others; [beam.Pipeline] and
    [tfma.ExtractEvaluateAndWriteResults] are called in one place, a Python
    listing of a markdown cell of fairness_tfdv_tfma.ipynb, which is not
    executed. *)
Theorem code_cells_synchronous_shell_only :
  forallb (fun c => synchronous_single_threaded (code_of c)) code_cells = true
  /\ forallb (fun c => Bool.eqb (creates_thread_or_process (executed c))
                                (spawns_shell (executed c))) code_cells = true
  /\ length (filter (fun c => spawns_shell (executed c)) code_cells) = 14
  /\ forallb (fun c => negb (calls_named "tfma.ExtractEvaluateAndWriteResults" (code_of c)))
             code_cells = true
  /\ map (fun c => (is_code_cell c,
                    calls_named "tfma.ExtractEvaluateAndWriteResults" (listings_of c)))
         (filter (fun c => constructs_beam_pipeline (listings_of c)) (concat notebooks))
     = [(false, true)]
  /\ forallb (fun c => match executed c with [] => true | _ => false end)
             (filter (fun c => constructs_beam_pipeline (listings_of c)) (concat notebooks))
     = true.
Proof. repeat split; vm_compute; reflexivity. Qed.

(** ** Functions *)

(** C4 as stated fails: [highlight] calls nothing; its result is a string
    it formats itself. *)
Lemma highlight_computes_locally :
  exists f,
    find_function "highlight" = Some f
    /\ calls (function_body f) = []
    /\ local_ops (function_body f) = ["f-string"]
    /\ delegates_entirely f = false
    /\ Explain.highlight "good" "#4d9221" = "<mark style=background-color:#4d9221>good </mark>".
Proof. eexists. split; [reflexivity|]. repeat split. Qed.

(** C4 (as amended): the notebooks define seven functions.  [highlight]
    calls nothing and builds its result with an f-string; each of the other
    six makes the calls listed.  The functions compute in the notebook's
    own Python too: [download_table] slices the prefix off,
    [decode_sentence] subtracts 3 from every token id in a comprehension,
    [colorize] negates the bound, [my_pipeline] and [display_highlights]
    format strings.  These local transformations have contracts: a prefixed
    table URI reaches BigQuery without its prefix, a token id is decoded to
    the word at [id - 3] or to UNK, and [highlight] gives the markup of a
    word in a colour.  No function has a handler or a loop that retries. *)
Theorem functions_compute_locally :
  map function_name functions
  = [Some "download_table"; Some "my_pipeline"; Some "send_explanation_request";
     Some "decode_sentence"; Some "highlight"; Some "colorize";
     Some "display_highlights"]
  /\ map function_name (filter makes_no_call functions) = [Some "highlight"]
  /\ calls (body_of "download_table")
     = ["bq_table_uri.startswith"; "len"; "bigquery.TableReference.from_string";
        "bqclient.list_rows"; "rows.to_dataframe"]
  /\ calls (body_of "my_pipeline")
     = ["TabularDatasetCreateOp"; "CustomContainerTrainingJobRunOp"; "ModelBatchPredictOp"]
  /\ calls (body_of "send_explanation_request") = ["_.tolist"; "endpoint.explain"]
  /\ calls (body_of "decode_sentence") = ["_.join"; "index.get"]
  /\ calls (body_of "colorize")
     = ["_.max"; "np.abs"; "mpl.colors.Normalize"; "mpl.cm.get_cmap"; "list"; "map";
        "mpl.colors.rgb2hex"; "cmap"; "norm"]
  /\ calls (body_of "display_highlights")
     = ["_.split"; "decode_sentence"; "colorize"; "print"; "display"; "HTML"; "_.join";
        "list"; "map"]
  /\ local_ops (body_of "highlight") = ["f-string"]
  /\ local_ops (body_of "download_table") = ["slice"]
  /\ local_ops (body_of "decode_sentence") = ["list comprehension"; "binary -"]
  /\ local_ops (body_of "colorize") = ["unary -"]
  /\ local_ops (body_of "my_pipeline") = ["f-string"]
  /\ local_ops (body_of "display_highlights") = ["f-string"]
  /\ forallb (fun f => negb (has_recovery (function_body f))) functions = true
  /\ (forall (cell tableref rowiter model client bucket blob : Type)
             (w : Train.sdk cell tableref rowiter model client bucket blob) (t : string),
        Train.table_ids w ("bq://" ++ t) = [t])
  /\ (forall (index : gmap Z string) (i : Z) (word : string),
        index !! (i - 3)%Z = Some word -> Explain.decode_sentence [i] index = word)
  /\ (forall (index : gmap Z string) (i : Z),
        index !! (i - 3)%Z = None -> Explain.decode_sentence [i] index = "UNK")
  /\ (forall s c : string,
        Explain.highlight s c
        = ("<mark style=background-color:" ++ c ++ ">" ++ s ++ " </mark>")%string).
Proof.
  do 15 (split; [vm_compute; reflexivity|]).
  split; [intros; apply TrainFacts.table_ids_prefixed|].
  split; [|split]; try (intros index i; unfold Explain.decode_sentence, Explain.join; simpl).
  - intros word H. now rewrite H.
  - intros H. now rewrite H.
  - reflexivity.
Qed.

(** C4 (as amended) on a two-word vocabulary. *)
Lemma functions_compute_locally_witness :
  Explain.decode_sentence [4%Z] (<[1%Z := "the"]> (<[2%Z := "and"]> ∅)) = "the".
Proof.
  apply (proj1 (proj2 (proj2 (proj2 (proj2 (proj2 (proj2 (proj2 (proj2
           (proj2 (proj2 (proj2 (proj2 (proj2 (proj2 (proj2 (proj2 functions_compute_locally))))))))))))))))
           (<[1%Z := "the"]> (<[2%Z := "and"]> ∅)) 4%Z "the").
  reflexivity.
Defined.

End NotebookFacts.

(** * Further properties of the cells *)

Module VocabularyFacts.
Import Py Explain Vocabulary.

#[local] Arguments String.append : simpl nomatch.

Lemma append_empty_r (s : string) : (s ++ EmptyString)%string = s.
Proof. induction s as [|c s IH]; simpl; [reflexivity | now rewrite IH]. Qed.

Lemma append_assoc (a b c : string) : ((a ++ b) ++ c = a ++ (b ++ c))%string.
Proof. induction a as [|x a IH]; simpl; [reflexivity | now rewrite IH]. Qed.

Lemma append_nonempty_r (a : string) (c : ascii) (b : string) :
  String.eqb (a ++ String c b) EmptyString = false.
Proof. destruct a; reflexivity. Qed.

(** A blank is no second or third byte of a white-space character. *)
Lemma is_space2_blank (c : ascii) : is_space2 c " " = false.
Proof. unfold is_space2. apply andb_false_r. Qed.

Lemma is_space3_blank2 (c1 c3 : ascii) : is_space3 c1 " " c3 = false.
Proof.
  unfold is_space3. change (byte_is 154 " ") with false. change (byte_is 128 " ") with false.
  change (byte_is 129 " ") with false.
  now rewrite !andb_false_r.
Qed.

Lemma is_space3_blank3 (c1 c2 : ascii) : is_space3 c1 c2 " " = false.
Proof.
  unfold is_space3. change (byte_is 128 " ") with false. change (byte_is 159 " ") with false.
  change (byte_in 128 138 " " || byte_is 168 " " || byte_is 169 " " || byte_is 175 " ")
    with false.
  now rewrite !andb_false_r.
Qed.

(** No white-space character begins in a word and ends after it, when the
    word is followed by the end of the sentence or by a blank. *)
Lemma space_width_append (c : ascii) (w rest : string) :
  rest = EmptyString \/ (exists rest', rest = String " " rest') ->
  space_width (String c w) = 0 -> space_width (String c (w ++ rest)) = 0.
Proof.
  intros [-> | [rest' ->]] H; [now rewrite append_empty_r|].
  destruct w as [|c2 [|c3 w]]; simpl in *.
  - destruct (is_space c); [discriminate|].
    rewrite is_space2_blank. destruct rest'; [reflexivity|].
    now rewrite is_space3_blank2.
  - destruct (is_space c); [discriminate|].
    destruct (is_space2 c c2); [discriminate|].
    now rewrite is_space3_blank3.
  - exact H.
Qed.

(** A run of characters that are no white space joins the word being
    read. *)
Lemma split_ws_aux_word (w cur rest : string) :
  rest = EmptyString \/ (exists rest', rest = String " " rest') ->
  no_space w = true ->
  split_ws_aux 0 cur (w ++ rest) = split_ws_aux 0 (cur ++ w) rest.
Proof.
  intros Hrest. revert cur. induction w as [|c w IH]; intros cur H.
  - now rewrite append_empty_r.
  - cbn [no_space] in H. apply andb_prop in H as [Hc Hw]. apply Nat.eqb_eq in Hc.
    change (String c w ++ rest)%string with (String c (w ++ rest)).
    cbn [split_ws_aux]. rewrite (space_width_append c w rest Hrest Hc).
    rewrite (IH _ Hw), append_assoc. reflexivity.
Qed.

(** Splitting what was joined by single blanks gives the words back. *)
Lemma split_ws_join (ws : list string) :
  Forall (fun w => is_word w = true) ws ->
  split_ws (join " " ws) = ws.
Proof.
  unfold split_ws, join. induction ws as [|w ws IH]; intros H; [reflexivity|].
  apply Forall_cons_iff in H as [Hw Hws].
  unfold is_word in Hw. apply andb_prop in Hw as [Hne Hsp]. apply negb_true_iff in Hne.
  destruct ws as [|w' ws].
  - simpl String.concat. rewrite <- (append_empty_r w) at 1.
    rewrite (split_ws_aux_word w _ _ (or_introl eq_refl) Hsp).
    simpl. unfold flush. now rewrite Hne.
  - change (String.concat " " (w :: w' :: ws))
      with (w ++ String " "%char (String.concat " " (w' :: ws)))%string.
    rewrite (split_ws_aux_word w _ _ (or_intror (ex_intro _ _ eq_refl)) Hsp).
    simpl String.append.
    change (split_ws_aux 0 w (String " " (String.concat " " (w' :: ws))))
      with (flush w ++ split_ws_aux 0 EmptyString (String.concat " " (w' :: ws))).
    unfold flush at 1. rewrite Hne. simpl. f_equal. apply IH, Hws.
Qed.

Section Index.
Variable index : list (string * Z).

Lemma reverse_index_fold (items : list (string * Z)) (m : gmap Z string) (r : Z) :
  ~ In r (map snd items) ->
  fold_left (fun m kv => <[snd kv := fst kv]> m) items m !! r = m !! r.
Proof.
  revert m. induction items as [|[w' r'] items IH]; intros m Hn; simpl; [reflexivity|].
  simpl in Hn. rewrite IH by tauto. apply lookup_insert_ne. tauto.
Qed.

Lemma reverse_index_fold_In (items : list (string * Z)) (m : gmap Z string) w r :
  List.NoDup (map snd items) -> In (w, r) items ->
  fold_left (fun m kv => <[snd kv := fst kv]> m) items m !! r = Some w.
Proof.
  revert m. induction items as [|[w' r'] items IH]; intros m Hnd Hin; [destruct Hin|].
  simpl in Hnd. apply List.NoDup_cons_iff in Hnd as [Hfresh Hnd].
  destruct Hin as [[= -> ->]|Hin]; simpl.
  - rewrite reverse_index_fold by exact Hfresh. apply lookup_insert_eq.
  - now apply IH.
Qed.

Lemma reverse_index_fold_inv (items : list (string * Z)) (m : gmap Z string) w r :
  fold_left (fun m kv => <[snd kv := fst kv]> m) items m !! r = Some w ->
  In (w, r) items \/ m !! r = Some w.
Proof.
  revert m. induction items as [|[w' r'] items IH]; intros m H; simpl in *; [now right|].
  apply IH in H as [H|H]; [left; now right|].
  destruct (decide (r' = r)) as [->|ne].
  - rewrite lookup_insert_eq in H. injection H as ->. left. now left.
  - rewrite lookup_insert_ne in H by exact ne. now right.
Qed.

(** Inverting the index and looking a rank up gives the word of that rank. *)
Lemma reverse_index_lookup w r :
  List.NoDup (map snd index) -> In (w, r) index -> reverse_index index !! r = Some w.
Proof. apply reverse_index_fold_In. Qed.

Lemma reverse_index_lookup_inv w r :
  reverse_index index !! r = Some w -> In (w, r) index.
Proof.
  intros H. apply reverse_index_fold_inv in H as [H|H]; [exact H|].
  rewrite lookup_empty in H. discriminate.
Qed.

(** X1: when no two words of the index share a rank, decoding inverts the
    encoding of the dataset: the tokens [rank + 3] of any words of the
    index decode to these words, joined by single blanks. *)
Theorem decode_sentence_inverts_encoding (ws : list (string * Z)) :
  List.NoDup (map snd index) ->
  (forall kv, In kv ws -> In kv index) ->
  decode_sentence (map (fun kv => (snd kv + 3)%Z) ws) (reverse_index index)
  = join " " (map fst ws).
Proof.
  intros Hnd Hin. unfold decode_sentence. f_equal. rewrite map_map.
  apply map_ext_in. intros [w r] Hwr. simpl.
  replace (r + 3 - 3)%Z with r by lia.
  now rewrite (reverse_index_lookup w r Hnd (Hin _ Hwr)).
Qed.

(** X2: when the ranks of the index start at 1, every token up to 3 (the
    padding, start and unknown markers) decodes to UNK. *)
Theorem decode_sentence_markers_are_UNK (x : list Z) :
  (forall w r, In (w, r) index -> (1 <= r)%Z) ->
  Forall (fun i => (i <= 3)%Z) x ->
  decode_sentence x (reverse_index index) = join " " (repeat "UNK" (length x)).
Proof.
  intros Hranks Hx. unfold decode_sentence. f_equal.
  induction Hx as [|i x Hi Hx IH]; [reflexivity|]. simpl. rewrite IH. f_equal.
  destruct (reverse_index index !! (i - 3)%Z) as [w|] eqn:E; [|reflexivity].
  apply reverse_index_lookup_inv, Hranks in E. lia.
Qed.

(** X3: when every word of the index is non-empty and has no white-space
    character in it, splitting the decoded sentence gives one word per
    token, the word of the token or UNK: the words line up with the
    tokens. *)
Theorem decoded_words_line_up (x : list Z) :
  (forall w r, In (w, r) index -> is_word w = true) ->
  split_ws (decode_sentence x (reverse_index index))
  = map (fun i => default "UNK" (reverse_index index !! (i - 3)%Z)) x
  /\ length (split_ws (decode_sentence x (reverse_index index))) = length x.
Proof.
  intros Hwords.
  assert (E : split_ws (decode_sentence x (reverse_index index))
              = map (fun i => default "UNK" (reverse_index index !! (i - 3)%Z)) x).
  { unfold decode_sentence. apply split_ws_join.
    apply Forall_forall. intros w Hw. apply list_elem_of_In, in_map_iff in Hw as (i & <- & _).
    destruct (reverse_index index !! (i - 3)%Z) as [w|] eqn:E; [|reflexivity].
    simpl. apply reverse_index_lookup_inv in E. now apply (Hwords w (i - 3)%Z). }
  split; [exact E|]. rewrite E. apply length_map.
Qed.

End Index.

Lemma decode_sentence_inverts_encoding_witness :
  decode_sentence (map (fun kv => (snd kv + 3)%Z) [("good", 49%Z); ("the", 1%Z)])
                  (reverse_index MoreSamples.imdb_items)
  = join " " (map fst [("good", 49%Z); ("the", 1%Z)]).
Proof.
  apply (decode_sentence_inverts_encoding MoreSamples.imdb_items).
  - repeat constructor; simpl; intuition discriminate.
  - intros kv [<-|[<-|[]]]; simpl; tauto.
Defined.

Lemma decode_sentence_markers_are_UNK_witness :
  decode_sentence [0; 0; 1; 3]%Z (reverse_index MoreSamples.imdb_items)
  = join " " (repeat "UNK" 4).
Proof.
  apply (decode_sentence_markers_are_UNK MoreSamples.imdb_items [0; 0; 1; 3]%Z).
  - intros w r [[= <- <-]|[[= <- <-]|[[= <- <-]|[]]]]; lia.
  - repeat constructor; lia.
Defined.

Lemma decoded_words_line_up_witness :
  length (split_ws (decode_sentence [0; 1; 52; 4; 7]%Z (reverse_index MoreSamples.imdb_items)))
  = 5.
Proof.
  apply (decoded_words_line_up MoreSamples.imdb_items [0; 1; 52; 4; 7]%Z).
  intros w r [[= <- <-]|[[= <- <-]|[[= <- <-]|[]]]]; reflexivity.
Defined.

Example decoded_review :
  split_ws (decode_sentence [0; 1; 52; 4; 7]%Z (reverse_index MoreSamples.imdb_items))
  = ["UNK"; "UNK"; "good"; "the"; "UNK"].
Proof. vm_compute. reflexivity. Qed.

End VocabularyFacts.

Module ColourScaleFacts.
Import Py Explain FloatFacts ColorizeFacts.
#[local] Open Scope float_scope.

Lemma fold_max_zeros (l : list float) :
  Forall (fun x => (x =? 0) = true) l ->
  fold_left (fun m x => maximum m (abs x)) l 0 = 0.
Proof.
  induction 1 as [|x l Hx _ IH]; simpl; [reflexivity|].
  rewrite (abs_of_zero x Hx). exact IH.
Qed.

Section Colours.
Context {rgba : Type}.
Variable get_cmap : string -> result (float -> rgba).
Variable rgb2hex : rgba -> string.

(** X6: when every attribution is zero, the bounds of the normalisation
    coincide and every word gets one and the same colour, the one the map
    has at 0, its lower end, not its midpoint. *)
Theorem colorize_all_zero (attrs : list float) (cmap : string) (cm : float -> rgba) :
  attrs <> [] ->
  Forall (fun x => (x =? 0) = true) attrs ->
  get_cmap cmap = Ok cm ->
  run (colorize get_cmap rgb2hex attrs cmap)
  = (Ok (repeat (rgb2hex (cm 0)) (length attrs)), [GetCmap cmap]).
Proof.
  intros Hne Hz Hcm.
  assert (Hb : abs_max attrs = Ok 0).
  { destruct attrs as [|a attrs]; [now destruct Hne|].
    apply Forall_cons_iff in Hz as [Ha Hz]. simpl. f_equal.
    rewrite (abs_of_zero a Ha). now apply fold_max_zeros. }
  unfold run, colorize, bind, lift, call, ret. rewrite Hb, Hcm. cbn [app].
  rewrite (map_result_ok _ (fun _ => rgb2hex (cm 0))).
  - f_equal. f_equal. clear. induction attrs; simpl; [reflexivity | now f_equal].
  - intros x. reflexivity.
Qed.

End Colours.

Lemma colorize_all_zero_witness :
  run (colorize Samples.two_colours Samples.hex_of [0; -0] "PiYG")
  = (Ok (repeat (Samples.hex_of (0 <? 0.5)) 2), [GetCmap "PiYG"]).
Proof.
  apply (colorize_all_zero Samples.two_colours Samples.hex_of [0; -0] "PiYG"
           (fun t => t <? 0.5)).
  - discriminate.
  - repeat constructor.
  - reflexivity.
Defined.

End ColourScaleFacts.

Module RequestEdgeFacts.
Import Py Explain.

Lemma index_invalid {A} (xs : list A) (i : Z) :
  ~ valid_index xs i -> index xs i = Raise IndexError.
Proof.
  unfold valid_index, index. intros H.
  destruct ((0 <=? (if (i <? 0)%Z then (i + Z.of_nat (length xs))%Z else i))%Z
            && ((if (i <? 0)%Z then (i + Z.of_nat (length xs))%Z else i)
                <? Z.of_nat (length xs))%Z) eqn:E; [|reflexivity].
  exfalso. apply H. apply andb_prop in E as [E1 E2].
  apply Z.leb_le in E1. apply Z.ltb_lt in E2.
  destruct (Z.ltb_spec i 0); lia.
Qed.

(** Indexing raises nothing but IndexError. *)
Lemma index_raises_IndexError {A} (xs : list A) (i : Z) e :
  index xs i = Raise e -> e = IndexError.
Proof.
  unfold index. destruct (_ && _); [|now intros [= <-]].
  destruct (xs !! _); [discriminate | now intros [= <-]].
Qed.

Lemma index_nil {A} (i : Z) : index (@nil A) i = Raise IndexError.
Proof. apply index_invalid. unfold valid_index. simpl. lia. Qed.

Section Request.
Context {pred explanation : Type}.
Variable x_test : list (list Z).
Variable y_test : list Z.
Variable endpoint : list (list Z) -> result (explain_response pred explanation).

(** X7: a review index outside the test reviews or outside the test
    labels makes [send_explanation_request] raise IndexError before any
    request is sent to the endpoint. *)
Theorem send_explanation_request_bad_index (review : Z) :
  ~ valid_index x_test review \/ ~ valid_index y_test review ->
  run (send_explanation_request x_test y_test endpoint review) = (Raise IndexError, []).
Proof.
  intros H. unfold run, send_explanation_request, bind, lift.
  destruct (index x_test review) as [example|e] eqn:Ex.
  - destruct H as [H|H].
    + rewrite (index_invalid _ _ H) in Ex. discriminate.
    + now rewrite (index_invalid _ _ H).
  - now rewrite (index_raises_IndexError _ _ _ Ex).
Qed.

(** X8: when the endpoint answers without a prediction row, with an empty
    first prediction row or without an explanation, the function raises
    IndexError after its one request; it returns no partial tuple. *)
Theorem send_explanation_request_empty_answer (review : Z) example example_label answer :
  index x_test review = Ok example ->
  index y_test review = Ok example_label ->
  endpoint [example] = Ok answer ->
  predictions answer = []
  \/ (exists rows, predictions answer = [] :: rows)
  \/ explanations answer = [] ->
  run (send_explanation_request x_test y_test endpoint review)
  = (Raise IndexError, [Explain [example]]).
Proof.
  intros Ex Ey Ea H. unfold run, send_explanation_request, bind, lift, call, ret.
  rewrite Ex, Ey, Ea. cbn [app].
  destruct (index (predictions answer) 0) as [row|e] eqn:E0;
    [|now rewrite (index_raises_IndexError _ _ _ E0)].
  destruct (index row 0) as [p|e] eqn:E1;
    [|now rewrite (index_raises_IndexError _ _ _ E1)].
  destruct (index (explanations answer) 0) as [x|e] eqn:E2;
    [|now rewrite (index_raises_IndexError _ _ _ E2)].
  exfalso. destruct H as [H|[[rows H]|H]].
  - rewrite H, index_nil in E0. discriminate.
  - rewrite H in E0. injection E0 as <-. rewrite index_nil in E1. discriminate.
  - rewrite H, index_nil in E2. discriminate.
Qed.

End Request.

Lemma send_explanation_request_bad_index_witness :
  run (send_explanation_request [[1; 2]; [3; 4]]%Z [0; 1]%Z
         (fun _ => Ok (mkResponse [[7%Z]] [tt])) (-3))
  = (Raise IndexError, []).
Proof.
  apply (send_explanation_request_bad_index [[1; 2]; [3; 4]]%Z [0; 1]%Z
           (fun _ => Ok (mkResponse [[7%Z]] [tt])) (-3)).
  left. unfold valid_index. simpl. lia.
Defined.

Lemma send_explanation_request_empty_answer_witness :
  run (send_explanation_request [[1; 2]; [3; 4]]%Z [0; 1]%Z
         (fun _ => Ok (mkResponse (pred := Z) [[]] [tt])) 1)
  = (Raise IndexError, [Explain [[3; 4]%Z]]).
Proof.
  apply (send_explanation_request_empty_answer [[1; 2]; [3; 4]]%Z [0; 1]%Z
           (fun _ => Ok (mkResponse (pred := Z) [[]] [tt])) 1 [3; 4]%Z 1%Z
           (mkResponse [[]] [tt])); try reflexivity.
  right. left. now exists [].
Defined.

End RequestEdgeFacts.

Module HighlightFacts.
Import Py Explain ColorizeFacts.

Lemma map2_length {A B C} (f : A -> B -> C) (xs : list A) (ys : list B) :
  length (map2 f xs ys) = Nat.min (length xs) (length ys).
Proof. unfold map2. now rewrite length_map, length_combine. Qed.

Lemma map2_nth_error {A B C} (f : A -> B -> C) (xs : list A) (ys : list B) i x y :
  nth_error xs i = Some x -> nth_error ys i = Some y ->
  nth_error (map2 f xs ys) i = Some (f x y).
Proof.
  intros Hx Hy. unfold map2.
  now rewrite nth_error_map, (DictFacts.nth_error_combine xs ys i x y Hx Hy).
Qed.

Section Display.
Context {pred rgba : Type}.
Variable reverse_index : gmap Z string.
Variable get_cmap : string -> result (float -> rgba).
Variable rgb2hex : rgba -> string.
Variable str_pred : pred -> string.
Variable str_label : Z -> string.

(** X9: without attributions [display_highlights] raises ValueError before
    it prints or displays anything.  When [colorize] returns colours for
    the attributions, one per attribution, the function asks for the PiYG
    map, prints the line with the prediction and the label, displays one
    markup and returns every decoded word.  The markup is word [i]
    highlighted in colour [i], for each [i] below the number of words and
    of attributions, and nothing else: words beyond the attributions are
    returned but not shown. *)
Theorem display_highlights_shows_paired_words
    (example : list Z) (example_label : Z) (prediction : pred) :
  run (display_highlights reverse_index get_cmap rgb2hex str_pred str_label
         example example_label prediction [])
  = (Raise ValueError, [])
  /\ forall (attributions : list float) (colors : list string),
       fst (run (colorize get_cmap rgb2hex attributions "PiYG")) = Ok colors ->
       let words := split_ws (decode_sentence example reverse_index) in
       let marks := map2 highlight words colors in
       run (display_highlights reverse_index get_cmap rgb2hex str_pred str_label
              example example_label prediction attributions)
       = (Ok words,
          [GetCmap "PiYG";
           Printed ("Prediction:[" ++ str_pred prediction ++ "] Actual:["
                    ++ str_label example_label ++ "]" ++ String "010"%char EmptyString);
           DisplayHTML (join EmptyString marks)])
       /\ length colors = length attributions
       /\ length marks = Nat.min (length words) (length attributions)
       /\ (forall i w c,
             nth_error words i = Some w -> nth_error colors i = Some c ->
             nth_error marks i
             = Some ("<mark style=background-color:" ++ c ++ ">" ++ w ++ " </mark>")%string)
       /\ (forall i, length attributions <= i -> nth_error marks i = None).
Proof.
  split; [reflexivity|].
  intros attributions colors Hc words marks.
  destruct (colorize_returns get_cmap rgb2hex attributions "PiYG" colors Hc) as [Hlog Hlen].
  assert (Hlm : length marks = Nat.min (length words) (length attributions)).
  { unfold marks. now rewrite map2_length, Hlen. }
  split.
  { unfold run in *. unfold display_highlights, bind.
    destruct (colorize get_cmap rgb2hex attributions "PiYG" []) as [r log].
    simpl in Hc, Hlog. subst r log. reflexivity. }
  split; [exact Hlen|].
  split; [exact Hlm|].
  split.
  { intros i w c Hw Hcol. unfold marks.
    now rewrite (map2_nth_error highlight words colors i w c Hw Hcol). }
  intros i Hi. apply nth_error_None. lia.
Qed.

End Display.

Lemma display_highlights_shows_paired_words_witness :
  run (display_highlights (Vocabulary.reverse_index MoreSamples.imdb_items)
         Samples.two_colours Samples.hex_of (fun _ : unit => "0.9") (fun _ => "1")
         [52; 4; 5]%Z 1%Z tt [0.5; -0.25]%float)
  = (Ok (split_ws (decode_sentence [52; 4; 5]%Z
                     (Vocabulary.reverse_index MoreSamples.imdb_items))),
     [GetCmap "PiYG";
      Printed ("Prediction:[" ++ "0.9" ++ "] Actual:[" ++ "1" ++ "]"
               ++ String "010"%char EmptyString);
      DisplayHTML
        (join EmptyString
           (map2 highlight
              (split_ws (decode_sentence [52; 4; 5]%Z
                           (Vocabulary.reverse_index MoreSamples.imdb_items)))
              ["#4d9221"; "#c51b7d"]))]).
Proof.
  exact (proj1 (proj2 (display_highlights_shows_paired_words
                         (Vocabulary.reverse_index MoreSamples.imdb_items)
                         Samples.two_colours Samples.hex_of
                         (fun _ : unit => "0.9") (fun _ => "1")
                         [52; 4; 5]%Z 1%Z tt)
                  [0.5; -0.25]%float ["#4d9221"; "#c51b7d"] eq_refl)).
Defined.

Example display_highlights_three_words_two_colours :
  run (display_highlights (Vocabulary.reverse_index MoreSamples.imdb_items)
         Samples.two_colours Samples.hex_of (fun _ : unit => "0.9") (fun _ => "1")
         [52; 4; 5]%Z 1%Z tt [0.5; -0.25]%float)
  = (Ok ["good"; "the"; "and"],
     [GetCmap "PiYG";
      Printed ("Prediction:[0.9] Actual:[1]" ++ String "010"%char EmptyString);
      DisplayHTML ("<mark style=background-color:#4d9221>good </mark>"
                   ++ "<mark style=background-color:#c51b7d>the </mark>")]).
Proof. vm_compute. reflexivity. Qed.

End HighlightFacts.

Module BarOrderFacts.
Import Py Explain DictFacts BarPlotFacts FloatFacts.

Section ByKey.
Context {A : Type}.
Variable key : A -> float.
Hypothesis key_is_number : forall a, is_nan (key a) = false.

(** Insertion keeps a list ascending in its keys. *)
Lemma insert_sorted_Sorted (x : A) (l : list A) :
  Sorted (fun a b => (key a <=? key b)%float = true) l ->
  Sorted (fun a b => (key a <=? key b)%float = true)
         (insert_sorted (fun a b => (key a <? key b)%float) x l).
Proof.
  induction l as [|y l IH]; intros H; simpl.
  - repeat constructor.
  - apply Sorted_inv in H as [Hl Hy].
    destruct (key y <? key x)%float eqn:E.
    + constructor; [now apply IH|].
      apply ltb_leb in E.
      destruct l as [|z l]; simpl; [now constructor|].
      destruct (key z <? key x)%float; constructor; [|exact E].
      now apply HdRel_inv in Hy.
    + constructor; [now constructor|]. constructor.
      now apply ltb_false_leb.
Qed.

Lemma sorted_Sorted (l : list A) :
  Sorted (fun a b => (key a <=? key b)%float = true)
         (sorted (fun a b => (key a <? key b)%float) l).
Proof.
  induction l as [|x l IH]; simpl; [constructor | now apply insert_sorted_Sorted].
Qed.

End ByKey.

(** Sorting looks at the order of the elements of the list only. *)
Lemma insert_sorted_ext {A} (ltb ltb' : A -> A -> bool) (x : A) (l : list A) :
  (forall y, In y l -> ltb y x = ltb' y x) ->
  insert_sorted ltb x l = insert_sorted ltb' x l.
Proof.
  induction l as [|y l IH]; intros H; simpl; [reflexivity|].
  rewrite (H y (or_introl eq_refl)), IH; [reflexivity|].
  intros z Hz. apply H. now right.
Qed.

Lemma sorted_ext {A} (ltb ltb' : A -> A -> bool) (l : list A) :
  (forall a b, In a l -> In b l -> ltb a b = ltb' a b) ->
  sorted ltb l = sorted ltb' l.
Proof.
  induction l as [|x l IH]; intros H; simpl; [reflexivity|].
  rewrite IH by (intros a b Ha Hb; apply H; now right).
  apply insert_sorted_ext. intros y Hy. apply H; [right | now left].
  eapply Permutation_in; [apply sorted_perm | exact Hy].
Qed.

Lemma Sorted_map {A B} (R : B -> B -> Prop) (f : A -> B) (l : list A) :
  Sorted (fun a b => R (f a) (f b)) l -> Sorted R (map f l).
Proof.
  induction 1 as [|x l Hl IH Hx]; simpl; constructor; [exact IH|].
  destruct Hx; simpl; now constructor.
Qed.

(** The values found for the names are the names' entries, in order. *)
Lemma paired_values {V} (d : dict V) (dflt : V) (names : list string) (values : list V) :
  length values = length names ->
  (forall k v, In (k, v) (combine names values) -> dict_get k d = Some v) ->
  values = map (fun k => default dflt (dict_get k d)) names.
Proof.
  revert values. induction names as [|k names IH]; intros [|v values] L H;
    simpl in *; try discriminate; [reflexivity|].
  rewrite (H k v (or_introl eq_refl)). simpl. f_equal.
  apply IH; [lia|]. intros k' v' Hin. apply H. now right.
Qed.

(** An entry of a filled dict is one of the pairs, or was there before. *)
Lemma fill_get_inv {V} (pairs : list (string * V)) (d : dict V) k v :
  dict_get k (fill pairs d) = Some v -> In (k, v) pairs \/ dict_get k d = Some v.
Proof.
  revert d. induction pairs as [|[k0 v0] pairs IH]; intros d H; simpl in *; [now right|].
  apply IH in H as [H|H]; [left; now right|].
  destruct (String.eqb_spec k0 k) as [->|ne].
  - rewrite dict_get_set_eq in H. injection H as ->. left. now left.
  - rewrite dict_get_set_ne in H by exact ne. now right.
Qed.

(** Every entry of the dict of the cell is one of the attributions. *)
Lemma importance_dict_values (words : list string) (attributions : list float) k v :
  dict_get k (importance_dict words attributions) = Some v -> In v attributions.
Proof.
  intros H. apply fill_get_inv in H as [H|H]; [|discriminate H].
  now apply in_combine_r in H.
Qed.

(** X10: when no attribution is NaN, the bars of the chart come in
    ascending order of their attribution: no bar is wider (more positive)
    than the bar after it. *)
Theorem bars_ascend (words : list string) (attributions : list float) :
  Forall (fun x => is_nan x = false) attributions ->
  Sorted (fun a b => (a <=? b)%float = true)
         (map snd (bars (snd (run (bar_plot_cell words attributions))))).
Proof.
  intros Hnum.
  destruct (bar_plot_cell_bars words attributions) as (values & _ & B & L & G).
  set (d := importance_dict words attributions) in *.
  set (key := fun k => default 0%float (dict_get k d)).
  assert (Hkey : forall k, is_nan (key k) = false).
  { intros k. unfold key. destruct (dict_get k d) as [v|] eqn:E; [|reflexivity].
    simpl. apply importance_dict_values in E.
    rewrite Forall_forall in Hnum. apply Hnum. now apply list_elem_of_In. }
  assert (Hnames : sorted_feature_names words attributions
                   = sorted (fun a b => (key a <? key b)%float) (dict_keys d)).
  { unfold sorted_feature_names. fold d. apply sorted_ext. intros a b Ha Hb.
    apply dict_get_In in Ha as [va Ea]. apply dict_get_In in Hb as [vb Eb].
    unfold key_ltb, key. now rewrite Ea, Eb. }
  rewrite B.
  replace (map snd (combine (sorted_feature_names words attributions) values)) with values.
  - rewrite (paired_values d 0%float _ values L G), Hnames.
    apply (Sorted_map (fun a b => (a <=? b)%float = true) key).
    now apply sorted_Sorted.
  - clear -L. revert L. generalize (sorted_feature_names words attributions).
    induction values as [|v values IH]; intros [|n names] L; simpl in *;
      try discriminate; [reflexivity|]. f_equal. apply IH. lia.
Qed.

(** X11: with no word or no attribution the cell draws nothing; otherwise
    it draws one figure with one horizontal bar chart of at least one bar,
    labels it and shows it. *)
Theorem bar_plot_cell_draws_once (words : list string) (attributions : list float) :
  (words = [] \/ attributions = [] ->
   run (bar_plot_cell words attributions) = (Ok tt, []))
  /\ (words <> [] -> attributions <> [] ->
      exists names widths,
        names <> []
        /\ length widths = length names
        /\ run (bar_plot_cell words attributions)
           = (Ok tt,
              [Figure; Barh (seq 0 (length names)) widths;
               Yticks (seq 0 (length names)) names;
               Title "Feature attributions"; Ylabel "Feature names";
               Xlabel "Attribution value"; PltShow])).
Proof.
  split.
  - intros H.
    assert (E : combine words attributions = []).
    { destruct H as [-> | ->]; [reflexivity | now destruct words]. }
    unfold run, bar_plot_cell, sorted_feature_names, importance_dict, dict_comprehension.
    rewrite E. reflexivity.
  - intros Hw Ha.
    destruct (map_result_getitem (importance_dict words attributions)
                (sorted_feature_names words attributions)) as (values & E & L & _).
    { intros k Hk. eapply Permutation_in; [apply sorted_feature_names_perm | exact Hk]. }
    assert (Hne : sorted_feature_names words attributions <> []).
    { destruct words as [|w words]; [now destruct Hw|].
      destruct attributions as [|a attributions]; [now destruct Ha|].
      intros Hnil.
      assert (Hin : In w (dict_keys (importance_dict (w :: words) (a :: attributions)))).
      { apply fill_keys. left. now left. }
      eapply Permutation_in in Hin; [|symmetry; apply sorted_feature_names_perm].
      rewrite Hnil in Hin. destruct Hin. }
    exists (sorted_feature_names words attributions), values.
    split; [exact Hne|]. split; [exact L|].
    unfold run, bar_plot_cell, bind, lift. rewrite E.
    destruct (sorted_feature_names words attributions) as [|n names]; [now destruct Hne|].
    reflexivity.
Qed.

Lemma bars_ascend_witness :
  Sorted (fun a b => (a <=? b)%float = true)
         (map snd (bars (snd (run (bar_plot_cell ["good"; "bad"; "fine"]
                                                 [0.5; -0.25; 0.125]%float))))).
Proof.
  apply (bars_ascend ["good"; "bad"; "fine"] [0.5; -0.25; 0.125]%float).
  repeat constructor.
Defined.

Lemma bar_plot_cell_draws_once_witness :
  run (bar_plot_cell ["good"; "bad"] []) = (Ok tt, []).
Proof.
  apply (proj1 (bar_plot_cell_draws_once ["good"; "bad"] [])). now right.
Defined.

Example bars_in_order :
  bars (snd (run (bar_plot_cell ["good"; "bad"; "fine"] [0.5; -0.25; 0.125]%float)))
  = [("bad", (-0.25)%float); ("fine", 0.125%float); ("good", 0.5%float)].
Proof. vm_compute. reflexivity. Qed.

End BarOrderFacts.

Module TrainRunFacts.
Import Py Train TrainLog.

Lemma column_pos_None (label : string) (cols : list string) :
  ~ In label cols -> column_pos label cols = None.
Proof.
  induction cols as [|c cols IH]; intros H; simpl; [reflexivity|].
  destruct (String.eqb_spec c label) as [->|_]; [exfalso; apply H; now left|].
  rewrite IH; [reflexivity|]. intros Hin. apply H. now right.
Qed.

Lemma column_pos_Some (label : string) (cols : list string) :
  In label cols -> exists i, column_pos label cols = Some i.
Proof.
  induction cols as [|c cols IH]; intros H; simpl; [destruct H|].
  destruct (String.eqb_spec c label) as [->|ne]; [now exists O|].
  destruct H as [H|H]; [contradiction|]. destruct (IH H) as [i ->]. now exists (S i).
Qed.

Lemma pop_missing {cell} (df : DataFrame cell) (label : string) :
  ~ In label (columns df) -> pop df label = Raise (KeyError label).
Proof. intros H. unfold pop. now rewrite (column_pos_None _ _ H). Qed.

Lemma pop_present {cell} (df : DataFrame cell) (label : string) :
  In label (columns df) -> exists r, pop df label = Ok r.
Proof. intros H. unfold pop. destruct (column_pos_Some _ _ H) as [i ->]. eauto. Qed.

(** [pop] raises nothing but KeyError for the label. *)
Lemma pop_raises {cell} (df : DataFrame cell) (label : string) e :
  pop df label = Raise e -> e = KeyError label.
Proof. unfold pop. destruct (column_pos label (columns df)); [discriminate | now intros [= <-]]. Qed.

Section WithSdk.
Context {cell tableref rowiter model client bucket blob : Type}.
Variable w : sdk cell tableref rowiter model client bucket blob.

(** A download appends its own calls to the log and is not influenced by
    what was logged before. *)
Lemma download_table_from (uri : string) (log : list (event cell tableref rowiter)) :
  download_table w uri log
  = (fst (run (download_table w uri)), log ++ snd (run (download_table w uri))).
Proof.
  unfold run, download_table, bind, call.
  destruct (from_string w _) as [t|e]; [|reflexivity].
  destruct (list_rows w t) as [r|e]; [|now rewrite <- app_assoc].
  now rewrite <- !app_assoc.
Qed.

Lemma download_table_makes_no_model (uri : string) :
  existsb is_new_classifier (snd (run (download_table w uri))) = false.
Proof.
  unfold run, download_table, bind, call.
  destruct (from_string w _) as [t|e]; [|reflexivity].
  destruct (list_rows w t) as [r|e]; reflexivity.
Qed.

(** X12: when both tables were downloaded and one of them has no [Class]
    column, train.py ends with KeyError for [Class] and no classifier was
    ever created. *)
Theorem train_py_needs_label_column (environ : gmap string string)
    c1 c2 training_uri test_uri df test_df :
  bigquery_Client w = Ok c1 ->
  storage_Client w = Ok c2 ->
  environ !! "AIP_TRAINING_DATA_URI" = Some training_uri ->
  environ !! "AIP_TEST_DATA_URI" = Some test_uri ->
  fst (run (download_table w training_uri)) = Ok df ->
  fst (run (download_table w test_uri)) = Ok test_df ->
  ~ In "Class" (columns df) \/ ~ In "Class" (columns test_df) ->
  fst (run (train_py w environ)) = Raise (KeyError "Class")
  /\ existsb is_new_classifier (snd (run (train_py w environ))) = false.
Proof.
  intros H1 H2 H3 H4 D1 D2 H.
  unfold run at 1 2. unfold train_py, bind, call, lift, environ_get.
  rewrite H1, H2, H3, H4. cbn [app].
  rewrite (download_table_from training_uri), D1.
  rewrite (download_table_from test_uri), D2.
  assert (L : existsb is_new_classifier
                (([BigqueryClient; StorageClient] ++ snd (run (download_table w training_uri)))
                 ++ snd (run (download_table w test_uri))) = false).
  { rewrite !existsb_app, !download_table_makes_no_model. reflexivity. }
  destruct (pop df "Class") as [popped|e] eqn:P1.
  - destruct H as [H|H]; [rewrite (pop_missing df "Class" H) in P1; discriminate|].
    rewrite (pop_missing test_df "Class" H). split; [reflexivity | exact L].
  - rewrite (pop_raises _ _ _ P1). split; [reflexivity | exact L].
Qed.

Lemma download_table_log_kinds (uri : string) :
  existsb is_upload (snd (run (download_table w uri))) = false
  /\ existsb is_dump (snd (run (download_table w uri))) = false.
Proof.
  unfold run, download_table, bind, call.
  destruct (from_string w _) as [t|e]; [|split; reflexivity].
  destruct (list_rows w t) as [r|e]; split; reflexivity.
Qed.

Lemma existsb_rev {A} (f : A -> bool) (l : list A) : existsb f (rev l) = existsb f l.
Proof.
  induction l as [|x l IH]; simpl; [reflexivity|].
  rewrite existsb_app, IH. simpl. rewrite orb_false_r. apply orb_comm.
Qed.

Lemma upload_comes_last_none (log : list (event cell tableref rowiter)) :
  existsb is_upload log = false -> upload_comes_last log = true.
Proof.
  intros H. unfold upload_comes_last.
  destruct (rev log) as [|ev before] eqn:E; [now rewrite H|].
  destruct ev; try (now rewrite H).
  rewrite <- existsb_rev, E in H. discriminate H.
Qed.

Lemma upload_comes_last_snoc (log : list (event cell tableref rowiter)) :
  existsb is_upload log = false -> existsb is_dump log = true ->
  upload_comes_last (log ++ [UploadFromFilename "model.joblib"]) = true.
Proof.
  intros H D. unfold upload_comes_last. rewrite rev_app_distr. simpl.
  now rewrite !existsb_rev, H, D.
Qed.

(** X13: whatever the SDK answers and whatever the environment holds,
    train.py calls [upload_from_filename] at most once, as its last call,
    for model.joblib and after the model was dumped. *)
Theorem train_py_uploads_last (environ : gmap string string) :
  upload_comes_last (snd (run (train_py w environ))) = true.
Proof.
  unfold run at 1. unfold train_py, bind, call, lift, environ_get, ret.
  cbv zeta.
  repeat first
    [ rewrite download_table_from
    | match goal with
      | |- context [match ?x with _ => _ end] => destruct x; cbn [fst snd]
      end ];
    (first [ apply upload_comes_last_snoc | apply upload_comes_last_none ]);
    rewrite ?existsb_app,
            ?(proj1 (download_table_log_kinds _)), ?(proj2 (download_table_log_kinds _));
    reflexivity.
Qed.

(** X14: with an SDK whose calls all succeed, tables that have a [Class]
    column and both data URIs set, a missing AIP_MODEL_DIR is found only
    after the model was trained and dumped: the script ends with KeyError
    for AIP_MODEL_DIR, and nothing is uploaded. *)
Theorem train_py_reads_model_dir_late (environ : gmap string string)
    training_uri test_uri :
  always_ok w ->
  environ !! "AIP_TRAINING_DATA_URI" = Some training_uri ->
  environ !! "AIP_TEST_DATA_URI" = Some test_uri ->
  environ !! "AIP_MODEL_DIR" = None ->
  fst (run (train_py w environ)) = Raise (KeyError "AIP_MODEL_DIR")
  /\ existsb is_fit (snd (run (train_py w environ))) = true
  /\ existsb is_dump (snd (run (train_py w environ))) = true
  /\ existsb is_upload (snd (run (train_py w environ))) = false.
Proof.
  intros (Hbq & Hst & Hfs & Hlr & Hdf & Hnew & Hfit & Hscore & Hdump & Hbucket & _ & _)
         E1 E2 E3.
  destruct Hbq as [c1 Hbq]. destruct Hst as [c2 Hst]. destruct Hnew as [m Hnew].
  unfold run, train_py, download_table, bind, call, lift, environ_get, ret. cbv zeta.
  rewrite Hbq, Hst, E1, E2, E3. cbn [app].
  repeat match goal with
         | |- context [from_string w ?a] =>
             let t := fresh "t" in let E := fresh "E" in
             destruct (Hfs a) as [t E]; rewrite E; clear E; cbn [app]
         | |- context [list_rows w ?a] =>
             let t := fresh "r" in let E := fresh "E" in
             destruct (Hlr a) as [t E]; rewrite E; clear E; cbn [app]
         | |- context [to_dataframe w ?a ?b] =>
             let t := fresh "df" in let E := fresh "E" in let C := fresh "C" in
             destruct (Hdf a b) as (t & E & C); rewrite E; clear E; cbn [app];
             let p := fresh "p" in let P := fresh "P" in
             destruct (pop_present t "Class" C) as [p P]
         end.
  repeat match goal with
         | P : pop _ _ = Ok _ |- _ => rewrite P; clear P
         end.
  rewrite Hnew. cbn [app fst snd].
  match goal with
  | |- context [fit w ?a ?b ?c] => destruct (Hfit a b c) as [m' E]; rewrite E; clear E
  end.
  cbn [app].
  match goal with
  | |- context [score w ?a ?b ?c] => destruct (Hscore a b c) as [s E]; rewrite E; clear E
  end.
  cbn [app]. rewrite Hdump. cbn [app].
  destruct (Hbucket "YOUR_GCS_BUCKET") as [b E]. rewrite E. cbn [app].
  repeat split.
Qed.

End WithSdk.

Lemma train_py_needs_label_column_witness :
  fst (run (train_py (Samples.sdk_ok ["Area"; "Perimeter"]) Samples.environ_full))
  = Raise (KeyError "Class")
  /\ existsb is_new_classifier
       (snd (run (train_py (Samples.sdk_ok ["Area"; "Perimeter"]) Samples.environ_full)))
     = false.
Proof.
  apply (train_py_needs_label_column (Samples.sdk_ok ["Area"; "Perimeter"])
           Samples.environ_full tt tt "bq://project.dataset.training"
           "bq://project.dataset.test"
           (mkDataFrame ["Area"; "Perimeter"] []) (mkDataFrame ["Area"; "Perimeter"] []));
    try reflexivity.
  left. simpl. intuition discriminate.
Defined.

Lemma sdk_ok_always_ok : always_ok (Samples.sdk_ok Samples.beans_columns).
Proof.
  unfold always_ok, Samples.sdk_ok.
  cbn [bigquery_Client storage_Client from_string list_rows to_dataframe new_classifier
       fit score dump get_bucket blob_from_string upload_from_filename].
  repeat split; eauto.
  intros r b. eexists. split; [reflexivity|].
  cbn [columns]. unfold Samples.beans_columns. apply in_or_app. right. now left.
Defined.

Lemma train_py_reads_model_dir_late_witness :
  fst (run (train_py (Samples.sdk_ok Samples.beans_columns)
                     MoreSamples.environ_no_model_dir))
  = Raise (KeyError "AIP_MODEL_DIR").
Proof.
  apply (train_py_reads_model_dir_late (Samples.sdk_ok Samples.beans_columns)
           MoreSamples.environ_no_model_dir
           "bq://project.dataset.training" "bq://project.dataset.test"
           sdk_ok_always_ok); reflexivity.
Defined.

End TrainRunFacts.

Module PipelineParamFacts.
Import Py Pipeline.

Section Wiring.
Variable declared_outputs : component -> list string.
Variable BUCKET_NAME : string.
Variables bq_source project gcp_region bq_dest container_uri batch_destination : string.

(** X15: the [bucket] parameter of the pipeline reaches the training task
    as its staging bucket and nothing else: with another [bucket] the
    dataset task and the batch prediction task are the same, the training
    task differs in [staging_bucket] only, and the batch prediction still
    reads [batch_examples.csv] from the notebook's [BUCKET_NAME]. *)
Theorem my_pipeline_bucket_is_staging_only (bucket bucket' : string) :
  let tasks := snd (run (my_pipeline declared_outputs BUCKET_NAME bq_source bucket project
                                     gcp_region bq_dest container_uri batch_destination)) in
  let tasks' := snd (run (my_pipeline declared_outputs BUCKET_NAME bq_source bucket' project
                                      gcp_region bq_dest container_uri batch_destination)) in
  length tasks = length tasks'
  /\ nth_error tasks 0 = nth_error tasks' 0
  /\ nth_error tasks 2 = nth_error tasks' 2
  /\ (forall t t', nth_error tasks 1 = Some t -> nth_error tasks' 1 = Some t' ->
        op t = op t'
        /\ kwarg "staging_bucket" (kwargs t) = Some (Input bucket)
        /\ kwarg "staging_bucket" (kwargs t') = Some (Input bucket')
        /\ filter (fun kv => negb (String.eqb (fst kv) "staging_bucket")) (kwargs t)
           = filter (fun kv => negb (String.eqb (fst kv) "staging_bucket")) (kwargs t'))
  /\ (forall t, nth_error tasks 2 = Some t ->
        kwarg "gcs_source_uris" (kwargs t)
        = Some (StrList [(BUCKET_NAME ++ "/batch_examples.csv")%string])).
Proof.
  cbv zeta. unfold run, my_pipeline, bind, outputs, create, ret, raise.
  cbn [length app].
  destruct (existsb (String.eqb "dataset") (declared_outputs TabularDatasetCreateOp));
    cbn [length app snd nth_error];
    [destruct (existsb (String.eqb "model")
                 (declared_outputs CustomContainerTrainingJobRunOp));
       cbn [length app snd nth_error]|];
    repeat split; intros;
    repeat match goal with
           | H : Some _ = Some _ |- _ => injection H as <-
           | H : None = Some _ |- _ => discriminate H
           end;
    reflexivity.
Qed.

End Wiring.

Lemma my_pipeline_bucket_is_staging_only_witness :
  nth_error (snd (run (my_pipeline Samples.declared_outputs "gs://p-bucket" "bq://t"
                         "gs://p-bucket" "p" "us-central1" "bq://p" "image:v1" "gs://out/"))) 2
  = nth_error (snd (run (my_pipeline Samples.declared_outputs "gs://p-bucket" "bq://t"
                           "gs://other" "p" "us-central1" "bq://p" "image:v1" "gs://out/"))) 2.
Proof.
  exact (proj1 (proj2 (proj2
    (my_pipeline_bucket_is_staging_only Samples.declared_outputs "gs://p-bucket" "bq://t"
       "p" "us-central1" "bq://p" "image:v1" "gs://out/" "gs://p-bucket" "gs://other")))).
Defined.

End PipelineParamFacts.

Module SetupFacts.
Import Py Setup PyFacts.
#[local] Open Scope string_scope.

Section Cells.
Variable sh : string -> list string.


(** X17: when gcloud prints a project and an account, the project cell
    names the bucket [gs://<project>-bucket], and the bucket cell trims
    exactly the scheme off that name: its one shell command is the sed that
    writes [<project>-bucket] in the place of YOUR_GCS_BUCKET in train.py,
    for every project id.  A project id written into the cell is used as it
    is, without asking gcloud. *)
Theorem bucket_cell_trims_the_scheme (project account : string) :
  (forall lines lines',
     sh gcloud_project = project :: lines ->
     sh gcloud_account = account :: lines' ->
     fst (run (project_cell sh EmptyString))
     = Ok (project, "gs://" ++ project ++ "-bucket", "serviceAccount:" ++ account))
  /\ run (bucket_cell ("gs://" ++ project ++ "-bucket"))
     = (Ok (project ++ "-bucket"),
        [Sh ("sed -i -r " ++ dq ++ "s/YOUR_GCS_BUCKET/" ++ (project ++ "-bucket") ++ "/" ++ dq
               ++ " traincontainer/trainer/train.py")])
  /\ (project <> EmptyString ->
      forall lines',
        sh gcloud_account = account :: lines' ->
        fst (run (project_cell sh project))
        = Ok (project, "gs://" ++ project ++ "-bucket", "serviceAccount:" ++ account)
        /\ ~ In (Sh gcloud_project) (snd (run (project_cell sh project)))).
Proof.
  split; [|split].
  - intros lines lines' Hp Ha.
    unfold run, project_cell, bind, call, lift, ret. simpl String.eqb. cbv iota.
    rewrite Hp, Ha. reflexivity.
  - unfold run, bucket_cell, bind, call, ret.
    pose proof (slice_from_append "gs://" (project ++ "-bucket")) as L.
    simpl String.length in L. now rewrite L.
  - intros Hne lines' Ha.
    unfold run, project_cell, bind, call, lift, ret.
    destruct (String.eqb_spec project EmptyString) as [E|_]; [contradiction|].
    rewrite Ha. split; [reflexivity|].
    cbn [snd app In]. intros [H|[H|[H|[H|[]]]]]; discriminate H.
Qed.

End Cells.


Lemma bucket_cell_trims_the_scheme_witness :
  fst (run (project_cell MoreSamples.shell EmptyString))
  = Ok ("my-project", "gs://" ++ "my-project" ++ "-bucket",
        "serviceAccount:" ++ "me@example.com").
Proof.
  exact (proj1 (bucket_cell_trims_the_scheme MoreSamples.shell "my-project" "me@example.com")
           [] [] eq_refl eq_refl).
Defined.

Example bucket_cell_of_my_project :
  run (bucket_cell "gs://my-project-bucket")
  = (Ok "my-project-bucket",
     [Sh ("sed -i -r " ++ dq ++ "s/YOUR_GCS_BUCKET/my-project-bucket/" ++ dq
            ++ " traincontainer/trainer/train.py")]).
Proof. reflexivity. Qed.

End SetupFacts.
